(** * UltraMarket recommendation engine: fusion, post-filter and fallback

    A shallow embedding of
    [microservices/ml-ai/ai-recommendation-engine/src/index.py]
    (class [UzbekistanRecommendationEngine] and the similar-products
    endpoint), and the properties of the fusion / post-filter pipeline.

    Numbers are the code's: Python [float] is IEEE binary64, embedded as
    Rocq's primitive floats, so every arithmetic step rounds as it does
    in the interpreter.  Python exceptions are an explicit error monad.
    The collaborators the module only calls (the SQL store, the calendar
    helpers, the text processor, scikit-learn's cosine kernel and NumPy's
    [argsort]) are gathered in one record, [World]. *)

From Stdlib Require Import ZArith List String Floats Bool Lia Permutation Sorted.
From Stdlib Require Uint63.
Import ListNotations.

Set Warnings "-inexact-float".

Local Open Scope string_scope.
Local Open Scope list_scope.

(* ================================================================== *)
(** ** Python values the module relies on *)
(* ================================================================== *)

Module Py.

(** Exceptions the code raises or catches. *)
Inductive exn : Type :=
| ValueError
| IndexError
| HTTPException (status_code : Z).

Inductive result (A : Type) : Type :=
| Ok (a : A)
| Raise (e : exn).
Arguments Ok {A} a.
Arguments Raise {A} e.

Definition bind {A B} (m : result A) (k : A -> result B) : result B :=
  match m with
  | Ok a => k a
  | Raise e => Raise e
  end.

(** [try: body except ValueError: handler] *)
Definition except_ValueError {A} (body : result A) (handler : result A)
  : result A :=
  match body with
  | Raise ValueError => handler
  | r => r
  end.

(** [for x in xs: body x] where the body only can raise. *)
Fixpoint for_each {A} (xs : list A) (body : A -> result unit) : result unit :=
  match xs with
  | [] => Ok tt
  | x :: xs' => bind (body x) (fun _ => for_each xs' body)
  end.

(** [for x in xs: out.append(body x)] *)
Fixpoint collect {A B} (xs : list A) (body : A -> result B) : result (list B) :=
  match xs with
  | [] => Ok []
  | x :: xs' =>
      bind (body x) (fun b => bind (collect xs' body) (fun bs => Ok (b :: bs)))
  end.

(** [xs.index(x)]: position of the first occurrence, [ValueError] if none. *)
Fixpoint index_from (x : string) (xs : list string) (i : nat) : result nat :=
  match xs with
  | [] => Raise ValueError
  | y :: ys => if String.eqb y x then Ok i else index_from x ys (S i)
  end.

Definition index (xs : list string) (x : string) : result nat :=
  index_from x xs 0.

(** [xs[i]] for a non-negative index, [IndexError] out of range. *)
Definition getitem {A} (xs : list A) (i : nat) : result A :=
  match nth_error xs i with
  | Some a => Ok a
  | None => Raise IndexError
  end.

(** Slice bounds: a negative bound counts from the end, and both ends
    are clamped to the list. *)
Definition clamp (n : nat) (i : Z) : nat :=
  if (i <? 0)%Z then Z.to_nat (Z.max 0 (Z.of_nat n + i))
  else Nat.min (Z.to_nat i) n.

(** [xs[start:stop]] *)
Definition slice {A} (xs : list A) (start stop : Z) : list A :=
  let n := List.length xs in
  let s := clamp n start in
  let e := clamp n stop in
  firstn (e - s) (skipn s xs).

(** [xs[:stop]] *)
Definition slice_to {A} (xs : list A) (stop : Z) : list A :=
  firstn (clamp (List.length xs) stop) xs.

(** Truthiness of an optional string: [None] and [''] are falsy. *)
Definition truthy (s : option string) : bool :=
  match s with
  | Some s' => negb (String.eqb s' "")
  | None => false
  end.

(** [x or default] on an optional float: [None] and zero are falsy. *)
Definition or_float (x : option float) (default : float) : float :=
  match x with
  | Some v => if PrimFloat.eqb v 0%float then default else v
  | None => default
  end.

(** [xs or default] on an optional list: [None] and [[]] are falsy. *)
Definition or_list {A} (xs : option (list A)) (default : list A) : list A :=
  match xs with
  | Some (x :: xs') => x :: xs'
  | _ => default
  end.

(** [x in xs] on a list of strings. *)
Definition mem (x : string) (xs : list string) : bool :=
  existsb (String.eqb x) xs.

(** [sep.join(xs)] *)
Fixpoint join (sep : string) (xs : list string) : string :=
  match xs with
  | [] => ""
  | [x] => x
  | x :: xs' => x ++ sep ++ join sep xs'
  end.

(** A [dict] with string keys: an association list in insertion order
    (Python keeps it), at most one binding per key. *)
Definition dict (V : Type) : Type := list (string * V).

Fixpoint get {V} (d : dict V) (k : string) : option V :=
  match d with
  | [] => None
  | (k', v) :: d' => if String.eqb k' k then Some v else get d' k
  end.

(** [d.get(k, default)] *)
Definition get_default {V} (d : dict V) (k : string) (default : V) : V :=
  match get d k with
  | Some v => v
  | None => default
  end.

(** [k in d] *)
Definition contains {V} (d : dict V) (k : string) : bool :=
  match get d k with
  | Some _ => true
  | None => false
  end.

(** [d[k] = v]: overwrite in place, or append a new binding. *)
Fixpoint set {V} (d : dict V) (k : string) (v : V) : dict V :=
  match d with
  | [] => [(k, v)]
  | (k', v') :: d' =>
      if String.eqb k' k then (k', v) :: d' else (k', v') :: set d' k v
  end.

(** [d[k] = f(d[k])] for a key that is present (no-op otherwise; the
    code only uses it right after making the key present). *)
Fixpoint update {V} (d : dict V) (k : string) (f : V -> V) : dict V :=
  match d with
  | [] => []
  | (k', v') :: d' =>
      if String.eqb k' k then (k', f v') :: d' else (k', v') :: update d' k f
  end.

(** [for k, v in d.items(): d[k] = f(v)] *)
Definition map_values {V} (f : V -> V) (d : dict V) : dict V :=
  map (fun kv => (fst kv, f (snd kv))) d.

Definition keys {V} (d : dict V) : list string := map fst d.
Definition values {V} (d : dict V) : list V := map snd d.

(** [sum(xs)] on floats: starts from the integer 0 and adds left to right. *)
Definition sum (xs : list float) : float :=
  fold_left PrimFloat.add xs 0%float.

(** [sorted(xs, key=key, reverse=True)]: a stable sort, descending; the
    interpreter compares keys with [<] only.  An element is moved behind
    another only when its key is strictly smaller. *)
Fixpoint insert_desc {A} (key : A -> float) (x : A) (xs : list A) : list A :=
  match xs with
  | [] => [x]
  | y :: ys =>
      if PrimFloat.ltb (key x) (key y) then y :: insert_desc key x ys
      else x :: y :: ys
  end.

Definition sorted_desc {A} (key : A -> float) (xs : list A) : list A :=
  fold_right (insert_desc key) [] xs.

(** "Not smaller than the next one": what a descending sort achieves
    between neighbours. *)
Definition not_below {A} (key : A -> float) (x y : A) : Prop :=
  PrimFloat.ltb (key x) (key y) = false.

End Py.

Notation "x <- m ;; k" := (Py.bind m (fun x => k))
  (at level 61, m at next level, right associativity).

(** [float(n)] for a Python [int] below 2^63 in magnitude. *)
Definition float_of_int (n : Z) : float :=
  match n with
  | Z0 => 0%float
  | Zpos _ => PrimFloat.of_uint63 (Uint63.of_Z n)
  | Zneg p => PrimFloat.opp (PrimFloat.of_uint63 (Uint63.of_Z (Zpos p)))
  end.

(* ================================================================== *)
(** ** NumPy: [argsort] *)
(* ================================================================== *)

Module Np.

(** NumPy's order on floats puts NaN last: [a < b || (b != b && a == a)]. *)
Definition lt (a b : float) : bool :=
  PrimFloat.ltb a b || (PrimFloat.is_nan b && negb (PrimFloat.is_nan a)).

(** [a[i]] for an index the sort produced. *)
Definition value (a : list float) (i : nat) : float := nth i a nan.

(** What [numpy.argsort(a)] promises: the indices of [a], each once,
    arranged so that no entry is followed by a smaller one.  The default
    kind is not stable, so the order of equal entries is left open. *)
Definition ascending (a : list float) (i j : nat) : Prop :=
  lt (value a j) (value a i) = false.

Definition is_argsort (a : list float) (p : list nat) : Prop :=
  Permutation p (seq 0 (List.length a)) /\ Sorted (ascending a) p.

(** A reference [argsort]: insertion sort, which is what NumPy runs on
    short arrays; equal entries keep their index order. *)
Fixpoint insert (a : list float) (i : nat) (p : list nat) : list nat :=
  match p with
  | [] => [i]
  | j :: p' =>
      if lt (value a j) (value a i) then j :: insert a i p'
      else i :: j :: p'
  end.

Definition argsort (a : list float) : list nat :=
  fold_right (insert a) [] (seq 0 (List.length a)).

End Np.

(* ================================================================== *)
(** ** Data model *)
(* ================================================================== *)

(** A row of a dense or sparse matrix. *)
Definition Vec : Type := list float.

Record UserProfile : Type := {
  user_id : string;
  region : string;
  language : string;
  age_group : option string;
  gender : option string;
  income_level : option string;
  interests : list string;
  purchase_history : list string
}.

(** The row [apply_uzbekistan_filters] fetches for a product id
    ([p.*] joined with the vendor's region and rating). *)
Module Product.
Record t : Type := {
  name : option string;
  name_ru : option string;
  price : float;
  vendor_region : string;
  vendor_rating : float;
  category : string
}.
End Product.

(** A row of the category query of [get_cultural_recommendations]. *)
Module CulturalRow.
Record t : Type := {
  product_id : string;
  category : string;
  price : float;
  vendor_rating : float;
  cultural_relevance : float
}.
End CulturalRow.

(** A row of the popularity query of [get_popular_recommendations];
    [avg_rating] is NULL for a product without reviews. *)
Module PopularRow.
Record t : Type := {
  product_id : string;
  order_count : Z;
  avg_rating : option float
}.
End PopularRow.

(** One candidate as a signal produces it:
    [{'product_id', 'score', 'reason'[, 'cultural_factor']}]. *)
Module Signal.
Record t : Type := {
  product_id : string;
  score : float;
  reason : option string;
  cultural_factor : option string
}.
End Signal.

(** The display fields [rec.update({...})] adds in the post-filter. *)
Module Details.
Record t : Type := {
  product_name : option string;
  product_name_ru : option string;
  price : float;
  vendor_region : string;
  vendor_rating : float;
  category : string
}.
End Details.

(** One fused candidate: the dict built by [combine_recommendations]. *)
Module Rec.
Record t : Type := {
  product_id : string;
  scores : Py.dict float;
  reasons : list string;
  total_score : float;
  cultural_factor : option string;
  details : option Details.t
}.

Definition set_total_score (r : t) (s : float) : t :=
  {| product_id := product_id r; scores := scores r; reasons := reasons r;
     total_score := s; cultural_factor := cultural_factor r;
     details := details r |}.
End Rec.

(** [self.models[...]]: the three artifacts, each possibly missing. *)
Module Collaborative.
Record t : Type := {
  user_factors : list Vec;
  item_factors : list Vec;
  user_index : list string;
  item_index : list string
}.
End Collaborative.

Module Content.
Record t : Type := {
  tfidf_vectorizer : string -> Vec;   (* the fitted [transform] *)
  feature_matrix : list Vec;
  product_ids : list string
}.
End Content.

Module Cultural.
Record multipliers : Type := {
  ramadan : float;
  navruz : float;
  new_year : float;
  wedding_season : float
}.
Record t : Type := {
  cultural_vectors : Py.dict (list string);
  seasonal_multipliers : multipliers
}.
End Cultural.

Module Models.
Record t : Type := {
  collaborative : option Collaborative.t;
  content : option Content.t;
  cultural : option Cultural.t
}.
End Models.

(** [weights] of [combine_recommendations]. *)
Module Weights.
Record t : Type := {
  collaborative : float;
  content : float;
  cultural : float
}.
End Weights.

(** Everything the engine calls but does not define. *)
Record World : Type := {
  (* uzbek_nlp.UzbekTextProcessor.process_text *)
  process_text : string -> string;
  (* sklearn's cosine_similarity, for one pair of rows *)
  cosine : Vec -> Vec -> float;
  (* numpy.argsort *)
  argsort : list float -> list nat;
  (* datetime.now().month and the calendar helpers evaluated now *)
  month : Z;
  is_ramadan_period : bool;
  is_navruz_period : bool;
  is_new_year_period : bool;
  (* the three SQL queries *)
  fetch_product : string -> option Product.t;
  fetch_cultural_products : list string -> float -> Z -> list CulturalRow.t;
  fetch_popular_products : Z -> list PopularRow.t
}.

(** [cosine_similarity(x, Y)[0]]: one similarity per row of [Y]. *)
Definition cosine_similarity (w : World) (x : Vec) (Y : list Vec) : list float :=
  map (cosine w x) Y.

(* ================================================================== *)
(** ** UzbekistanRecommendationEngine *)
(* ================================================================== *)

Section Engine.

Variable w : World.
(** [self.models] *)
Variable models : Models.t.

Local Open Scope float_scope.

(** [get_current_season] *)
Definition get_current_season : string :=
  let month := month w in
  if existsb (Z.eqb month) [3; 4; 5]%Z then "spring"
  else if existsb (Z.eqb month) [6; 7; 8]%Z then "summer"
  else if existsb (Z.eqb month) [9; 10; 11]%Z then "autumn"
  else "winter".

(** [get_cultural_explanation] *)
Definition get_cultural_explanation
    (is_ramadan is_navruz is_new_year : bool) (season : string) : string :=
  if is_ramadan then
    "Ramazon muborak! Ro'za tutish uchun tavsiya etilgan mahsulotlar"
  else if is_navruz then
    "Navruz bayrami muborak! An'anaviy bayram mahsulotlari"
  else if is_new_year then
    "Yangi yil bayrami! Bayram sovg'alari va bezaklari"
  else
    let season_explanations :=
      [ ("spring", "Bahor mavsumi uchun tavsiya etilgan mahsulotlar");
        ("summer", "Yoz mavsumi uchun tavsiya etilgan mahsulotlar");
        ("autumn", "Kuz mavsumi uchun tavsiya etilgan mahsulotlar");
        ("winter", "Qish mavsumi uchun tavsiya etilgan mahsulotlar") ] in
    Py.get_default season_explanations season
      "Sizga tavsiya etilgan mahsulotlar".

(** [get_popular_recommendations]: the fallback.  The ranking itself is
    the store's ([ORDER BY order_count DESC, avg_rating DESC LIMIT $1]);
    the code scores the rows it gets, in the order it gets them. *)
Definition get_popular_recommendations
    (user_profile : UserProfile) (limit : Z) : list Signal.t :=
  map (fun row =>
         {| Signal.product_id := PopularRow.product_id row;
            Signal.score :=
              float_of_int (PopularRow.order_count row)
              * Py.or_float (PopularRow.avg_rating row) 3.0;
            Signal.reason := Some "popular_in_uzbekistan";
            Signal.cultural_factor := None |})
      (fetch_popular_products w limit).

(** [get_collaborative_recommendations] *)
Definition get_collaborative_recommendations
    (user_profile : UserProfile) (limit : Z) : Py.result (list Signal.t) :=
  match Models.collaborative models with
  | None => Py.Ok []
  | Some model =>
      Py.except_ValueError
        (user_idx <- Py.index (Collaborative.user_index model)
                              (user_id user_profile) ;;
         user_vector <- Py.getitem (Collaborative.user_factors model) user_idx ;;
         let similarities :=
           cosine_similarity w user_vector (Collaborative.user_factors model) in
         let similar_user_indices :=
           Py.slice (rev (argsort w similarities)) 1 11 in
         let recommendations : list Signal.t := [] in
         _ <- Py.for_each similar_user_indices
                (fun user_idx =>
                   similar_user_id <-
                     Py.getitem (Collaborative.user_index model) user_idx ;;
                   (* pass *)
                   Py.Ok tt) ;;
         Py.Ok (Py.slice_to recommendations limit))
        (Py.Ok (get_popular_recommendations user_profile limit))
  end.

(** The first half of [get_content_recommendations]: the user's
    pseudo-document, its vector, and its similarity to every product. *)
Definition content_similarities
    (model : Content.t) (user_profile : UserProfile) : list float :=
  let user_categories :=
    purchase_history user_profile ++ interests user_profile in
  let user_text := Py.join " " user_categories in
  let user_text :=
    if String.eqb (language user_profile) "uz"
    then process_text w user_text else user_text in
  let user_vector := Content.tfidf_vectorizer model user_text in
  cosine_similarity w user_vector (Content.feature_matrix model).

(** [get_content_recommendations] *)
Definition get_content_recommendations
    (user_profile : UserProfile) (limit : Z) : Py.result (list Signal.t) :=
  match Models.content models with
  | None => Py.Ok []
  | Some model =>
      let similarities := content_similarities model user_profile in
      let top_indices := Py.slice_to (rev (argsort w similarities)) limit in
      Py.collect top_indices
        (fun idx =>
           product_id <- Py.getitem (Content.product_ids model) idx ;;
           score <- Py.getitem similarities idx ;;
           Py.Ok {| Signal.product_id := product_id;
                    Signal.score := score;
                    Signal.reason := Some "content_similarity";
                    Signal.cultural_factor := None |})
  end.

(** [get_cultural_recommendations] *)
Definition get_cultural_recommendations
    (user_profile : UserProfile) (context : string) (limit : Z)
  : list Signal.t :=
  match Models.cultural models with
  | None => []
  | Some model =>
      let current_season := get_current_season in
      let is_ramadan := is_ramadan_period w in
      let is_navruz := is_navruz_period w in
      let is_new_year := is_new_year_period w in
      let mult := Cultural.seasonal_multipliers model in
      let '(relevant_categories, multiplier) :=
        if is_ramadan then
          (["food"; "dates"; "religious_items"; "gifts"], Cultural.ramadan mult)
        else if is_navruz then
          (["traditional_clothes"; "decorations"; "sweets"],
           Cultural.navruz mult)
        else if is_new_year then
          (["electronics"; "toys"; "clothes"; "decorations"],
           Cultural.new_year mult)
        else
          (Py.get_default (Cultural.cultural_vectors model)
             ("season_" ++ current_season) [], 1.0) in
      let regional_categories :=
        Py.get_default (Cultural.cultural_vectors model)
          ("region_" ++ region user_profile) [] in
      let relevant_categories := relevant_categories ++ regional_categories in
      map (fun row =>
             {| Signal.product_id := CulturalRow.product_id row;
                Signal.score :=
                  CulturalRow.vendor_rating row
                  * CulturalRow.cultural_relevance row * multiplier;
                Signal.reason := Some "cultural_relevance";
                Signal.cultural_factor :=
                  Some (get_cultural_explanation
                          is_ramadan is_navruz is_new_year current_season) |})
          (fetch_cultural_products w relevant_categories multiplier limit)
  end.

(** The weights block of [combine_recommendations] (baseline, urban or
    rural shift, holiday shift); nothing renormalises afterwards. *)
Definition adjust_weights (user_profile : UserProfile) (context : string)
  : Weights.t :=
  let weights :=
    {| Weights.collaborative := 0.4;
       Weights.content := 0.3;
       Weights.cultural := 0.3 |} in
  let weights :=
    if Py.mem (region user_profile) ["TSH"; "SAM"] then
      {| Weights.collaborative := Weights.collaborative weights;
         Weights.content := Weights.content weights + 0.1;
         Weights.cultural := Weights.cultural weights - 0.1 |}
    else
      {| Weights.collaborative := Weights.collaborative weights;
         Weights.content := Weights.content weights - 0.1;
         Weights.cultural := Weights.cultural weights + 0.1 |} in
  if String.eqb context "holiday_shopping" then
    {| Weights.collaborative := Weights.collaborative weights - 0.1;
       Weights.content := Weights.content weights - 0.1;
       Weights.cultural := Weights.cultural weights + 0.2 |}
  else weights.

(** The entry a product gets the first time a signal names it. *)
Definition new_entry (product_id : string) : Rec.t :=
  {| Rec.product_id := product_id;
     Rec.scores := [];
     Rec.reasons := [];
     Rec.total_score := 0;
     Rec.cultural_factor := None;
     Rec.details := None |}.

(** The body of the three merge loops.  [signal] is the key written in
    [scores] and the default reason; only the cultural loop copies
    [cultural_factor]. *)
Definition add_recommendation
    (signal : string) (weight : float) (copy_factor : bool)
    (all_recommendations : Py.dict Rec.t) (rec : Signal.t)
  : Py.dict Rec.t :=
  let product_id := Signal.product_id rec in
  let all_recommendations :=
    if Py.contains all_recommendations product_id then all_recommendations
    else Py.set all_recommendations product_id (new_entry product_id) in
  Py.update all_recommendations product_id
    (fun data =>
       {| Rec.product_id := Rec.product_id data;
          Rec.scores := Py.set (Rec.scores data) signal
                          (Signal.score rec * weight);
          Rec.reasons :=
            Rec.reasons data
            ++ [match Signal.reason rec with
                | Some r => r
                | None => signal
                end];
          Rec.total_score := Rec.total_score data;
          Rec.cultural_factor :=
            match copy_factor, Signal.cultural_factor rec with
            | true, Some f => Some f
            | _, _ => Rec.cultural_factor data
            end;
          Rec.details := Rec.details data |}).

(** The three loops, in the order the code runs them. *)
Definition merge_signals (weights : Weights.t)
    (collaborative_recs content_recs cultural_recs : list Signal.t)
  : Py.dict Rec.t :=
  let all_recommendations : Py.dict Rec.t := [] in
  let all_recommendations :=
    fold_left
      (add_recommendation "collaborative" (Weights.collaborative weights) false)
      collaborative_recs all_recommendations in
  let all_recommendations :=
    fold_left
      (add_recommendation "content" (Weights.content weights) false)
      content_recs all_recommendations in
  fold_left
    (add_recommendation "cultural" (Weights.cultural weights) true)
    cultural_recs all_recommendations.

(** [data['total_score'] = sum(data['scores'].values())] *)
Definition with_total (data : Rec.t) : Rec.t :=
  Rec.set_total_score data (Py.sum (Py.values (Rec.scores data))).

(** [combine_recommendations] *)
Definition combine_recommendations
    (collaborative_recs content_recs cultural_recs : list Signal.t)
    (user_profile : UserProfile) (context : string) : list Rec.t :=
  let weights := adjust_weights user_profile context in
  let all_recommendations :=
    merge_signals weights collaborative_recs content_recs cultural_recs in
  let all_recommendations := Py.map_values with_total all_recommendations in
  Py.sorted_desc Rec.total_score (Py.values all_recommendations).

(** The two tables of [get_max_price_for_user]; the integer base prices
    convert to floats exactly. *)
Definition base_prices : Py.dict float :=
  [ ("low", 500000); ("medium", 2000000); ("high", 10000000) ].

Definition regional_multipliers : Py.dict float :=
  [ ("TSH", 1.2); ("SAM", 1.0); ("BUX", 0.9); ("AND", 0.85);
    ("FAR", 0.85); ("NAM", 0.8); ("QAS", 0.8); ("SUR", 0.75);
    ("NAV", 0.8); ("JIZ", 0.8); ("SIR", 0.8); ("XOR", 0.75);
    ("QOR", 0.7) ].

(** [get_max_price_for_user] *)
Definition get_max_price_for_user (user_profile : UserProfile) : float :=
  let income_level :=
    if Py.truthy (income_level user_profile)
    then match income_level user_profile with
         | Some s => s
         | None => "medium"
         end
    else "medium" in
  let base_price :=
    Py.get_default base_prices income_level
      (Py.get_default base_prices "medium" 2000000) in
  let multiplier :=
    Py.get_default regional_multipliers (region user_profile) 0.9 in
  base_price * multiplier.

(** [should_prefer_local_vendor] *)
Definition should_prefer_local_vendor
    (user_profile : UserProfile) (vendor_region : string) : bool :=
  if String.eqb (region user_profile) vendor_region then true
  else
    let adjacent_regions :=
      [ ("TSH", ["SIR"; "JIZ"]);
        ("SAM", ["BUX"; "QAS"; "NAV"]);
        ("BUX", ["SAM"; "QAS"; "XOR"]);
        ("AND", ["FAR"; "NAM"]);
        ("FAR", ["AND"; "NAM"]);
        ("NAM", ["AND"; "FAR"]);
        ("QAS", ["SAM"; "BUX"; "SUR"]);
        ("SUR", ["QAS"]);
        ("NAV", ["SAM"; "BUX"]);
        ("JIZ", ["TSH"; "NAV"]);
        ("SIR", ["TSH"]);
        ("XOR", ["BUX"; "QOR"]);
        ("QOR", ["XOR"]) ] in
    Py.mem vendor_region
      (Py.get_default adjacent_regions (region user_profile) []).

(** One turn of the loop of [apply_uzbekistan_filters]: [None] is a
    [continue], [Some] the record appended to [filtered_recs]. *)
Definition filter_step (user_profile : UserProfile) (rec : Rec.t)
  : option Rec.t :=
  match fetch_product w (Rec.product_id rec) with
  | None => None
  | Some product =>
      let max_price := get_max_price_for_user user_profile in
      if PrimFloat.ltb max_price (Product.price product) then None
      else
        let rec :=
          if should_prefer_local_vendor user_profile
               (Product.vendor_region product)
          then Rec.set_total_score rec (Rec.total_score rec * 1.2)
          else rec in
        let rec :=
          if String.eqb (language user_profile) "uz"
             && Py.truthy (Product.name_ru product)
             && negb (Py.truthy (Product.name product))
          then Rec.set_total_score rec (Rec.total_score rec * 0.8)
          else rec in
        Some {| Rec.product_id := Rec.product_id rec;
                Rec.scores := Rec.scores rec;
                Rec.reasons := Rec.reasons rec;
                Rec.total_score := Rec.total_score rec;
                Rec.cultural_factor := Rec.cultural_factor rec;
                Rec.details :=
                  Some {| Details.product_name := Product.name product;
                          Details.product_name_ru := Product.name_ru product;
                          Details.price := Product.price product;
                          Details.vendor_region :=
                            Product.vendor_region product;
                          Details.vendor_rating :=
                            Product.vendor_rating product;
                          Details.category := Product.category product |} |}
  end.

(** [apply_uzbekistan_filters] *)
Fixpoint apply_uzbekistan_filters
    (recommendations : list Rec.t) (user_profile : UserProfile)
  : list Rec.t :=
  match recommendations with
  | [] => []
  | rec :: rest =>
      match filter_step user_profile rec with
      | Some rec' => rec' :: apply_uzbekistan_filters rest user_profile
      | None => apply_uzbekistan_filters rest user_profile
      end
  end.

(** [get_recommendations] *)
Definition get_recommendations
    (user_profile : UserProfile) (context : string) (limit : Z)
    (exclude_products : option (list string)) : Py.result (list Rec.t) :=
  let exclude_products := Py.or_list exclude_products [] in
  collaborative_recs <-
    get_collaborative_recommendations user_profile (limit * 2) ;;
  content_recs <- get_content_recommendations user_profile (limit * 2) ;;
  let cultural_recs :=
    get_cultural_recommendations user_profile context (limit * 2) in
  let combined_recs :=
    combine_recommendations collaborative_recs content_recs cultural_recs
      user_profile context in
  let filtered_recs := apply_uzbekistan_filters combined_recs user_profile in
  let filtered_recs :=
    filter (fun rec => negb (Py.mem (Rec.product_id rec) exclude_products))
           filtered_recs in
  Py.Ok (Py.slice_to filtered_recs limit).

(** One entry of the [similar_products] list of the endpoint. *)
Record SimilarProduct : Type := {
  similar_product_id : string;
  similarity_score : float;
  similar_reason : string
}.

(** The endpoint [get_similar_products]; the result is the
    ['similar_products'] list of the response. *)
Definition get_similar_products (product_id : string) (limit : Z)
  : Py.result (list SimilarProduct) :=
  match Models.content models with
  | None => Py.Raise (Py.HTTPException 503)
  | Some model =>
      Py.except_ValueError
        (product_idx <- Py.index (Content.product_ids model) product_id ;;
         product_vector <-
           Py.getitem (Content.feature_matrix model) product_idx ;;
         let similarities :=
           cosine_similarity w product_vector (Content.feature_matrix model) in
         let top_indices :=
           Py.slice (rev (argsort w similarities)) 1 (limit + 1) in
         Py.collect top_indices
           (fun idx =>
              similar_product_id <-
                Py.getitem (Content.product_ids model) idx ;;
              similarity_score <- Py.getitem similarities idx ;;
              Py.Ok {| similar_product_id := similar_product_id;
                       similarity_score := similarity_score;
                       similar_reason := "content_similarity" |}))
        (Py.Raise (Py.HTTPException 404))
  end.

End Engine.

(* ================================================================== *)
(** ** Training of the cultural model *)
(* ================================================================== *)

(** One entry of [cultural_events]: only ['categories'] is read later. *)
Module Event.
Record t : Type := {
  categories : list string;
  peak_times : list string;
  price_sensitivity : option string;
  spending_increase : option float
}.
End Event.

(** The dict [fetch_cultural_preferences] returns. *)
Module CulturalData.
Record t : Type := {
  seasonal : Py.dict (list string);
  cultural_events : Py.dict Event.t;
  regional : Py.dict (list string)
}.
End CulturalData.

(** [fetch_cultural_preferences]; [regional_prefs] is what
    [self.regional_prefs.get_preferences()] answers. *)
Definition fetch_cultural_preferences (regional_prefs : Py.dict (list string))
  : CulturalData.t :=
  let seasonal_prefs :=
    [ ("spring", ["garden"; "flowers"; "cleaning"; "navruz"]);
      ("summer", ["cooling"; "vacation"; "fruits"; "weddings"]);
      ("autumn", ["harvest"; "warm_clothes"; "school"]);
      ("winter", ["heating"; "warm_food"; "new_year"]) ] in
  let cultural_events :=
    [ ("ramadan",
       {| Event.categories := ["food"; "religious_items"; "gifts"; "dates"];
          Event.peak_times := ["iftar"; "suhur"];
          Event.price_sensitivity := Some "high";
          Event.spending_increase := None |});
      ("navruz",
       {| Event.categories :=
            ["traditional_clothes"; "decorations"; "sweets"; "gifts"];
          Event.peak_times := ["march_21"];
          Event.price_sensitivity := None;
          Event.spending_increase := Some 1.5%float |});
      ("new_year",
       {| Event.categories := ["electronics"; "toys"; "clothes"; "decorations"];
          Event.peak_times := ["december_january"];
          Event.price_sensitivity := None;
          Event.spending_increase := Some 2.0%float |}) ] in
  {| CulturalData.seasonal := seasonal_prefs;
     CulturalData.cultural_events := cultural_events;
     CulturalData.regional := regional_prefs |}.

(** [train_cultural_model]: three loops of [cultural_vectors[key] = value]. *)
Definition train_cultural_model (cultural_data : CulturalData.t) : Cultural.t :=
  let cultural_vectors : Py.dict (list string) := [] in
  let cultural_vectors :=
    fold_left
      (fun vectors item =>
         Py.set vectors ("season_" ++ fst item) (snd item))
      (CulturalData.seasonal cultural_data) cultural_vectors in
  let cultural_vectors :=
    fold_left
      (fun vectors item =>
         Py.set vectors ("event_" ++ fst item) (Event.categories (snd item)))
      (CulturalData.cultural_events cultural_data) cultural_vectors in
  let cultural_vectors :=
    fold_left
      (fun vectors item =>
         Py.set vectors ("region_" ++ fst item) (snd item))
      (CulturalData.regional cultural_data) cultural_vectors in
  {| Cultural.cultural_vectors := cultural_vectors;
     Cultural.seasonal_multipliers :=
       {| Cultural.ramadan := 1.5%float;
          Cultural.navruz := 1.8%float;
          Cultural.new_year := 2.0%float;
          Cultural.wedding_season := 1.3%float |} |}.

(* ================================================================== *)
(** ** The serving layer: profiles, responses and the cache *)
(* ================================================================== *)

(** The row [get_user_profile] reads; NULLs are [None], and the two
    aggregated arrays may hold NULL elements. *)
Module UserRow.
Record t : Type := {
  user_id : string;
  region : option string;
  language : option string;
  age_group : option string;
  gender : option string;
  income_level : option string;
  interests : option (list (option string));
  purchase_history : option (list (option string))
}.
End UserRow.

(** A row of the trending query. *)
Module TrendingRow.
Record t : Type := {
  product_id : string;
  name : string;
  price : float;
  category : string;
  recent_orders : Z;
  total_items_sold : Z;
  avg_rating : option float
}.
End TrendingRow.

(** One entry of ['trending_products']. *)
Module Trending.
Record t : Type := {
  product_id : string;
  name : string;
  price : float;
  category : string;
  recent_orders : Z;
  total_items_sold : Z;
  avg_rating : option float;
  trend_score : Z
}.
End Trending.

(** [uzbekistan_factors] of a response. *)
Module Factors.
Record t : Type := {
  current_season : string;
  is_ramadan : bool;
  is_navruz : bool;
  user_region : string;
  cultural_weighting_applied : bool
}.
End Factors.

(** [RecommendationResponse] *)
Module Response.
Record t : Type := {
  user_id : string;
  recommendations : list Rec.t;
  context : string;
  generated_at : string;
  model_version : string;
  uzbekistan_factors : Factors.t
}.
End Response.

(** [RecommendationRequest] *)
Module Request.
Record t : Type := {
  user_id : string;
  context : string;
  limit : Z;
  exclude_products : list string;
  include_explanations : bool
}.
End Request.

(** What a Redis key holds.  The code stores the JSON text of
    [profile.dict()] or of [response.dict()]; the embedding keeps the
    value that text denotes, [json.loads] undoing [json.dumps] on both. *)
Inductive CacheValue : Type :=
| ProfileJson (profile : UserProfile)
| ResponseJson (response : Response.t).

(** The Redis keyspace; expiry (the TTL of [setex]) is not modelled, an
    entry stays until it is overwritten. *)
Definition Redis : Type := Py.dict CacheValue.

(** What the serving layer reads besides the engine's world. *)
Record Serving : Type := {
  (* the users query of [get_user_profile] *)
  fetch_user_row : string -> option UserRow.t;
  (* the trending query *)
  fetch_trending_rows : string -> Z -> list TrendingRow.t;
  (* datetime.now() as a response carries it *)
  now : string
}.

(** Code that reads and writes the cache and may raise: the keyspace is
    threaded through, and an exception keeps the writes made before it. *)
Module IO.

Definition t (A : Type) : Type := Redis -> Py.result A * Redis.

Definition ret {A} (a : A) : t A := fun redis => (Py.Ok a, redis).

Definition raise {A} (e : Py.exn) : t A := fun redis => (Py.Raise e, redis).

Definition lift {A} (r : Py.result A) : t A := fun redis => (r, redis).

Definition bind {A B} (m : t A) (k : A -> t B) : t B :=
  fun redis =>
    match m redis with
    | (Py.Ok a, redis') => k a redis'
    | (Py.Raise e, redis') => (Py.Raise e, redis')
    end.

(** [redis_client.get(key)] *)
Definition get (key : string) : t (option CacheValue) :=
  fun redis => (Py.Ok (Py.get redis key), redis).

(** [redis_client.setex(key, ttl, value)] *)
Definition setex (key : string) (value : CacheValue) : t unit :=
  fun redis => (Py.Ok tt, Py.set redis key value).

End IO.

Notation "x <~ m ;; k" := (IO.bind m (fun x => k))
  (at level 61, m at next level, right associativity).

(** [[i for i in (xs or []) if i]] *)
Definition truthy_items (xs : option (list (option string))) : list string :=
  flat_map (fun i => match i with
                     | Some s => if Py.truthy (Some s) then [s] else []
                     | None => []
                     end)
           (Py.or_list xs []).

Section ServingLayer.

Variable w : World.
Variable models : Models.t.
Variable sv : Serving.

(** [get_user_profile] ([uid] is its [user_id] argument).
    [UserProfile(...)] validates: a row without a
    region, or a cached text that is not a profile, raises pydantic's
    [ValidationError], which is a [ValueError]. *)
Definition get_user_profile (uid : string) : IO.t (option UserProfile) :=
  let cache_key := ("user_profile:" ++ uid)%string in
  cached_profile <~ IO.get cache_key ;;
  match cached_profile with
  | Some (ProfileJson profile) => IO.ret (Some profile)
  | Some (ResponseJson _) => IO.raise Py.ValueError
  | None =>
      match fetch_user_row sv uid with
      | None => IO.ret None
      | Some row =>
          match UserRow.region row with
          | None => IO.raise Py.ValueError
          | Some row_region =>
              let profile :=
                {| user_id := UserRow.user_id row;
                   region := row_region;
                   language :=
                     if Py.truthy (UserRow.language row)
                     then match UserRow.language row with
                          | Some l => l
                          | None => "uz"
                          end
                     else "uz";
                   age_group := UserRow.age_group row;
                   gender := UserRow.gender row;
                   income_level := UserRow.income_level row;
                   interests := truthy_items (UserRow.interests row);
                   purchase_history :=
                     truthy_items (UserRow.purchase_history row) |} in
              _ <~ IO.setex cache_key (ProfileJson profile) ;;
              IO.ret (Some profile)
          end
      end
  end.

(** The endpoint [POST /api/v1/recommendations]. *)
Definition recommendations_endpoint (request : Request.t) : IO.t Response.t :=
  user_profile <~ get_user_profile (Request.user_id request) ;;
  match user_profile with
  | None => IO.raise (Py.HTTPException 404)
  | Some user_profile =>
      recommendations <~
        IO.lift (get_recommendations w models user_profile
                   (Request.context request) (Request.limit request)
                   (Some (Request.exclude_products request))) ;;
      let response :=
        {| Response.user_id := Request.user_id request;
           Response.recommendations := recommendations;
           Response.context := Request.context request;
           Response.generated_at := now sv;
           Response.model_version := "uzbekistan_v1.0";
           Response.uzbekistan_factors :=
             {| Factors.current_season := get_current_season w;
                Factors.is_ramadan := is_ramadan_period w;
                Factors.is_navruz := is_navruz_period w;
                Factors.user_region := region user_profile;
                Factors.cultural_weighting_applied := true |} |} in
      let cache_key :=
        ("recommendations:" ++ Request.user_id request ++ ":"
         ++ Request.context request)%string in
      _ <~ IO.setex cache_key (ResponseJson response) ;;
      IO.ret response
  end.

(** [valid_regions] of the trending endpoint. *)
Definition valid_regions : list string :=
  ["TSH"; "SAM"; "BUX"; "AND"; "FAR"; "NAM"; "QAS"; "SUR"; "NAV"; "JIZ";
   "SIR"; "XOR"; "QOR"].

(** The endpoint [POST /api/v1/trending/{region}]; the result is the
    ['trending_products'] list. *)
Definition get_trending_products (region : string) (limit : Z)
  : Py.result (list Trending.t) :=
  if negb (Py.mem region valid_regions) then
    Py.Raise (Py.HTTPException 400)
  else
    Py.Ok
      (map (fun row =>
              {| Trending.product_id := TrendingRow.product_id row;
                 Trending.name := TrendingRow.name row;
                 Trending.price := TrendingRow.price row;
                 Trending.category := TrendingRow.category row;
                 Trending.recent_orders := TrendingRow.recent_orders row;
                 Trending.total_items_sold := TrendingRow.total_items_sold row;
                 Trending.avg_rating :=
                   match TrendingRow.avg_rating row with
                   | Some r => if PrimFloat.eqb r 0%float then None else Some r
                   | None => None
                   end;
                 Trending.trend_score :=
                   (TrendingRow.recent_orders row * 2
                    + TrendingRow.total_items_sold row)%Z |})
           (fetch_trending_rows sv region limit)).

End ServingLayer.

(* ================================================================== *)
(** ** A reference cosine kernel and a small catalogue *)
(* ================================================================== *)

(** scikit-learn's kernel, as documented: both rows are scaled to unit
    length (a zero row is left as it is) and multiplied. *)
Module Sk.

Local Open Scope float_scope.

Definition dot (u v : Vec) : float :=
  fold_left PrimFloat.add (map (fun p => fst p * snd p) (combine u v)) 0.

Definition normalize (u : Vec) : Vec :=
  let norm := PrimFloat.sqrt (dot u u) in
  let norm := if PrimFloat.eqb norm 0 then 1 else norm in
  map (fun x => x / norm) u.

Definition cosine (u v : Vec) : float := dot (normalize u) (normalize v).

End Sk.

(** A store with three products and the three artifacts loaded.  Products
    A and B have the same feature row; B is sold from the user's own
    region; C costs more than a medium budget allows in Tashkent. *)
Module Demo.

Local Open Scope float_scope.

Definition product (price : float) (vendor_region : string) : Product.t :=
  {| Product.name := Some "mahsulot";
     Product.name_ru := None;
     Product.price := price;
     Product.vendor_region := vendor_region;
     Product.vendor_rating := 4.0;
     Product.category := "cooling" |}.

Definition catalog (product_id : string) : option Product.t :=
  if String.eqb product_id "A" then Some (product 2000000 "QOR")
  else if String.eqb product_id "B" then Some (product 1500000 "TSH")
  else if String.eqb product_id "C" then Some (product 3000000 "SAM")
  else None.

Definition cultural_rows : list CulturalRow.t :=
  [ {| CulturalRow.product_id := "A";
       CulturalRow.category := "cooling";
       CulturalRow.price := 2000000;
       CulturalRow.vendor_rating := 4.0;
       CulturalRow.cultural_relevance := 0.05 |} ].

Definition popular_rows : list PopularRow.t :=
  [ {| PopularRow.product_id := "B";
       PopularRow.order_count := 7;
       PopularRow.avg_rating := Some 4.5 |};
    {| PopularRow.product_id := "A";
       PopularRow.order_count := 7;
       PopularRow.avg_rating := None |} ].

Definition world : World :=
  {| process_text := fun text => text;
     cosine := Sk.cosine;
     argsort := Np.argsort;
     month := 7;
     is_ramadan_period := false;
     is_navruz_period := false;
     is_new_year_period := false;
     fetch_product := catalog;
     fetch_cultural_products := fun _ _ limit =>
       Py.slice_to cultural_rows limit;
     fetch_popular_products := fun limit => Py.slice_to popular_rows limit |}.

Definition collaborative_model : Collaborative.t :=
  {| Collaborative.user_factors := [[1; 0]; [1; 0.5]; [0; 1]];
     Collaborative.item_factors := [[1; 0]; [0; 1]; [1; 1]];
     Collaborative.user_index := ["u1"; "u2"; "u3"];
     Collaborative.item_index := ["A"; "B"; "C"] |}.

Definition content_model : Content.t :=
  {| Content.tfidf_vectorizer := fun _ => [1; 0];
     Content.feature_matrix := [[1; 0]; [1; 0]; [0; 1]];
     Content.product_ids := ["A"; "B"; "C"] |}.

Definition cultural_model : Cultural.t :=
  {| Cultural.cultural_vectors :=
       [ ("season_summer", ["cooling"; "vacation"; "fruits"; "weddings"]);
         ("region_TSH", ["electronics"]) ];
     Cultural.seasonal_multipliers :=
       {| Cultural.ramadan := 1.5;
          Cultural.navruz := 1.8;
          Cultural.new_year := 2.0;
          Cultural.wedding_season := 1.3 |} |}.

Definition models : Models.t :=
  {| Models.collaborative := Some collaborative_model;
     Models.content := Some content_model;
     Models.cultural := Some cultural_model |}.

(** Nothing loaded for the collaborative signal. *)
Definition models_without_collaborative : Models.t :=
  {| Models.collaborative := None;
     Models.content := Some content_model;
     Models.cultural := Some cultural_model |}.

Definition profile (user_id region : string) (income : option string)
  : UserProfile :=
  {| user_id := user_id;
     region := region;
     language := "uz";
     age_group := None;
     gender := None;
     income_level := income;
     interests := ["cooling"];
     purchase_history := [] |}.

(** A user the collaborative model was trained on. *)
Definition known_user : UserProfile := profile "u1" "TSH" (Some "medium").

(** A user it never saw, outside the urban regions. *)
Definition new_user : UserProfile := profile "u9" "BUX" None.

(** What [get_recommendations] answers the known user who asks for two
    products in the "general" context. *)
Definition details (price : float) (vendor_region : string) : Details.t :=
  {| Details.product_name := Some "mahsulot";
     Details.product_name_ru := None;
     Details.price := price;
     Details.vendor_region := vendor_region;
     Details.vendor_rating := 4.0;
     Details.category := "cooling" |}.

Definition rec_A : Rec.t :=
  {| Rec.product_id := "A";
     Rec.scores := [("content", 0.4); ("cultural", 0.04)];
     Rec.reasons := ["content_similarity"; "cultural_relevance"];
     Rec.total_score := 0.44;
     Rec.cultural_factor :=
       Some "Yoz mavsumi uchun tavsiya etilgan mahsulotlar";
     Rec.details := Some (details 2000000 "QOR") |}.

Definition rec_B : Rec.t :=
  {| Rec.product_id := "B";
     Rec.scores := [("content", 0.4)];
     Rec.reasons := ["content_similarity"];
     Rec.total_score := 0.48;
     Rec.cultural_factor := None;
     Rec.details := Some (details 1500000 "TSH") |}.

(** B as fusion leaves it when only the content signal names it. *)
Definition fused_B : Rec.t :=
  {| Rec.product_id := "B";
     Rec.scores := [("content", 0.4)];
     Rec.reasons := ["content_similarity"];
     Rec.total_score := 0.4;
     Rec.cultural_factor := None;
     Rec.details := None |}.

(** What the content signal and the similar-products endpoint answer. *)
Definition content_rec (product_id : string) (score : float) : Signal.t :=
  {| Signal.product_id := product_id;
     Signal.score := score;
     Signal.reason := Some "content_similarity";
     Signal.cultural_factor := None |}.

Definition similar (product_id : string) (score : float) : SimilarProduct :=
  {| similar_product_id := product_id;
     similarity_score := score;
     similar_reason := "content_similarity" |}.


End Demo.

(** More values over the same catalogue. *)
Module Shop.

Local Open Scope float_scope.


(** The content signal's answer to the known user, B ahead of A. *)
Definition tied : list Signal.t :=
  [Demo.content_rec "B" 1; Demo.content_rec "A" 1].

(** The cultural signal's candidate for the known user in July. *)
Definition cultural_A : Signal.t :=
  {| Signal.product_id := "A";
     Signal.score := 4.0 * 0.05 * 1.0;
     Signal.reason := Some "cultural_relevance";
     Signal.cultural_factor :=
       Some "Yoz mavsumi uchun tavsiya etilgan mahsulotlar" |}.

(** The same candidate when the request falls in Ramadan. *)
Definition ramadan_A : Signal.t :=
  {| Signal.product_id := "A";
     Signal.score := 4.0 * 0.05 * 1.5;
     Signal.reason := Some "cultural_relevance";
     Signal.cultural_factor :=
       Some "Ramazon muborak! Ro'za tutish uchun tavsiya etilgan mahsulotlar"
  |}.

(** What the regional-preferences helper is taken to answer. *)
Definition regional_prefs : Py.dict (list string) :=
  [ ("TSH", ["electronics"; "fashion"]); ("QOR", ["fishing"]) ].

(** The artifacts with the cultural model as training builds it. *)
Definition trained_models : Models.t :=
  {| Models.collaborative := Some Demo.collaborative_model;
     Models.content := Some Demo.content_model;
     Models.cultural :=
       Some (train_cultural_model (fetch_cultural_preferences regional_prefs))
  |}.

(** The same artifacts, with an event vector added to the cultural one. *)
Definition models_with_event_vector : Models.t :=
  {| Models.collaborative := Some Demo.collaborative_model;
     Models.content := Some Demo.content_model;
     Models.cultural :=
       Some {| Cultural.cultural_vectors :=
                 Cultural.cultural_vectors Demo.cultural_model
                 ++ [("event_navruz", ["gifts"])];
               Cultural.seasonal_multipliers :=
                 Cultural.seasonal_multipliers Demo.cultural_model |} |}.

(** A user who reads Russian. *)
Definition russian_reader : UserProfile :=
  {| user_id := "u2";
     region := "SAM";
     language := "ru";
     age_group := None;
     gender := None;
     income_level := Some "high";
     interests := ["cooling"];
     purchase_history := ["fruits"] |}.

(** A users table with one row, a trending query, and a clock. *)
Definition user_row : UserRow.t :=
  {| UserRow.user_id := "u1";
     UserRow.region := Some "TSH";
     UserRow.language := None;
     UserRow.age_group := Some "26-35";
     UserRow.gender := None;
     UserRow.income_level := Some "medium";
     UserRow.interests := Some [Some "cooling"; None; Some ""];
     UserRow.purchase_history := None |}.

Definition trending_row : TrendingRow.t :=
  {| TrendingRow.product_id := "B";
     TrendingRow.name := "mahsulot";
     TrendingRow.price := 1500000;
     TrendingRow.category := "cooling";
     TrendingRow.recent_orders := 4;
     TrendingRow.total_items_sold := 9;
     TrendingRow.avg_rating := Some 4.5 |}.

Definition serving : Serving :=
  {| fetch_user_row :=
       fun uid => if String.eqb uid "u1" then Some user_row else None;
     fetch_trending_rows :=
       fun region_code _ =>
         if String.eqb region_code "TSH" then [trending_row] else [];
     now := "2024-07-01T12:00:00" |}.

(** The store after the user's row was deleted. *)
Definition emptied : Serving :=
  {| fetch_user_row := fun _ => None;
     fetch_trending_rows := fun _ _ => [];
     now := "2024-07-02T12:00:00" |}.

(** The profile [get_user_profile] builds from [user_row]. *)
Definition user_profile : UserProfile :=
  {| user_id := "u1";
     region := "TSH";
     language := "uz";
     age_group := Some "26-35";
     gender := None;
     income_level := Some "medium";
     interests := ["cooling"];
     purchase_history := [] |}.

Definition request : Request.t :=
  {| Request.user_id := "u1";
     Request.context := "general";
     Request.limit := 2;
     Request.exclude_products := [];
     Request.include_explanations := true |}.

(** A cache that holds an old answer for [request] and no profile. *)
Definition stale_cache : Redis :=
  [ ("recommendations:u1:general"%string,
     ResponseJson
       {| Response.user_id := "u1";
          Response.recommendations := [];
          Response.context := "general";
          Response.generated_at := "2024-01-01T00:00:00";
          Response.model_version := "uzbekistan_v1.0";
          Response.uzbekistan_factors :=
            {| Factors.current_season := "winter";
               Factors.is_ramadan := false;
               Factors.is_navruz := false;
               Factors.user_region := "TSH";
               Factors.cultural_weighting_applied := true |} |}) ].

End Shop.

(* ================================================================== *)
(** ** Vocabulary of the properties *)
(* ================================================================== *)

Local Open Scope float_scope.

(** A weighted raw score of [product] in one signal's list. *)
Definition contributes
    (recs : list Signal.t) (weight : float) (product : string) (v : float)
  : Prop :=
  exists s, In s recs /\ Signal.product_id s = product /\
            v = Signal.score s * weight.

(** An entry of [scores] is the raw score of that product in that signal,
    times that signal's weight. *)
Definition fused_from
    (weights : Weights.t)
    (collaborative_recs content_recs cultural_recs : list Signal.t)
    (product signal : string) (v : float) : Prop :=
  (signal = "collaborative" /\
   contributes collaborative_recs (Weights.collaborative weights) product v)
  \/ (signal = "content" /\
      contributes content_recs (Weights.content weights) product v)
  \/ (signal = "cultural" /\
      contributes cultural_recs (Weights.cultural weights) product v).

(** The sum of the per-signal entries of a candidate. *)
Definition sum_of_scores (r : Rec.t) : float :=
  Py.sum (Py.values (Rec.scores r)).

(** What the post-filter does to a combined score: times 1.2 for a local
    or neighbouring vendor, then times 0.8 for a product that only has a
    Russian name when the user reads Uzbek. *)
Definition post_adjust
    (user_profile : UserProfile) (product : Product.t) (s : float) : float :=
  let s :=
    if should_prefer_local_vendor user_profile (Product.vendor_region product)
    then s * 1.2 else s in
  if String.eqb (language user_profile) "uz"
     && Py.truthy (Product.name_ru product)
     && negb (Py.truthy (Product.name product))
  then s * 0.8 else s.

(** A product id passes the catalogue lookup and the budget cap. *)
Definition affordable
    (w : World) (user_profile : UserProfile) (product_id : string) : bool :=
  match fetch_product w product_id with
  | None => false
  | Some product =>
      negb (PrimFloat.ltb (get_max_price_for_user user_profile)
                          (Product.price product))
  end.

(** The products the post-filter and the exclusion list let through. *)
Definition passes (w : World) (user_profile : UserProfile)
    (exclude_products : option (list string)) (product_id : string) : bool :=
  affordable w user_profile product_id
  && negb (Py.mem product_id (Py.or_list exclude_products [])).

(** The invariant of [all_recommendations] during the merge: keys are
    distinct, every record sits under its own product id, and every
    per-signal entry has an [origin product signal value]. *)
Definition well_keyed (origin : string -> string -> float -> Prop)
    (d : Py.dict Rec.t) : Prop :=
  NoDup (Py.keys d) /\
  forall k r, In (k, r) d ->
    Rec.product_id r = k /\
    forall signal v, In (signal, v) (Rec.scores r) -> origin k signal v.

(** The artifacts as training saves them: each index list is as long as
    the matrix it names the rows of. *)
Definition parallel_artifacts (models : Models.t) : Prop :=
  (forall m, Models.collaborative models = Some m ->
     List.length (Collaborative.user_index m)
     = List.length (Collaborative.user_factors m)) /\
  (forall m, Models.content models = Some m ->
     List.length (Content.product_ids m)
     = List.length (Content.feature_matrix m)).

(** The world's [argsort] keeps NumPy's contract on every array. *)
Definition argsort_contract (w : World) : Prop :=
  forall a, Np.is_argsort a (argsort w a).

(** [a] occurs somewhere ahead of [b] in [l]. *)
Definition before {T : Type} (l : list T) (a b : T) : Prop :=
  exists l1 l2 l3, l = l1 ++ a :: l2 ++ b :: l3.

(** The distinct elements of a list, in the order of their first
    occurrence. *)
Definition first_seen (ids : list string) : list string :=
  fold_left (fun seen id => if Py.mem id seen then seen else seen ++ [id])
            ids [].

(** The product ids the three signals propose, in merge order. *)
Definition proposed (c1 c2 c3 : list Signal.t) : list string :=
  map Signal.product_id (c1 ++ c2 ++ c3).

(** A world that differs from [w] in the calendar only. *)
Definition at_date (w : World) (current_month : Z)
    (ramadan navruz new_year : bool) : World :=
  {| process_text := process_text w;
     cosine := cosine w;
     argsort := argsort w;
     month := current_month;
     is_ramadan_period := ramadan;
     is_navruz_period := navruz;
     is_new_year_period := new_year;
     fetch_product := fetch_product w;
     fetch_cultural_products := fetch_cultural_products w;
     fetch_popular_products := fetch_popular_products w |}.

(** A world that differs from [w] in the text processor only. *)
Definition with_process_text (w : World) (f : string -> string) : World :=
  {| process_text := f;
     cosine := cosine w;
     argsort := argsort w;
     month := month w;
     is_ramadan_period := is_ramadan_period w;
     is_navruz_period := is_navruz_period w;
     is_new_year_period := is_new_year_period w;
     fetch_product := fetch_product w;
     fetch_cultural_products := fetch_cultural_products w;
     fetch_popular_products := fetch_popular_products w |}.

(** Nothing loaded: [self.models] before [load_models] has run. *)
Definition no_models : Models.t :=
  {| Models.collaborative := None;
     Models.content := None;
     Models.cultural := None |}.

(** The display fields the post-filter copies from a catalogue row. *)
Definition details_of (product : Product.t) : Details.t :=
  {| Details.product_name := Product.name product;
     Details.product_name_ru := Product.name_ru product;
     Details.price := Product.price product;
     Details.vendor_region := Product.vendor_region product;
     Details.vendor_rating := Product.vendor_rating product;
     Details.category := Product.category product |}.

(** What the trending endpoint reports for one row of its query. *)
Definition reported (row : TrendingRow.t) (t : Trending.t) : Prop :=
  Trending.product_id t = TrendingRow.product_id row /\
  Trending.recent_orders t = TrendingRow.recent_orders row /\
  Trending.total_items_sold t = TrendingRow.total_items_sold row /\
  Trending.trend_score t
  = (2 * TrendingRow.recent_orders row + TrendingRow.total_items_sold row)%Z /\
  (forall r, Trending.avg_rating t = Some r ->
             TrendingRow.avg_rating row = Some r /\
             PrimFloat.eqb r 0%float = false).

(* ================================================================== *)
(** ** Floats: the order the sorts rely on *)
(* ================================================================== *)

Section FloatOrder.

Lemma SFcompare_antisym (x y : spec_float) :
  SFcompare y x = option_map CompOpp (SFcompare x y).
Proof.
  destruct x as [sx|sx| |sx mx ex], y as [sy|sy| |sy my ey]; simpl;
    try reflexivity;
    try (destruct sx; reflexivity);
    try (destruct sy; reflexivity);
    try (destruct sx, sy; reflexivity).
  change (PosDef.Pos.compare_cont Eq my mx) with (Pos.compare my mx).
  change (PosDef.Pos.compare_cont Eq mx my) with (Pos.compare mx my).
  rewrite (Z.compare_antisym ex ey), (Pos.compare_antisym mx my).
  destruct sx, sy; simpl; try reflexivity;
    destruct (ex ?= ey)%Z; simpl; try reflexivity;
    destruct (mx ?= my)%positive; reflexivity.
Qed.

(** [<] on floats is asymmetric, NaN included. *)
Lemma ltb_asym (x y : float) :
  PrimFloat.ltb x y = true -> PrimFloat.ltb y x = false.
Proof.
  rewrite !ltb_spec. unfold SFltb.
  rewrite (SFcompare_antisym (Prim2SF x) (Prim2SF y)).
  destruct (SFcompare (Prim2SF x) (Prim2SF y)) as [[]|]; simpl; congruence.
Qed.

(** A strict comparison that succeeds has no NaN on either side. *)
Lemma ltb_not_nan (x y : float) :
  PrimFloat.ltb x y = true ->
  PrimFloat.is_nan x = false /\ PrimFloat.is_nan y = false.
Proof.
  unfold PrimFloat.is_nan.
  rewrite ltb_spec, !FloatAxioms.eqb_spec. unfold SFltb, SFeqb.
  destruct (Prim2SF x) as [sx|sx| |sx mx ex],
           (Prim2SF y) as [sy|sy| |sy my ey];
    simpl; try discriminate; intros _; split; try reflexivity;
    try (destruct sx; reflexivity); try (destruct sy; reflexivity).
  all: rewrite Z.compare_refl;
    change (PosDef.Pos.compare_cont Eq ?a ?a) with (Pos.compare a a);
    rewrite Pos.compare_refl.
  all: try (destruct sx; reflexivity); try (destruct sy; reflexivity).
Qed.

Lemma np_lt_asym (x y : float) : Np.lt x y = true -> Np.lt y x = false.
Proof.
  unfold Np.lt. intros H.
  apply orb_true_iff in H as [H | H].
  - destruct (ltb_not_nan _ _ H) as [Hx Hy].
    rewrite (ltb_asym _ _ H), Hx, Hy. reflexivity.
  - apply andb_true_iff in H as [Hy Hx].
    apply negb_true_iff in Hx. rewrite Hx, Hy. simpl.
    rewrite orb_false_r.
    destruct (PrimFloat.ltb y x) eqn:E; [| reflexivity].
    destruct (ltb_not_nan _ _ E) as [Hy' _]. congruence.
Qed.

(** NumPy's order refines [<]. *)
Lemma np_lt_false_ltb (x y : float) :
  Np.lt x y = false -> PrimFloat.ltb x y = false.
Proof.
  unfold Np.lt. intros H. apply orb_false_iff in H as [H _]. exact H.
Qed.

End FloatOrder.

(* ================================================================== *)
(** ** Slices, loops and dicts *)
(* ================================================================== *)

Section PyFacts.

Context {A : Type}.

Lemma clamp_le (n : nat) (i : Z) : Py.clamp n i <= n.
Proof. unfold Py.clamp. destruct (i <? 0)%Z eqn:E; lia. Qed.

Lemma clamp_nonneg (n : nat) (i : Z) :
  (0 <= i)%Z -> Py.clamp n i = Nat.min (Z.to_nat i) n.
Proof.
  intros H. unfold Py.clamp.
  destruct (i <? 0)%Z eqn:E; [apply Z.ltb_lt in E; lia | reflexivity].
Qed.

(** [xs[:k]] has at most [k] elements when [k] is not negative. *)
Lemma slice_to_length (xs : list A) (k : Z) :
  (0 <= k)%Z -> (Z.of_nat (List.length (Py.slice_to xs k)) <= k)%Z.
Proof.
  intros H. unfold Py.slice_to.
  rewrite length_firstn, clamp_nonneg by exact H. lia.
Qed.

Lemma In_firstn (n : nat) (xs : list A) (x : A) :
  In x (firstn n xs) -> In x xs.
Proof.
  revert xs. induction n as [|n IH]; intros [|y xs]; simpl; try tauto.
  intros [H | H]; [left; exact H | right; apply IH; exact H].
Qed.

Lemma NoDup_firstn (n : nat) (xs : list A) :
  NoDup xs -> NoDup (firstn n xs).
Proof.
  revert xs. induction n as [|n IH]; intros [|x xs] H; simpl;
    try constructor.
  - inversion H; subst. intros Hin. apply In_firstn in Hin. contradiction.
  - inversion H; subst. apply IH. assumption.
Qed.

Lemma slice_to_map {B} (f : A -> B) (xs : list A) (k : Z) :
  map f (Py.slice_to xs k) = Py.slice_to (map f xs) k.
Proof. unfold Py.slice_to. rewrite length_map. symmetry. apply firstn_map. Qed.

Lemma slice_to_In (xs : list A) (k : Z) (x : A) :
  In x (Py.slice_to xs k) -> In x xs.
Proof. unfold Py.slice_to. apply In_firstn. Qed.

(** A loop whose body always succeeds succeeds. *)
Lemma for_each_ok (xs : list A) (body : A -> Py.result unit) :
  (forall x, In x xs -> body x = Py.Ok tt) ->
  Py.for_each xs body = Py.Ok tt.
Proof.
  induction xs as [|x xs IH]; intros H; simpl; [reflexivity |].
  rewrite (H x (or_introl eq_refl)). simpl.
  apply IH. intros y Hy. apply H. right. exact Hy.
Qed.

(** A loop never raises [ValueError] when its body does not. *)
Lemma for_each_no_ValueError (xs : list A) (body : A -> Py.result unit) :
  (forall x, body x <> Py.Raise Py.ValueError) ->
  Py.for_each xs body <> Py.Raise Py.ValueError.
Proof.
  intros H. induction xs as [|x xs IH]; simpl; [discriminate |].
  specialize (H x). destruct (body x) as [[]|e]; simpl; [exact IH |].
  exact H.
Qed.

End PyFacts.

(* ================================================================== *)
(** ** Sorting *)
(* ================================================================== *)

Section SortedFacts.

Context {A : Type} (R : A -> A -> Prop).

Lemma Sorted_firstn (n : nat) (l : list A) :
  Sorted R l -> Sorted R (firstn n l).
Proof.
  revert l. induction n as [|n IH]; intros l H; simpl; [constructor |].
  destruct H as [|a l Hs Hh]; [constructor |].
  constructor; [apply IH; exact Hs |].
  destruct Hh as [|b l Hab]; destruct n; simpl; constructor. exact Hab.
Qed.

(** Appending an element that the last one is related to. *)
Lemma Sorted_snoc (l : list A) (x : A) :
  Sorted R l ->
  (forall l' y, l = l' ++ [y] -> R y x) ->
  Sorted R (l ++ [x]).
Proof.
  induction 1 as [|a l Hs IH Hh]; intros Hlast; simpl.
  - repeat constructor.
  - constructor.
    + apply IH. intros l' y E. apply (Hlast (a :: l') y). rewrite E.
      reflexivity.
    + destruct Hh as [|b l Hab]; simpl; constructor.
      * apply (Hlast [] a). reflexivity.
      * exact Hab.
Qed.

End SortedFacts.

Section SortedRev.

Context {A : Type} (R : A -> A -> Prop).

(** Reversing a sorted list sorts it for the converse relation. *)
Lemma Sorted_rev (l : list A) :
  Sorted R l -> Sorted (fun a b => R b a) (rev l).
Proof.
  induction 1 as [|a l Hs IH Hh]; simpl; [constructor |].
  apply Sorted_snoc; [exact IH |].
  intros l' y E.
  assert (E' : l = y :: rev l').
  { rewrite <- (rev_involutive l), E, rev_app_distr. reflexivity. }
  rewrite E' in Hh. inversion Hh; subst. assumption.
Qed.

End SortedRev.

Section SortedDesc.

Context {A : Type} (key : A -> float).

Lemma insert_desc_perm (x : A) (xs : list A) :
  Permutation (Py.insert_desc key x xs) (x :: xs).
Proof.
  induction xs as [|y ys IH]; simpl; [apply Permutation_refl |].
  destruct (PrimFloat.ltb (key x) (key y)).
  - eapply perm_trans; [apply perm_skip, IH | apply perm_swap].
  - apply Permutation_refl.
Qed.

(** [sorted] returns the elements it was given. *)
Lemma sorted_desc_perm (xs : list A) :
  Permutation (Py.sorted_desc key xs) xs.
Proof.
  induction xs as [|x xs IH]; simpl; [constructor |].
  eapply perm_trans; [apply insert_desc_perm | apply perm_skip, IH].
Qed.

Lemma insert_desc_HdRel (y x : A) (xs : list A) :
  Py.not_below key y x -> HdRel (Py.not_below key) y xs ->
  HdRel (Py.not_below key) y (Py.insert_desc key x xs).
Proof.
  intros Hyx Hh. destruct xs as [|z zs]; simpl; [constructor; exact Hyx |].
  destruct (PrimFloat.ltb (key x) (key z)); constructor;
    [inversion Hh; assumption | exact Hyx].
Qed.

Lemma insert_desc_sorted (x : A) (xs : list A) :
  Sorted (Py.not_below key) xs ->
  Sorted (Py.not_below key) (Py.insert_desc key x xs).
Proof.
  induction 1 as [|y ys Hs IH Hh]; simpl; [repeat constructor |].
  destruct (PrimFloat.ltb (key x) (key y)) eqn:E.
  - constructor; [exact IH |].
    apply insert_desc_HdRel; [| exact Hh].
    unfold Py.not_below. apply ltb_asym. exact E.
  - constructor; [constructor; assumption | constructor; exact E].
Qed.

(** [sorted(..., reverse=True)]: no element is smaller than its
    successor. *)
Lemma sorted_desc_sorted (xs : list A) :
  Sorted (Py.not_below key) (Py.sorted_desc key xs).
Proof.
  induction xs as [|x xs IH]; simpl; [constructor |].
  apply insert_desc_sorted. exact IH.
Qed.

End SortedDesc.

Section Argsort.

Variable a : list float.

Lemma np_insert_perm (i : nat) (p : list nat) :
  Permutation (Np.insert a i p) (i :: p).
Proof.
  induction p as [|j p IH]; simpl; [apply Permutation_refl |].
  destruct (Np.lt (Np.value a j) (Np.value a i)).
  - eapply perm_trans; [apply perm_skip, IH | apply perm_swap].
  - apply Permutation_refl.
Qed.

Lemma np_insert_HdRel (j i : nat) (p : list nat) :
  Np.ascending a j i -> HdRel (Np.ascending a) j p ->
  HdRel (Np.ascending a) j (Np.insert a i p).
Proof.
  intros Hji Hh. destruct p as [|k p]; simpl; [constructor; exact Hji |].
  destruct (Np.lt (Np.value a k) (Np.value a i)); constructor;
    [inversion Hh; assumption | exact Hji].
Qed.

Lemma np_insert_sorted (i : nat) (p : list nat) :
  Sorted (Np.ascending a) p -> Sorted (Np.ascending a) (Np.insert a i p).
Proof.
  induction 1 as [|j p Hs IH Hh]; simpl; [repeat constructor |].
  destruct (Np.lt (Np.value a j) (Np.value a i)) eqn:E.
  - constructor; [exact IH |].
    apply np_insert_HdRel; [| exact Hh].
    unfold Np.ascending. apply np_lt_asym. exact E.
  - constructor; [constructor; assumption | constructor; exact E].
Qed.

Lemma np_fold_insert (l : list nat) :
  Permutation (fold_right (Np.insert a) [] l) l /\
  Sorted (Np.ascending a) (fold_right (Np.insert a) [] l).
Proof.
  induction l as [|i l [IHp IHs]]; simpl; [split; constructor |].
  split.
  - eapply perm_trans; [apply np_insert_perm | apply perm_skip, IHp].
  - apply np_insert_sorted. exact IHs.
Qed.

(** The reference [argsort] meets NumPy's contract on every array. *)
Lemma argsort_is_argsort : Np.is_argsort a (Np.argsort a).
Proof. apply np_fold_insert. Qed.

End Argsort.

(* ================================================================== *)
(** ** Dicts *)
(* ================================================================== *)

Section DictFacts.

Context {V : Type}.

Lemma contains_keys (d : Py.dict V) (k : string) :
  Py.contains d k = true <-> In k (Py.keys d).
Proof.
  unfold Py.contains.
  induction d as [|[k' v] d IH]; simpl; [split; [discriminate | tauto] |].
  destruct (String.eqb_spec k' k) as [-> | Hne].
  - split; auto.
  - rewrite IH. split; [auto | intros [H | H]; [contradiction | exact H]].
Qed.

Lemma keys_update (d : Py.dict V) (k : string) (f : V -> V) :
  Py.keys (Py.update d k f) = Py.keys d.
Proof.
  induction d as [|[k' v] d IH]; simpl; [reflexivity |].
  destruct (String.eqb k' k); simpl; [reflexivity |].
  f_equal. exact IH.
Qed.

Lemma keys_set_absent (d : Py.dict V) (k : string) (v : V) :
  Py.contains d k = false -> Py.keys (Py.set d k v) = Py.keys d ++ [k].
Proof.
  unfold Py.contains.
  induction d as [|[k' v'] d IH]; simpl; [reflexivity |].
  destruct (String.eqb k' k); [discriminate |].
  intros H. simpl. f_equal. apply IH. exact H.
Qed.

(** Where a binding of [d[k] = v] comes from. *)
Lemma In_set (d : Py.dict V) (k : string) (v : V) (k' : string) (v' : V) :
  In (k', v') (Py.set d k v) -> In (k', v') d \/ (k' = k /\ v' = v).
Proof.
  induction d as [|[k0 v0] d IH]; simpl.
  - intros [H | []]. inversion H. auto.
  - destruct (String.eqb_spec k0 k) as [-> | Hne]; simpl.
    + intros [H | H]; [inversion H; auto | auto].
    + intros [H | H]; [auto |]. destruct (IH H) as [H' | H']; auto.
Qed.

(** Where a binding comes from after [d[k] = f(d[k])]. *)
Lemma In_update (d : Py.dict V) (k : string) (f : V -> V)
      (k' : string) (v' : V) :
  In (k', v') (Py.update d k f) ->
  In (k', v') d \/ (k' = k /\ exists v, In (k, v) d /\ v' = f v).
Proof.
  induction d as [|[k0 v0] d IH]; simpl; [tauto |].
  destruct (String.eqb_spec k0 k) as [-> | Hne]; simpl.
  - intros [H | H]; [| auto].
    inversion H; subst. right. split; [reflexivity |].
    exists v0. auto.
  - intros [H | H]; [auto |].
    destruct (IH H) as [H' | [-> [v [Hv ->]]]]; [auto |].
    right. split; [reflexivity |]. exists v. auto.
Qed.

Lemma keys_map_values (f : V -> V) (d : Py.dict V) :
  Py.keys (Py.map_values f d) = Py.keys d.
Proof.
  unfold Py.keys, Py.map_values. rewrite map_map. reflexivity.
Qed.

Lemma values_map_values (f : V -> V) (d : Py.dict V) :
  Py.values (Py.map_values f d) = map f (Py.values d).
Proof.
  unfold Py.values, Py.map_values. rewrite !map_map. reflexivity.
Qed.

End DictFacts.

(* ================================================================== *)
(** ** Fusion *)
(* ================================================================== *)

Section Fusion.

Variable origin : string -> string -> float -> Prop.


Lemma well_keyed_empty : well_keyed origin [].
Proof. split; [constructor | intros k r []]. Qed.

Lemma add_recommendation_well_keyed
      (signal : string) (weight : float) (copy_factor : bool)
      (d : Py.dict Rec.t) (rec : Signal.t) :
  origin (Signal.product_id rec) signal
         (PrimFloat.mul (Signal.score rec) weight) ->
  well_keyed origin d ->
  well_keyed origin (add_recommendation signal weight copy_factor d rec).
Proof.
  intros Ho [Hnd Hin]. unfold add_recommendation.
  set (pid := Signal.product_id rec) in *.
  set (d1 := if Py.contains d pid then d
             else Py.set d pid (new_entry pid)).
  assert (H1 : well_keyed origin d1).
  { subst d1. destruct (Py.contains d pid) eqn:E; [split; assumption |].
    split.
    - rewrite keys_set_absent by exact E.
      apply NoDup_app; [exact Hnd | repeat constructor; intros [] | ].
      intros k Hk [<- | []].
      apply contains_keys in Hk. congruence.
    - intros k r H. apply In_set in H as [H | [-> ->]]; [auto |].
      split; [reflexivity | intros s v []]. }
  destruct H1 as [Hnd1 Hin1]. split.
  - rewrite keys_update. exact Hnd1.
  - intros k r H. apply In_update in H as [H | [-> [r0 [H0 ->]]]]; [auto |].
    destruct (Hin1 _ _ H0) as [Hp Hs]. simpl. split; [exact Hp |].
    intros s v Hv. apply In_set in Hv as [Hv | [-> ->]]; [auto |].
    exact Ho.
Qed.

Lemma fold_add_recommendation_well_keyed
      (signal : string) (weight : float) (copy_factor : bool)
      (recs : list Signal.t) (d : Py.dict Rec.t) :
  (forall rec, In rec recs ->
     origin (Signal.product_id rec) signal
            (PrimFloat.mul (Signal.score rec) weight)) ->
  well_keyed origin d ->
  well_keyed origin
    (fold_left (add_recommendation signal weight copy_factor) recs d).
Proof.
  revert d. induction recs as [|rec recs IH]; intros d Ho Hd; simpl;
    [exact Hd |].
  apply IH; [intros r Hr; apply Ho; right; exact Hr |].
  apply add_recommendation_well_keyed; [apply Ho; left; reflexivity |].
  exact Hd.
Qed.

End Fusion.

(* ================================================================== *)
(** ** What the pipeline computes *)
(* ================================================================== *)


Section Pipeline.

Variable w : World.

Lemma values_product_ids (origin : string -> string -> float -> Prop)
      (d : Py.dict Rec.t) :
  well_keyed origin d -> map Rec.product_id (Py.values d) = Py.keys d.
Proof.
  intros [_ H]. induction d as [|[k r] d IH]; simpl; [reflexivity |].
  f_equal.
  - apply (H k r). left. reflexivity.
  - apply IH. intros k' r' Hin. apply H. right. exact Hin.
Qed.

Lemma merge_signals_well_keyed (weights : Weights.t)
      (c1 c2 c3 : list Signal.t) :
  well_keyed (fused_from weights c1 c2 c3) (merge_signals weights c1 c2 c3).
Proof.
  unfold merge_signals.
  repeat apply fold_add_recommendation_well_keyed.
  - intros rec H. right. right. split; [reflexivity |].
    exists rec. auto.
  - intros rec H. right. left. split; [reflexivity |].
    exists rec. auto.
  - intros rec H. left. split; [reflexivity |].
    exists rec. auto.
  - apply well_keyed_empty.
Qed.

(** The fused list: distinct products, each total the sum of its
    entries, each entry a weighted raw score, and no candidate ahead of
    one with a larger total. *)
Lemma combine_recommendations_spec
      (c1 c2 c3 : list Signal.t) (user_profile : UserProfile)
      (context : string) :
  let fused := combine_recommendations c1 c2 c3 user_profile context in
  NoDup (map Rec.product_id fused) /\
  (forall r, In r fused ->
     Rec.total_score r = sum_of_scores r /\
     forall signal v, In (signal, v) (Rec.scores r) ->
       fused_from (adjust_weights user_profile context) c1 c2 c3
                  (Rec.product_id r) signal v) /\
  Sorted (Py.not_below Rec.total_score) fused.
Proof.
  intros fused. subst fused. unfold combine_recommendations.
  set (weights := adjust_weights user_profile context).
  pose proof (merge_signals_well_keyed weights c1 c2 c3) as Hwk.
  set (d := merge_signals weights c1 c2 c3) in *.
  pose proof (sorted_desc_perm Rec.total_score
                (Py.values (Py.map_values with_total d))) as Hperm.
  rewrite values_map_values in *.
  split; [| split].
  - eapply Permutation_NoDup;
      [apply Permutation_map, Permutation_sym, Hperm |].
    rewrite map_map. simpl.
    change (fun x => Rec.product_id x) with Rec.product_id.
    rewrite (values_product_ids _ _ Hwk). apply Hwk.
  - intros r Hr.
    apply (Permutation_in _ Hperm) in Hr.
    apply in_map_iff in Hr as [r0 [<- Hr0]].
    split; [reflexivity |]. simpl.
    unfold Py.values in Hr0. apply in_map_iff in Hr0 as [[k r1] [E Hin]].
    simpl in E. subst r1.
    destruct Hwk as [_ Hwk]. destruct (Hwk _ _ Hin) as [Hp Hs].
    rewrite Hp. exact Hs.
  - apply sorted_desc_sorted.
Qed.

(** A turn of the filter loop that keeps the candidate. *)
Lemma filter_step_Some (user_profile : UserProfile) (r r' : Rec.t) :
  filter_step w user_profile r = Some r' ->
  exists product,
    fetch_product w (Rec.product_id r) = Some product /\
    PrimFloat.ltb (get_max_price_for_user user_profile)
                  (Product.price product) = false /\
    Rec.product_id r' = Rec.product_id r /\
    Rec.scores r' = Rec.scores r /\
    Rec.total_score r' = post_adjust user_profile product (Rec.total_score r).
Proof.
  unfold filter_step, post_adjust.
  destruct (fetch_product w (Rec.product_id r)) as [product|];
    [| discriminate].
  destruct (PrimFloat.ltb (get_max_price_for_user user_profile)
                          (Product.price product)) eqn:E; [discriminate |].
  intros H. injection H as <-. exists product.
  split; [reflexivity | split; [exact E |]].
  repeat split; simpl;
    destruct (should_prefer_local_vendor user_profile
                (Product.vendor_region product));
    destruct (String.eqb (language user_profile) "uz"
              && Py.truthy (Product.name_ru product)
              && negb (Py.truthy (Product.name product)));
    reflexivity.
Qed.

Lemma filter_step_affordable (user_profile : UserProfile) (r : Rec.t) :
  affordable w user_profile (Rec.product_id r)
  = match filter_step w user_profile r with
    | Some _ => true
    | None => false
    end.
Proof.
  unfold affordable, filter_step.
  destruct (fetch_product w (Rec.product_id r)) as [product|];
    [| reflexivity].
  destruct (PrimFloat.ltb _ _); reflexivity.
Qed.

Lemma apply_uzbekistan_filters_In
      (user_profile : UserProfile) (recs : list Rec.t) (r' : Rec.t) :
  In r' (apply_uzbekistan_filters w recs user_profile) ->
  exists r, In r recs /\ filter_step w user_profile r = Some r'.
Proof.
  induction recs as [|r recs IH]; simpl; [tauto |].
  destruct (filter_step w user_profile r) as [r1|] eqn:E.
  - intros [<- | H]; [exists r; auto |].
    destruct (IH H) as [r0 [H0 H1]]. exists r0. auto.
  - intros H. destruct (IH H) as [r0 [H0 H1]]. exists r0. auto.
Qed.

(** The post-filter keeps the products that pass, in the order given. *)
Lemma apply_uzbekistan_filters_ids
      (user_profile : UserProfile) (recs : list Rec.t) :
  map Rec.product_id (apply_uzbekistan_filters w recs user_profile)
  = filter (affordable w user_profile) (map Rec.product_id recs).
Proof.
  induction recs as [|r recs IH]; simpl; [reflexivity |].
  rewrite filter_step_affordable.
  destruct (filter_step w user_profile r) as [r1|] eqn:E; [| exact IH].
  simpl. rewrite IH. f_equal.
  destruct (filter_step_Some _ _ _ E) as [p [_ [_ [H _]]]]. exact H.
Qed.

End Pipeline.

(* ================================================================== *)
(** ** get_recommendations *)
(* ================================================================== *)


Section Recommendations.

Variables (w : World) (models : Models.t).
Variables (user_profile : UserProfile) (context : string) (limit : Z).
Variable exclude_products : option (list string).

(** A request that returns went through the five stages. *)
Lemma get_recommendations_Ok (out : list Rec.t) :
  get_recommendations w models user_profile context limit exclude_products
  = Py.Ok out ->
  exists c1 c2,
    get_collaborative_recommendations w models user_profile (limit * 2)
    = Py.Ok c1 /\
    get_content_recommendations w models user_profile (limit * 2)
    = Py.Ok c2 /\
    out =
    Py.slice_to
      (filter
         (fun rec =>
            negb (Py.mem (Rec.product_id rec)
                         (Py.or_list exclude_products [])))
         (apply_uzbekistan_filters w
            (combine_recommendations c1 c2
               (get_cultural_recommendations w models user_profile context
                  (limit * 2))
               user_profile context)
            user_profile))
      limit.
Proof.
  unfold get_recommendations.
  destruct (get_collaborative_recommendations w models user_profile
              (limit * 2)) as [c1|e]; simpl; [| discriminate].
  destruct (get_content_recommendations w models user_profile (limit * 2))
    as [c2|e]; simpl; [| discriminate].
  intros H. injection H as <-. exists c1, c2. auto.
Qed.

(** Every returned candidate is a fused candidate that passed a turn of
    the filter loop. *)
Lemma get_recommendations_In (out : list Rec.t) (r : Rec.t) :
  get_recommendations w models user_profile context limit exclude_products
  = Py.Ok out ->
  In r out ->
  exists c1 c2 r0,
    In r0 (combine_recommendations c1 c2
             (get_cultural_recommendations w models user_profile context
                (limit * 2))
             user_profile context) /\
    filter_step w user_profile r0 = Some r.
Proof.
  intros H Hin. apply get_recommendations_Ok in H as [c1 [c2 [_ [_ ->]]]].
  apply slice_to_In, filter_In in Hin as [Hin _].
  apply apply_uzbekistan_filters_In in Hin as [r0 [H0 H1]].
  exists c1, c2, r0. auto.
Qed.

End Recommendations.

Lemma distinct_after_filter {K T : Type} (key : T -> K) (keep : T -> bool)
      (xs : list T) :
  NoDup (map key xs) -> NoDup (map key (filter keep xs)).
Proof.
  intros Hd. induction xs as [|x xs IH]; simpl; [constructor |].
  simpl in Hd. apply NoDup_cons_iff in Hd as [Hx Hd].
  destruct (keep x); simpl; [| exact (IH Hd)].
  apply NoDup_cons; [| exact (IH Hd)].
  intros Hin. apply Hx. apply in_map_iff in Hin as [y [Ey Hy]].
  apply filter_In in Hy as [Hy _]. rewrite <- Ey. apply in_map. exact Hy.
Qed.

(** C2.  For a limit that is not negative, the list [get_recommendations]
    returns has at most [limit] entries and no product id occurs in it
    twice. *)
Theorem get_recommendations_bounded_distinct
    (w : World) (models : Models.t) (user_profile : UserProfile)
    (context : string) (limit : Z) (exclude_products : option (list string))
    (out : list Rec.t) :
  (0 <= limit)%Z ->
  get_recommendations w models user_profile context limit exclude_products
  = Py.Ok out ->
  (Z.of_nat (List.length out) <= limit)%Z /\ NoDup (map Rec.product_id out).
Proof.
  intros Hlimit H.
  apply get_recommendations_Ok in H as [c1 [c2 [_ [_ ->]]]].
  split; [apply slice_to_length; exact Hlimit |].
  rewrite slice_to_map. unfold Py.slice_to. apply NoDup_firstn.
  apply distinct_after_filter.
  rewrite apply_uzbekistan_filters_ids. apply NoDup_filter.
  apply combine_recommendations_spec.
Qed.

(** C1, as the code has it.  In the fused list every [total_score] is the
    sum of the candidate's per-signal entries.  In the returned list it is
    that sum taken through the post-filter's two multipliers (times 1.2
    for a local vendor, times 0.8 for a product without an Uzbek name);
    the entries themselves are left as fused. *)
Theorem total_score_is_adjusted_sum :
  (forall (c1 c2 c3 : list Signal.t) (user_profile : UserProfile)
          (context : string) (r : Rec.t),
      In r (combine_recommendations c1 c2 c3 user_profile context) ->
      Rec.total_score r = sum_of_scores r)
  /\
  (forall (w : World) (models : Models.t) (user_profile : UserProfile)
          (context : string) (limit : Z)
          (exclude_products : option (list string))
          (out : list Rec.t) (r : Rec.t),
      get_recommendations w models user_profile context limit exclude_products
      = Py.Ok out ->
      In r out ->
      exists product,
        fetch_product w (Rec.product_id r) = Some product /\
        Rec.total_score r
        = post_adjust user_profile product (sum_of_scores r)).
Proof.
  split.
  - intros c1 c2 c3 user_profile context r Hr.
    pose proof (combine_recommendations_spec c1 c2 c3 user_profile context)
      as [_ [Hsum _]].
    apply Hsum. exact Hr.
  - intros w models user_profile context limit exclude_products out r H Hin.
    destruct (get_recommendations_In _ _ _ _ _ _ _ _ H Hin)
      as [c1 [c2 [r0 [H0 Hstep]]]].
    destruct (filter_step_Some _ _ _ _ Hstep)
      as [product [Hf [_ [Hid [Hs Ht]]]]].
    exists product. split; [rewrite Hid; exact Hf |].
    pose proof (combine_recommendations_spec c1 c2
                  (get_cultural_recommendations w models user_profile context
                     (limit * 2))
                  user_profile context) as [_ [Hsum _]].
    destruct (Hsum _ H0) as [Hsum0 _].
    unfold sum_of_scores in *. rewrite Ht, Hs, Hsum0. reflexivity.
Qed.

(** C6.  Every returned candidate has a catalogue row whose price does not
    exceed the user's cap; and for a medium-income user in TSH the cap is
    2,400,000, which keeps a product priced 2,000,000 in the filter loop
    and drops one priced 3,000,000. *)
Theorem over_budget_never_returned :
  (forall (w : World) (models : Models.t) (user_profile : UserProfile)
          (context : string) (limit : Z)
          (exclude_products : option (list string))
          (out : list Rec.t) (r : Rec.t),
      get_recommendations w models user_profile context limit exclude_products
      = Py.Ok out ->
      In r out ->
      exists product,
        fetch_product w (Rec.product_id r) = Some product /\
        PrimFloat.ltb (get_max_price_for_user user_profile)
                      (Product.price product) = false)
  /\
  (forall (w : World) (user_profile : UserProfile) (r : Rec.t)
          (product : Product.t),
      region user_profile = "TSH" ->
      income_level user_profile = Some "medium" ->
      fetch_product w (Rec.product_id r) = Some product ->
      get_max_price_for_user user_profile = 2400000 /\
      (Product.price product = 2000000 ->
       apply_uzbekistan_filters w [r] user_profile <> []) /\
      (Product.price product = 3000000 ->
       apply_uzbekistan_filters w [r] user_profile = [])).
Proof.
  split.
  - intros w models user_profile context limit exclude_products out r H Hin.
    destruct (get_recommendations_In _ _ _ _ _ _ _ _ H Hin)
      as [c1 [c2 [r0 [H0 Hstep]]]].
    destruct (filter_step_Some _ _ _ _ Hstep)
      as [product [Hf [Hp [Hid _]]]].
    exists product. rewrite Hid. auto.
  - intros w user_profile r product Hregion Hincome Hfetch.
    assert (Hcap : get_max_price_for_user user_profile = 2400000).
    { unfold get_max_price_for_user. rewrite Hregion, Hincome.
      vm_compute. reflexivity. }
    split; [exact Hcap |].
    simpl. unfold filter_step. rewrite Hfetch, Hcap.
    split; intros Hprice; rewrite Hprice.
    + replace (PrimFloat.ltb 2400000 2000000) with false
        by (vm_compute; reflexivity).
      discriminate.
    + replace (PrimFloat.ltb 2400000 3000000) with true
        by (vm_compute; reflexivity).
      reflexivity.
Qed.

(** The request of the known user, evaluated. *)
Lemma demo_request :
  get_recommendations Demo.world Demo.models Demo.known_user "general" 2 None
  = Py.Ok [Demo.rec_A; Demo.rec_B].
Proof. vm_compute. reflexivity. Qed.

Lemma get_recommendations_bounded_distinct_witness :
  (0 <= 2)%Z /\
  get_recommendations Demo.world Demo.models Demo.known_user "general" 2 None
  = Py.Ok [Demo.rec_A; Demo.rec_B] /\
  (Z.of_nat (List.length [Demo.rec_A; Demo.rec_B]) <= 2)%Z /\
  NoDup (map Rec.product_id [Demo.rec_A; Demo.rec_B]).
Proof.
  assert (H0 : (0 <= 2)%Z) by lia.
  split; [exact H0 |]. split; [exact demo_request |].
  exact (get_recommendations_bounded_distinct
           Demo.world Demo.models Demo.known_user "general" 2 None
           [Demo.rec_A; Demo.rec_B] H0 demo_request).
Defined.

(** C1 fails on the returned list: product B comes back with
    [total_score] 0.48 while its only entry is 0.4, because its vendor is
    in the user's region. *)
Lemma total_score_differs_from_sum :
  get_recommendations Demo.world Demo.models Demo.known_user "general" 2 None
  = Py.Ok [Demo.rec_A; Demo.rec_B] /\
  In Demo.rec_B [Demo.rec_A; Demo.rec_B] /\
  Rec.total_score Demo.rec_B = 0.48 /\
  sum_of_scores Demo.rec_B = 0.4 /\
  Rec.total_score Demo.rec_B <> sum_of_scores Demo.rec_B.
Proof.
  split; [exact demo_request |].
  split; [right; left; reflexivity |].
  split; [reflexivity |]. split; [vm_compute; reflexivity |].
  intros H.
  apply (f_equal (fun x => PrimFloat.eqb x (sum_of_scores Demo.rec_B))) in H.
  vm_compute in H. discriminate.
Qed.

Lemma total_score_is_adjusted_sum_witness :
  (In Demo.fused_B
      (combine_recommendations [] [Demo.content_rec "B" 1] []
         Demo.known_user "general") /\
   Rec.total_score Demo.fused_B = sum_of_scores Demo.fused_B)
  /\
  (get_recommendations Demo.world Demo.models Demo.known_user "general" 2 None
   = Py.Ok [Demo.rec_A; Demo.rec_B] /\
   In Demo.rec_B [Demo.rec_A; Demo.rec_B] /\
   exists product,
     fetch_product Demo.world (Rec.product_id Demo.rec_B) = Some product /\
     Rec.total_score Demo.rec_B
     = post_adjust Demo.known_user product (sum_of_scores Demo.rec_B)).
Proof.
  assert (Hin : In Demo.rec_B [Demo.rec_A; Demo.rec_B])
    by (right; left; reflexivity).
  assert (Hfused : In Demo.fused_B
                      (combine_recommendations [] [Demo.content_rec "B" 1] []
                         Demo.known_user "general"))
    by (vm_compute; left; reflexivity).
  split.
  - split; [exact Hfused |].
    exact (proj1 total_score_is_adjusted_sum [] [Demo.content_rec "B" 1] []
             Demo.known_user "general" Demo.fused_B Hfused).
  - split; [exact demo_request |]. split; [exact Hin |].
    exact (proj2 total_score_is_adjusted_sum
             Demo.world Demo.models Demo.known_user "general" 2%Z None
             [Demo.rec_A; Demo.rec_B] Demo.rec_B demo_request Hin).
Defined.

Lemma over_budget_never_returned_witness :
  (get_recommendations Demo.world Demo.models Demo.known_user "general" 2 None
   = Py.Ok [Demo.rec_A; Demo.rec_B] /\
   In Demo.rec_A [Demo.rec_A; Demo.rec_B] /\
   exists product,
     fetch_product Demo.world (Rec.product_id Demo.rec_A) = Some product /\
     PrimFloat.ltb (get_max_price_for_user Demo.known_user)
                   (Product.price product) = false)
  /\
  (region Demo.known_user = "TSH" /\
   income_level Demo.known_user = Some "medium" /\
   fetch_product Demo.world (Rec.product_id Demo.rec_A)
   = Some (Demo.product 2000000 "QOR") /\
   get_max_price_for_user Demo.known_user = 2400000 /\
   (Product.price (Demo.product 2000000 "QOR") = 2000000 ->
    apply_uzbekistan_filters Demo.world [Demo.rec_A] Demo.known_user <> []) /\
   (Product.price (Demo.product 2000000 "QOR") = 3000000 ->
    apply_uzbekistan_filters Demo.world [Demo.rec_A] Demo.known_user = [])).
Proof.
  assert (Hin : In Demo.rec_A [Demo.rec_A; Demo.rec_B])
    by (left; reflexivity).
  split.
  - split; [exact demo_request |]. split; [exact Hin |].
    exact (proj1 over_budget_never_returned
             Demo.world Demo.models Demo.known_user "general" 2%Z None
             [Demo.rec_A; Demo.rec_B] Demo.rec_A demo_request Hin).
  - split; [reflexivity |]. split; [reflexivity |]. split; [reflexivity |].
    exact (proj2 over_budget_never_returned
             Demo.world Demo.known_user Demo.rec_A
             (Demo.product 2000000 "QOR") eq_refl eq_refl eq_refl).
Defined.

(* ================================================================== *)
(** ** Order of the returned list *)
(* ================================================================== *)

Lemma ids_of_filtered (keep : string -> bool) (recs : list Rec.t) :
  map Rec.product_id (filter (fun rec => keep (Rec.product_id rec)) recs)
  = filter keep (map Rec.product_id recs).
Proof.
  induction recs as [|r recs IH]; simpl; [reflexivity |].
  destruct (keep (Rec.product_id r)); simpl; rewrite IH; reflexivity.
Qed.

Lemma filter_twice {T : Type} (f g : T -> bool) (xs : list T) :
  filter g (filter f xs) = filter (fun x => f x && g x) xs.
Proof.
  induction xs as [|x xs IH]; simpl; [reflexivity |].
  destruct (f x); simpl; [destruct (g x); rewrite IH; reflexivity | exact IH].
Qed.

(** C4, as the code has it.  The post-filter does not sort: the fused list
    is in descending order of the fused totals, and the returned product
    ids are the ids of the fused list that pass the catalogue lookup, the
    budget cap and the exclusion list, in fused order, cut at the limit. *)
Theorem returned_order_is_fusion_order
    (w : World) (models : Models.t) (user_profile : UserProfile)
    (context : string) (limit : Z) (exclude_products : option (list string))
    (out : list Rec.t) :
  get_recommendations w models user_profile context limit exclude_products
  = Py.Ok out ->
  exists c1 c2 fused,
    get_collaborative_recommendations w models user_profile (limit * 2)
    = Py.Ok c1 /\
    get_content_recommendations w models user_profile (limit * 2)
    = Py.Ok c2 /\
    fused = combine_recommendations c1 c2
              (get_cultural_recommendations w models user_profile context
                 (limit * 2))
              user_profile context /\
    Sorted (Py.not_below Rec.total_score) fused /\
    map Rec.product_id out
    = Py.slice_to
        (filter (passes w user_profile exclude_products)
                (map Rec.product_id fused))
        limit.
Proof.
  intros H. apply get_recommendations_Ok in H as [c1 [c2 [H1 [H2 ->]]]].
  exists c1, c2. eexists. split; [exact H1 |]. split; [exact H2 |].
  split; [reflexivity |]. split; [apply combine_recommendations_spec |].
  rewrite slice_to_map.
  rewrite (ids_of_filtered
             (fun id => negb (Py.mem id (Py.or_list exclude_products [])))).
  rewrite apply_uzbekistan_filters_ids, filter_twice. reflexivity.
Qed.

Lemma returned_order_is_fusion_order_witness :
  get_recommendations Demo.world Demo.models Demo.known_user "general" 2 None
  = Py.Ok [Demo.rec_A; Demo.rec_B] /\
  exists c1 c2 fused,
    get_collaborative_recommendations Demo.world Demo.models Demo.known_user
      (2 * 2) = Py.Ok c1 /\
    get_content_recommendations Demo.world Demo.models Demo.known_user (2 * 2)
    = Py.Ok c2 /\
    fused = combine_recommendations c1 c2
              (get_cultural_recommendations Demo.world Demo.models
                 Demo.known_user "general" (2 * 2))
              Demo.known_user "general" /\
    Sorted (Py.not_below Rec.total_score) fused /\
    map Rec.product_id [Demo.rec_A; Demo.rec_B]
    = Py.slice_to
        (filter (passes Demo.world Demo.known_user None)
                (map Rec.product_id fused))
        2.
Proof.
  split; [exact demo_request |].
  exact (returned_order_is_fusion_order
           Demo.world Demo.models Demo.known_user "general" 2 None
           [Demo.rec_A; Demo.rec_B] demo_request).
Defined.

(** C4 fails: the known user gets A (0.44) ahead of B (0.48).  B was
    fused at 0.4, behind A, and its boost came after the only sort. *)
Lemma returned_list_not_sorted :
  get_recommendations Demo.world Demo.models Demo.known_user "general" 2 None
  = Py.Ok [Demo.rec_A; Demo.rec_B] /\
  Rec.total_score Demo.rec_A = 0.44 /\
  Rec.total_score Demo.rec_B = 0.48 /\
  PrimFloat.ltb (Rec.total_score Demo.rec_A) (Rec.total_score Demo.rec_B)
  = true /\
  ~ Sorted (Py.not_below Rec.total_score) [Demo.rec_A; Demo.rec_B].
Proof.
  split; [exact demo_request |].
  split; [reflexivity |]. split; [reflexivity |].
  split; [vm_compute; reflexivity |].
  intros Hs. inversion Hs as [|? ? _ Hh]; subst.
  inversion Hh as [|? ? Hab]; subst.
  unfold Py.not_below in Hab. vm_compute in Hab. discriminate.
Qed.

(* ================================================================== *)
(** ** Weights *)
(* ================================================================== *)

(** C5, as the code has it.  The holiday shift is keyed on the context
    string [holiday_shopping]; for a region outside TSH and SAM it gives
    the binary64 values of 0.4 - 0.1, 0.3 - 0.1 - 0.1 and 0.3 + 0.1 + 0.2
    (0.30000000000000004, 0.09999999999999998 and 0.6000000000000001),
    nothing renormalises them, and every entry of a fused candidate is a
    raw score times the weight of its signal. *)
Theorem holiday_weights_outside_urban
    (user_profile : UserProfile) (c1 c2 c3 : list Signal.t) :
  Py.mem (region user_profile) ["TSH"; "SAM"] = false ->
  let weights :=
    {| Weights.collaborative := 0.30000000000000004;
       Weights.content := 0.09999999999999998;
       Weights.cultural := 0.6000000000000001 |} in
  adjust_weights user_profile "holiday_shopping" = weights /\
  weights = {| Weights.collaborative := 0.4 - 0.1;
               Weights.content := 0.3 - 0.1 - 0.1;
               Weights.cultural := 0.3 + 0.1 + 0.2 |} /\
  forall r signal v,
    In r (combine_recommendations c1 c2 c3 user_profile "holiday_shopping") ->
    In (signal, v) (Rec.scores r) ->
    fused_from weights c1 c2 c3 (Rec.product_id r) signal v.
Proof.
  intros Hrural weights.
  assert (Hw : adjust_weights user_profile "holiday_shopping" = weights).
  { unfold adjust_weights. rewrite Hrural. vm_compute. reflexivity. }
  split; [exact Hw |]. split; [vm_compute; reflexivity |].
  intros r signal v Hr Hv. rewrite <- Hw.
  pose proof (combine_recommendations_spec c1 c2 c3 user_profile
                "holiday_shopping") as [_ [Hspec _]].
  destruct (Hspec r Hr) as [_ Hfrom]. apply Hfrom. exact Hv.
Qed.

Lemma holiday_weights_outside_urban_witness :
  Py.mem (region Demo.new_user) ["TSH"; "SAM"] = false /\
  let weights :=
    {| Weights.collaborative := 0.30000000000000004;
       Weights.content := 0.09999999999999998;
       Weights.cultural := 0.6000000000000001 |} in
  adjust_weights Demo.new_user "holiday_shopping" = weights /\
  weights = {| Weights.collaborative := 0.4 - 0.1;
               Weights.content := 0.3 - 0.1 - 0.1;
               Weights.cultural := 0.3 + 0.1 + 0.2 |} /\
  forall r signal v,
    In r (combine_recommendations [] [] [] Demo.new_user "holiday_shopping") ->
    In (signal, v) (Rec.scores r) ->
    fused_from weights [] [] [] (Rec.product_id r) signal v.
Proof.
  split; [reflexivity |].
  exact (holiday_weights_outside_urban Demo.new_user [] [] [] eq_refl).
Defined.

(** C5 fails twice.  With the context written "holiday shopping" the
    holiday shift does not happen (the user in BUX gets 0.4 / 0.2 / 0.4,
    and a cultural raw score of 1 is fused as 0.4); and with the context
    the code tests for, the three sums are not the doubles 0.3, 0.1, 0.6. *)
Lemma holiday_weights_not_as_claimed :
  Py.mem (region Demo.new_user) ["TSH"; "SAM"] = false /\
  adjust_weights Demo.new_user "holiday shopping"
  = {| Weights.collaborative := 0.4;
       Weights.content := 0.19999999999999998;
       Weights.cultural := 0.4 |} /\
  map Rec.scores
      (combine_recommendations [] []
         [ {| Signal.product_id := "A"; Signal.score := 1;
              Signal.reason := None; Signal.cultural_factor := None |} ]
         Demo.new_user "holiday shopping")
  = [ [("cultural", 0.4)] ] /\
  (let weights := adjust_weights Demo.new_user "holiday_shopping" in
   PrimFloat.eqb (Weights.collaborative weights) 0.3 = false /\
   PrimFloat.eqb (Weights.content weights) 0.1 = false /\
   PrimFloat.eqb (Weights.cultural weights) 0.6 = false).
Proof. vm_compute. repeat split; reflexivity. Qed.

(* ================================================================== *)
(** ** Budget cap *)
(* ================================================================== *)

(** C10.  A profile without an income tier, or with a tier that is none
    of low, medium and high, gets the medium base price 2,000,000 times
    the multiplier of its region.  The function is total: it returns a
    float on every profile. *)
Theorem unknown_income_is_medium (user_profile : UserProfile) :
  (income_level user_profile = None \/
   exists tier,
     income_level user_profile = Some tier /\
     tier <> "low" /\ tier <> "medium" /\ tier <> "high") ->
  get_max_price_for_user user_profile
  = 2000000 * Py.get_default regional_multipliers (region user_profile) 0.9.
Proof.
  assert (Hmedium_price : Py.get_default base_prices "medium" 2000000
                          = 2000000) by reflexivity.
  unfold get_max_price_for_user.
  intros [-> | [tier [-> [Hlow [Hmedium Hhigh]]]]].
  - cbn [Py.truthy]. rewrite Hmedium_price. reflexivity.
  - cbn [Py.truthy].
    destruct (negb (String.eqb tier ""));
      [| rewrite Hmedium_price; reflexivity].
    rewrite Hmedium_price.
    unfold Py.get_default at 1, base_prices. cbn [Py.get].
    rewrite (proj2 (String.eqb_neq "low" tier)) by congruence.
    rewrite (proj2 (String.eqb_neq "medium" tier)) by congruence.
    rewrite (proj2 (String.eqb_neq "high" tier)) by congruence.
    reflexivity.
Qed.

Lemma unknown_income_is_medium_witness :
  (income_level (Demo.profile "u7" "QOR" (Some "premium")) = None \/
   exists tier,
     income_level (Demo.profile "u7" "QOR" (Some "premium")) = Some tier /\
     tier <> "low" /\ tier <> "medium" /\ tier <> "high") /\
  get_max_price_for_user (Demo.profile "u7" "QOR" (Some "premium"))
  = 2000000 * Py.get_default regional_multipliers "QOR" 0.9.
Proof.
  assert (H : income_level (Demo.profile "u7" "QOR" (Some "premium")) = None \/
              exists tier,
                income_level (Demo.profile "u7" "QOR" (Some "premium"))
                = Some tier /\
                tier <> "low" /\ tier <> "medium" /\ tier <> "high").
  { right. exists "premium". repeat split; discriminate. }
  split; [exact H |].
  exact (unknown_income_is_medium (Demo.profile "u7" "QOR" (Some "premium")) H).
Defined.

(* ================================================================== *)
(** ** Collaborative signal and fallback *)
(* ================================================================== *)

Lemma index_from_absent (x : string) (xs : list string) (i : nat) :
  ~ In x xs -> Py.index_from x xs i = Py.Raise Py.ValueError.
Proof.
  revert i. induction xs as [|y ys IH]; intros i Hx; simpl; [reflexivity |].
  destruct (String.eqb_spec y x) as [-> | _].
  - exfalso. apply Hx. left. reflexivity.
  - apply IH. intros H. apply Hx. right. exact H.
Qed.

Lemma index_from_present (x : string) (xs : list string) (i : nat) :
  In x xs ->
  exists j, Py.index_from x xs i = Py.Ok (i + j)%nat /\ nth_error xs j = Some x.
Proof.
  revert i. induction xs as [|y ys IH]; intros i Hx; simpl; [destruct Hx |].
  destruct (String.eqb_spec y x) as [-> | Hne].
  - exists 0%nat. rewrite Nat.add_0_r. auto.
  - destruct Hx as [-> | Hx]; [congruence |].
    destruct (IH (S i) Hx) as [j [Hj Hn]].
    exists (S j). rewrite <- plus_n_Sm. auto.
Qed.

Section Collaborative.

Variables (w : World) (models : Models.t).
Variables (user_profile : UserProfile) (limit : Z).

(** No artifact loaded: the signal is empty, the fallback is not run. *)
Lemma collaborative_without_model :
  Models.collaborative models = None ->
  get_collaborative_recommendations w models user_profile limit = Py.Ok [].
Proof.
  intros H. unfold get_collaborative_recommendations. rewrite H. reflexivity.
Qed.

(** Cold start: the popularity list stands in for the signal. *)
Lemma collaborative_cold_start (model : Collaborative.t) :
  Models.collaborative models = Some model ->
  ~ In (user_id user_profile) (Collaborative.user_index model) ->
  get_collaborative_recommendations w models user_profile limit
  = Py.Ok (get_popular_recommendations w user_profile limit).
Proof.
  intros H Hx. unfold get_collaborative_recommendations, Py.index.
  rewrite H, (index_from_absent _ _ 0 Hx). reflexivity.
Qed.

(** A user the model knows: whatever the similar users are, the list
    that comes back is empty. *)
Lemma collaborative_known_user (model : Collaborative.t)
      (recs : list Signal.t) :
  Models.collaborative models = Some model ->
  In (user_id user_profile) (Collaborative.user_index model) ->
  get_collaborative_recommendations w models user_profile limit = Py.Ok recs ->
  recs = [].
Proof.
  intros H Hx. unfold get_collaborative_recommendations, Py.index.
  rewrite H. destruct (index_from_present _ _ 0 Hx) as [j [-> _]].
  cbn [Py.bind].
  destruct (Py.getitem (Collaborative.user_factors model) (0 + j)%nat)
    as [user_vector | e] eqn:Ev;
    [| unfold Py.getitem in Ev; destruct (nth_error _ _); [discriminate |];
       injection Ev as <-; discriminate].
  cbn [Py.bind].
  match goal with
  | |- context [Py.for_each ?xs ?body] =>
      pose proof (for_each_no_ValueError xs body) as Hloop;
      destruct (Py.for_each xs body) as [[] | e]
  end.
  - cbn. unfold Py.slice_to. rewrite firstn_nil. congruence.
  - cbn [Py.bind Py.except_ValueError].
    destruct e; try discriminate.
    exfalso. apply Hloop; [| reflexivity].
    intros i. unfold Py.getitem.
    destruct (nth_error (Collaborative.user_index model) i); discriminate.
Qed.

(** The fallback keeps the rows of the popularity query in the order the
    store returns them; a row is scored by its order count times its
    average rating, and by its order count times 3.0 when it has none (or
    a zero one). *)
Lemma popular_recommendations_rows :
  Forall2
    (fun row rec =>
       Signal.product_id rec = PopularRow.product_id row /\
       Signal.score rec
       = float_of_int (PopularRow.order_count row)
         * match PopularRow.avg_rating row with
           | Some rating => if PrimFloat.eqb rating 0 then 3.0 else rating
           | None => 3.0
           end)
    (fetch_popular_products w limit)
    (get_popular_recommendations w user_profile limit).
Proof.
  unfold get_popular_recommendations.
  induction (fetch_popular_products w limit) as [|row rows IH]; simpl;
    constructor; [| exact IH].
  split; reflexivity.
Qed.

End Collaborative.

(** C7, as the code has it.  When no collaborative artifact is loaded the
    collaborative signal is empty; the fallback replaces it only for a
    user who is missing from the index of a loaded model.  The fallback
    lists the rows of the store's popularity query in the store's order,
    each scored by its order count times its average rating, with 3.0 in
    place of a missing (or zero) average. *)
Theorem fallback_only_on_cold_start
    (w : World) (models : Models.t) (user_profile : UserProfile) (limit : Z) :
  (Models.collaborative models = None ->
   get_collaborative_recommendations w models user_profile limit = Py.Ok [])
  /\
  (forall model,
     Models.collaborative models = Some model ->
     ~ In (user_id user_profile) (Collaborative.user_index model) ->
     get_collaborative_recommendations w models user_profile limit
     = Py.Ok (get_popular_recommendations w user_profile limit))
  /\
  Forall2
    (fun row rec =>
       Signal.product_id rec = PopularRow.product_id row /\
       Signal.score rec
       = float_of_int (PopularRow.order_count row)
         * match PopularRow.avg_rating row with
           | Some rating => if PrimFloat.eqb rating 0 then 3.0 else rating
           | None => 3.0
           end)
    (fetch_popular_products w limit)
    (get_popular_recommendations w user_profile limit).
Proof.
  split; [apply collaborative_without_model |].
  split; [apply collaborative_cold_start |].
  apply popular_recommendations_rows.
Qed.

(** C7 fails when nothing is loaded: the popularity query has two rows
    for the new user, and the collaborative signal is empty all the same. *)
Lemma no_fallback_without_model :
  Models.collaborative Demo.models_without_collaborative = None /\
  List.length (get_popular_recommendations Demo.world Demo.new_user 4) = 2%nat /\
  get_collaborative_recommendations
    Demo.world Demo.models_without_collaborative Demo.new_user 4
  = Py.Ok [] /\
  get_collaborative_recommendations
    Demo.world Demo.models_without_collaborative Demo.new_user 4
  <> Py.Ok (get_popular_recommendations Demo.world Demo.new_user 4).
Proof.
  split; [reflexivity |]. split; [vm_compute; reflexivity |].
  split; [reflexivity |]. vm_compute. discriminate.
Qed.

(** C3 at a user of the index.  The model knows u1, the ten-nearest slice
    holds the two other users, and the candidate list is empty: the loop
    over the similar users has no body. *)
Theorem collaborative_empty_for_known_user :
  Models.collaborative Demo.models = Some Demo.collaborative_model /\
  In (user_id Demo.known_user)
     (Collaborative.user_index Demo.collaborative_model) /\
  Py.slice
    (rev (argsort Demo.world
            (cosine_similarity Demo.world [1; 0]
               (Collaborative.user_factors Demo.collaborative_model))))
    1 11 = [1; 2]%nat /\
  get_collaborative_recommendations Demo.world Demo.models Demo.known_user 4
  = Py.Ok [].
Proof.
  split; [reflexivity |]. split; [left; reflexivity |].
  split; vm_compute; reflexivity.
Qed.

Lemma fallback_only_on_cold_start_witness :
  (Models.collaborative Demo.models_without_collaborative = None /\
   get_collaborative_recommendations
     Demo.world Demo.models_without_collaborative Demo.new_user 4
   = Py.Ok [])
  /\
  (Models.collaborative Demo.models = Some Demo.collaborative_model /\
   ~ In (user_id Demo.new_user)
        (Collaborative.user_index Demo.collaborative_model) /\
   get_collaborative_recommendations Demo.world Demo.models Demo.new_user 4
   = Py.Ok (get_popular_recommendations Demo.world Demo.new_user 4))
  /\
  Forall2
    (fun row rec =>
       Signal.product_id rec = PopularRow.product_id row /\
       Signal.score rec
       = float_of_int (PopularRow.order_count row)
         * match PopularRow.avg_rating row with
           | Some rating => if PrimFloat.eqb rating 0 then 3.0 else rating
           | None => 3.0
           end)
    (fetch_popular_products Demo.world 4)
    (get_popular_recommendations Demo.world Demo.new_user 4).
Proof.
  assert (Hnew : ~ In (user_id Demo.new_user)
                      (Collaborative.user_index Demo.collaborative_model)).
  { intros [H | [H | [H | []]]]; discriminate. }
  split; [| split].
  - split; [reflexivity |].
    exact (proj1 (fallback_only_on_cold_start
                    Demo.world Demo.models_without_collaborative
                    Demo.new_user 4%Z) eq_refl).
  - split; [reflexivity |]. split; [exact Hnew |].
    exact (proj1 (proj2 (fallback_only_on_cold_start
                           Demo.world Demo.models Demo.new_user 4%Z))
             Demo.collaborative_model eq_refl Hnew).
  - exact (proj2 (proj2 (fallback_only_on_cold_start
                           Demo.world Demo.models Demo.new_user 4%Z))).
Defined.

(* ================================================================== *)
(** ** Content signal and similar products *)
(* ================================================================== *)

Lemma collect_Forall2 {S T : Type} (body : S -> Py.result T)
      (xs : list S) (ys : list T) :
  Py.collect xs body = Py.Ok ys ->
  Forall2 (fun x y => body x = Py.Ok y) xs ys.
Proof.
  revert ys. induction xs as [|x xs IH]; intros ys; simpl.
  - intros H. injection H as <-. constructor.
  - destruct (body x) as [y | e] eqn:Ey; simpl; [| discriminate].
    destruct (Py.collect xs body) as [ys' | e]; simpl; [| discriminate].
    intros H. injection H as <-. constructor; [exact Ey | apply IH; reflexivity].
Qed.

(** Sortedness carries over from the inputs of a loop to its outputs. *)
Lemma Sorted_Forall2 {S T : Type} (P : S -> T -> Prop)
      (R : S -> S -> Prop) (R' : T -> T -> Prop) (xs : list S) (ys : list T) :
  (forall x x' y y', P x y -> P x' y' -> R x x' -> R' y y') ->
  Forall2 P xs ys -> Sorted R xs -> Sorted R' ys.
Proof.
  intros Hmono H. induction H as [|x y xs ys Hxy Hrest IH]; intros Hs;
    [constructor |].
  inversion Hs as [|? ? Hs' Hh]; subst.
  constructor; [apply IH; exact Hs' |].
  destruct Hrest as [|x' y' xs' ys' Hxy' _]; constructor.
  inversion Hh; subst. eapply Hmono; eassumption.
Qed.

Lemma nth_error_value (a : list float) (i : nat) (v : float) :
  nth_error a i = Some v -> Np.value a i = v.
Proof. intros H. unfold Np.value. apply nth_error_nth. exact H. Qed.

(** C8, as the code has it.  With the content model loaded, the signal
    returns the products at the front ([[:k]]) of NumPy's ascending order
    reversed; each comes with its own similarity, and none has a smaller
    similarity than the one after it.  Products with equal similarity come
    in the reverse of the order [argsort] left them in, which is never
    required to be, and after the reversal generally is not, lower index
    first. *)
Theorem content_top_k_descending
    (w : World) (models : Models.t) (user_profile : UserProfile) (limit : Z)
    (model : Content.t) (recs : list Signal.t) :
  Models.content models = Some model ->
  Np.is_argsort (content_similarities w model user_profile)
                (argsort w (content_similarities w model user_profile)) ->
  get_content_recommendations w models user_profile limit = Py.Ok recs ->
  let similarities := content_similarities w model user_profile in
  let order := rev (argsort w similarities) in
  Permutation order (seq 0 (List.length (Content.feature_matrix model))) /\
  Forall2
    (fun idx rec =>
       nth_error (Content.product_ids model) idx
       = Some (Signal.product_id rec) /\
       nth_error similarities idx = Some (Signal.score rec))
    (Py.slice_to order limit) recs /\
  Sorted (Py.not_below Signal.score) recs.
Proof.
  intros Hmodel [Hperm Hsorted] H similarities order.
  unfold get_content_recommendations in H. rewrite Hmodel in H.
  fold similarities in H, Hperm, Hsorted. fold order in H.
  apply collect_Forall2 in H.
  assert (Hrows :
    Forall2
      (fun idx rec =>
         nth_error (Content.product_ids model) idx
         = Some (Signal.product_id rec) /\
         nth_error similarities idx = Some (Signal.score rec))
      (Py.slice_to order limit) recs).
  { eapply Forall2_impl; [| exact H].
    intros idx rec. simpl. unfold Py.getitem.
    destruct (nth_error (Content.product_ids model) idx); [| discriminate].
    simpl.
    destruct (nth_error similarities idx); [| discriminate].
    simpl. intros E. injection E as <-. auto. }
  split; [| split; [exact Hrows |]].
  - subst order. eapply perm_trans; [apply Permutation_sym, Permutation_rev |].
    replace (List.length (Content.feature_matrix model))
      with (List.length similarities); [exact Hperm |].
    subst similarities. unfold content_similarities, cosine_similarity.
    apply length_map.
  - refine (Sorted_Forall2 _ (fun i j => Np.ascending similarities j i) _
              _ _ _ Hrows _).
    + intros i j ri rj [_ Hi] [_ Hj] Hij.
      unfold Np.ascending in Hij.
      rewrite (nth_error_value _ _ _ Hi), (nth_error_value _ _ _ Hj) in Hij.
      apply np_lt_false_ltb. exact Hij.
    + unfold Py.slice_to. apply Sorted_firstn. subst order.
      apply (Sorted_rev (Np.ascending similarities)). exact Hsorted.
Qed.

Lemma demo_content_request :
  get_content_recommendations Demo.world Demo.models Demo.known_user 2
  = Py.Ok [Demo.content_rec "B" 1; Demo.content_rec "A" 1].
Proof. vm_compute. reflexivity. Qed.

Lemma content_top_k_descending_witness :
  Models.content Demo.models = Some Demo.content_model /\
  Np.is_argsort
    (content_similarities Demo.world Demo.content_model Demo.known_user)
    (argsort Demo.world
       (content_similarities Demo.world Demo.content_model Demo.known_user)) /\
  get_content_recommendations Demo.world Demo.models Demo.known_user 2
  = Py.Ok [Demo.content_rec "B" 1; Demo.content_rec "A" 1] /\
  let similarities :=
    content_similarities Demo.world Demo.content_model Demo.known_user in
  let order := rev (argsort Demo.world similarities) in
  Permutation order
    (seq 0 (List.length (Content.feature_matrix Demo.content_model))) /\
  Forall2
    (fun idx rec =>
       nth_error (Content.product_ids Demo.content_model) idx
       = Some (Signal.product_id rec) /\
       nth_error similarities idx = Some (Signal.score rec))
    (Py.slice_to order 2)
    [Demo.content_rec "B" 1; Demo.content_rec "A" 1] /\
  Sorted (Py.not_below Signal.score)
         [Demo.content_rec "B" 1; Demo.content_rec "A" 1].
Proof.
  assert (Hsort :
    Np.is_argsort
      (content_similarities Demo.world Demo.content_model Demo.known_user)
      (argsort Demo.world
         (content_similarities Demo.world Demo.content_model
            Demo.known_user)))
    by (exact (argsort_is_argsort _)).
  split; [reflexivity |]. split; [exact Hsort |].
  split; [exact demo_content_request |].
  exact (content_top_k_descending
           Demo.world Demo.models Demo.known_user 2 Demo.content_model
           [Demo.content_rec "B" 1; Demo.content_rec "A" 1]
           eq_refl Hsort demo_content_request).
Defined.

(** C8 fails on a tie.  Products A (index 0) and B (index 1) are equally
    similar to the user, and B is ranked first. *)
Lemma content_tie_ranks_higher_index_first :
  Content.product_ids Demo.content_model = ["A"; "B"; "C"] /\
  content_similarities Demo.world Demo.content_model Demo.known_user
  = [1; 1; 0] /\
  argsort Demo.world [1; 1; 0] = [2; 0; 1]%nat /\
  get_content_recommendations Demo.world Demo.models Demo.known_user 2
  = Py.Ok [Demo.content_rec "B" 1; Demo.content_rec "A" 1].
Proof. vm_compute. repeat split; reflexivity. Qed.

(** C9 at a product with a twin.  A and B have the same feature row, so
    both are at similarity 1 to A; the slice [[1:limit+1]] drops B, the
    first of the reversed order, and the product returned as similar to A
    is A. *)
Theorem similar_products_returns_queried_product :
  Py.index (Content.product_ids Demo.content_model) "A" = Py.Ok 0%nat /\
  cosine_similarity Demo.world [1; 0]
    (Content.feature_matrix Demo.content_model) = [1; 1; 0] /\
  rev (argsort Demo.world [1; 1; 0]) = [1; 0; 2]%nat /\
  get_similar_products Demo.world Demo.models "A" 1
  = Py.Ok [Demo.similar "A" 1].
Proof. vm_compute. repeat split; reflexivity. Qed.

(* ================================================================== *)
(** ** The request returns *)
(* ================================================================== *)

Lemma is_argsort_bound (a : list float) (p : list nat) (i : nat) :
  Np.is_argsort a p -> In i p -> (i < List.length a)%nat.
Proof.
  intros [Hperm _] Hi. apply (Permutation_in _ Hperm) in Hi.
  apply in_seq in Hi. lia.
Qed.

Lemma slice_In {T : Type} (xs : list T) (start stop : Z) (x : T) :
  In x (Py.slice xs start stop) -> In x xs.
Proof.
  unfold Py.slice. intros H. apply In_firstn in H.
  rewrite <- (firstn_skipn (Py.clamp (List.length xs) start) xs).
  apply in_or_app. right. exact H.
Qed.

Lemma collect_returns {S T : Type} (body : S -> Py.result T) (xs : list S) :
  (forall x, In x xs -> exists y, body x = Py.Ok y) ->
  exists ys, Py.collect xs body = Py.Ok ys.
Proof.
  induction xs as [|x xs IH]; intros H; simpl; [exists []; reflexivity |].
  destruct (H x (or_introl eq_refl)) as [y ->].
  destruct IH as [ys ->]; [intros x' Hx'; apply H; right; exact Hx' |].
  exists (y :: ys). reflexivity.
Qed.

Lemma getitem_in_range {T : Type} (xs : list T) (i : nat) :
  (i < List.length xs)%nat -> exists x, Py.getitem xs i = Py.Ok x.
Proof.
  intros H. unfold Py.getitem.
  destruct (nth_error xs i) as [x|] eqn:E; [exists x; reflexivity |].
  apply nth_error_None in E. lia.
Qed.

Section Returns.

Variables (w : World) (models : Models.t).
Hypothesis Hparallel : parallel_artifacts models.
Hypothesis Hargsort : argsort_contract w.

Lemma get_collaborative_recommendations_returns
      (user_profile : UserProfile) (limit : Z) :
  exists recs,
    get_collaborative_recommendations w models user_profile limit
    = Py.Ok recs.
Proof.
  unfold get_collaborative_recommendations.
  destruct (Models.collaborative models) as [model|] eqn:Em;
    [| exists []; reflexivity].
  destruct Hparallel as [Hlen _]. specialize (Hlen model Em).
  destruct (in_dec string_dec (user_id user_profile)
              (Collaborative.user_index model)) as [Hin | Hout].
  - unfold Py.index.
    destruct (index_from_present _ _ 0 Hin) as [j [-> Hj]].
    assert (Hlt : (j < List.length (Collaborative.user_factors model))%nat).
    { rewrite <- Hlen. apply nth_error_Some. congruence. }
    destruct (getitem_in_range _ _ Hlt) as [user_vector Ev].
    simpl. rewrite Ev. cbn [Py.bind].
    rewrite for_each_ok.
    + eexists. reflexivity.
    + intros i Hi. apply slice_In, in_rev in Hi.
      apply (is_argsort_bound _ _ _ (Hargsort _)) in Hi.
      unfold cosine_similarity in Hi. rewrite length_map, <- Hlen in Hi.
      destruct (getitem_in_range _ _ Hi) as [x ->]. reflexivity.
  - unfold Py.index. rewrite (index_from_absent _ _ 0 Hout).
    eexists. reflexivity.
Qed.

Lemma get_content_recommendations_returns
      (user_profile : UserProfile) (limit : Z) :
  exists recs,
    get_content_recommendations w models user_profile limit = Py.Ok recs.
Proof.
  unfold get_content_recommendations.
  destruct (Models.content models) as [model|] eqn:Em;
    [| exists []; reflexivity].
  destruct Hparallel as [_ Hlen]. specialize (Hlen model Em).
  apply collect_returns. intros idx Hidx.
  apply slice_to_In, in_rev in Hidx.
  apply (is_argsort_bound _ _ _ (Hargsort _)) in Hidx.
  destruct (getitem_in_range _ _ Hidx) as [score Es].
  unfold content_similarities, cosine_similarity in Hidx.
  rewrite length_map, <- Hlen in Hidx.
  destruct (getitem_in_range _ _ Hidx) as [product_id Ep].
  rewrite Ep, Es. eexists. reflexivity.
Qed.

(** With parallel artifacts and an [argsort] that keeps its contract, a
    request always returns a list. *)
Lemma get_recommendations_returns
      (user_profile : UserProfile) (context : string) (limit : Z)
      (exclude_products : option (list string)) :
  exists out,
    get_recommendations w models user_profile context limit exclude_products
    = Py.Ok out.
Proof.
  unfold get_recommendations.
  destruct (get_collaborative_recommendations_returns user_profile
              (limit * 2)) as [c1 ->].
  destruct (get_content_recommendations_returns user_profile (limit * 2))
    as [c2 ->].
  eexists. reflexivity.
Qed.

End Returns.

(** The catalogue of the examples is such a world. *)
Lemma demo_returns :
  parallel_artifacts Demo.models /\ argsort_contract Demo.world.
Proof.
  split; [split; intros m E; injection E as <-; reflexivity |].
  intros a. exact (argsort_is_argsort a).
Qed.

(* ================================================================== *)
(** ** Fusion: which products, in which order *)
(* ================================================================== *)

Lemma mem_In (x : string) (xs : list string) :
  Py.mem x xs = true <-> In x xs.
Proof.
  unfold Py.mem. rewrite existsb_exists. split.
  - intros [y [Hy E]]. apply String.eqb_eq in E. subst. exact Hy.
  - intros H. exists x. split; [exact H | apply String.eqb_refl].
Qed.

Lemma contains_mem_keys {V : Type} (d : Py.dict V) (k : string) :
  Py.contains d k = Py.mem k (Py.keys d).
Proof.
  destruct (Py.contains d k) eqn:E; symmetry.
  - apply mem_In, contains_keys. exact E.
  - destruct (Py.mem k (Py.keys d)) eqn:E'; [| reflexivity].
    apply mem_In, contains_keys in E'. congruence.
Qed.

(** A merge step adds the product's key at the end unless it is there. *)
Lemma keys_add_recommendation
      (signal : string) (weight : float) (copy_factor : bool)
      (d : Py.dict Rec.t) (rec : Signal.t) :
  Py.keys (add_recommendation signal weight copy_factor d rec)
  = if Py.mem (Signal.product_id rec) (Py.keys d) then Py.keys d
    else Py.keys d ++ [Signal.product_id rec].
Proof.
  unfold add_recommendation. rewrite keys_update, contains_mem_keys.
  destruct (Py.mem (Signal.product_id rec) (Py.keys d)) eqn:E;
    [reflexivity |].
  apply keys_set_absent. rewrite contains_mem_keys. exact E.
Qed.

Lemma keys_fold_add_recommendation
      (signal : string) (weight : float) (copy_factor : bool)
      (recs : list Signal.t) (d : Py.dict Rec.t) :
  Py.keys (fold_left (add_recommendation signal weight copy_factor) recs d)
  = fold_left (fun seen id => if Py.mem id seen then seen else seen ++ [id])
              (map Signal.product_id recs) (Py.keys d).
Proof.
  revert d. induction recs as [|rec recs IH]; intros d; simpl;
    [reflexivity |].
  rewrite IH, keys_add_recommendation. reflexivity.
Qed.

(** The merge dict lists the proposed products in first-seen order. *)
Lemma keys_merge_signals (weights : Weights.t) (c1 c2 c3 : list Signal.t) :
  Py.keys (merge_signals weights c1 c2 c3) = first_seen (proposed c1 c2 c3).
Proof.
  unfold merge_signals, first_seen, proposed.
  rewrite !keys_fold_add_recommendation, !map_app, !fold_left_app.
  reflexivity.
Qed.

Lemma first_seen_step_In (ids seen : list string) (x : string) :
  In x (fold_left
          (fun seen id => if Py.mem id seen then seen else seen ++ [id])
          ids seen)
  <-> In x seen \/ In x ids.
Proof.
  revert seen. induction ids as [|id ids IH]; intros seen; simpl;
    [tauto |].
  rewrite IH. destruct (Py.mem id seen) eqn:E.
  - apply mem_In in E. split; [tauto |].
    intros [H | [<- | H]]; auto.
  - rewrite in_app_iff. simpl. tauto.
Qed.

(** The ids of a fused list, as a list. *)
Lemma fused_ids_permutation
      (c1 c2 c3 : list Signal.t) (user_profile : UserProfile)
      (context : string) :
  Permutation
    (map Rec.product_id
         (combine_recommendations c1 c2 c3 user_profile context))
    (first_seen (proposed c1 c2 c3)).
Proof.
  unfold combine_recommendations.
  set (weights := adjust_weights user_profile context).
  pose proof (merge_signals_well_keyed weights c1 c2 c3) as Hwk.
  rewrite <- (keys_merge_signals weights).
  rewrite <- (values_product_ids _ _ Hwk).
  eapply perm_trans;
    [apply Permutation_map, sorted_desc_perm |].
  rewrite values_map_values, map_map. apply Permutation_refl.
Qed.

(** X1.  Fusion neither loses nor invents a product: the ids of the fused
    list are exactly the ids that some signal proposed. *)
Theorem fused_products_are_the_proposed
    (c1 c2 c3 : list Signal.t) (user_profile : UserProfile)
    (context : string) (product_id : string) :
  In product_id
     (map Rec.product_id
          (combine_recommendations c1 c2 c3 user_profile context))
  <-> In product_id (proposed c1 c2 c3).
Proof.
  split; intros H.
  - apply (Permutation_in _ (fused_ids_permutation _ _ _ _ _)) in H.
    unfold first_seen in H. apply first_seen_step_In in H as [[] | H].
    exact H.
  - apply (Permutation_in _
             (Permutation_sym (fused_ids_permutation c1 c2 c3 user_profile
                                 context))).
    unfold first_seen. apply first_seen_step_In. right. exact H.
Qed.

Section Before.

Context {T : Type}.





End Before.

Section BeforeMap.

Context {T U : Type} (f : T -> U).

Lemma before_map (x y : T) (l : list T) :
  before l x y -> before (map f l) (f x) (f y).
Proof.
  intros [l1 [l2 [l3 ->]]]. exists (map f l1), (map f l2), (map f l3).
  rewrite map_app. simpl. rewrite map_app. reflexivity.
Qed.



End BeforeMap.

Section Stability.

Context {T : Type} (key : T -> float).




End Stability.



(* ================================================================== *)
(** ** Weights, for every profile and context *)
(* ================================================================== *)

(** X3.  Whatever the profile and the context, the weights are one of
    four triples, chosen by "region is TSH or SAM" and "context is
    holiday_shopping"; each weight is strictly between 0 and 1, so no
    signal is ever switched off or inverted by the adjustments. *)
Theorem weights_are_one_of_four
    (user_profile : UserProfile) (context : string) :
  adjust_weights user_profile context
  = (if Py.mem (region user_profile) ["TSH"; "SAM"] then
       if String.eqb context "holiday_shopping"
       then {| Weights.collaborative := 0.30000000000000004;
               Weights.content := 0.30000000000000004;
               Weights.cultural := 0.4 |}
       else {| Weights.collaborative := 0.4;
               Weights.content := 0.4;
               Weights.cultural := 0.19999999999999998 |}
     else
       if String.eqb context "holiday_shopping"
       then {| Weights.collaborative := 0.30000000000000004;
               Weights.content := 0.09999999999999998;
               Weights.cultural := 0.6000000000000001 |}
       else {| Weights.collaborative := 0.4;
               Weights.content := 0.19999999999999998;
               Weights.cultural := 0.4 |})
  /\
  (let weights := adjust_weights user_profile context in
   forall weight,
     In weight [Weights.collaborative weights; Weights.content weights;
                Weights.cultural weights] ->
     PrimFloat.ltb 0 weight = true /\ PrimFloat.ltb weight 1 = true).
Proof.
  unfold adjust_weights.
  destruct (Py.mem (region user_profile) ["TSH"; "SAM"]),
           (String.eqb context "holiday_shopping");
    (split; [vm_compute; reflexivity |]);
    cbv zeta; intros weight [<- | [<- | [<- | []]]];
    vm_compute; split; reflexivity.
Qed.

(* ================================================================== *)
(** ** The request as a whole *)
(* ================================================================== *)

(** X4.  With no artifact loaded the engine answers every request with
    the empty list: each signal is skipped, and no store is read. *)
Theorem no_models_no_recommendations
    (w : World) (user_profile : UserProfile) (context : string) (limit : Z)
    (exclude_products : option (list string)) :
  get_recommendations w no_models user_profile context limit exclude_products
  = Py.Ok [].
Proof.
  unfold get_recommendations, get_collaborative_recommendations,
    get_content_recommendations, get_cultural_recommendations.
  simpl. unfold Py.slice_to. rewrite firstn_nil. reflexivity.
Qed.

(** X5.  The engine only returns products that some signal proposed for
    this request: every returned id is in the collaborative, the content
    or the cultural candidate list. *)
Theorem returned_products_were_proposed
    (w : World) (models : Models.t) (user_profile : UserProfile)
    (context : string) (limit : Z) (exclude_products : option (list string))
    (out : list Rec.t) (r : Rec.t) :
  get_recommendations w models user_profile context limit exclude_products
  = Py.Ok out ->
  In r out ->
  exists c1 c2,
    get_collaborative_recommendations w models user_profile (limit * 2)
    = Py.Ok c1 /\
    get_content_recommendations w models user_profile (limit * 2)
    = Py.Ok c2 /\
    In (Rec.product_id r)
       (proposed c1 c2
          (get_cultural_recommendations w models user_profile context
             (limit * 2))).
Proof.
  intros H Hin.
  apply get_recommendations_Ok in H as [c1 [c2 [H1 [H2 ->]]]].
  exists c1, c2. split; [exact H1 |]. split; [exact H2 |].
  apply slice_to_In, filter_In in Hin as [Hin _].
  apply apply_uzbekistan_filters_In in Hin as [r0 [H0 Hstep]].
  destruct (filter_step_Some _ _ _ _ Hstep) as [p [_ [_ [Hid _]]]].
  rewrite Hid.
  pose proof (fused_ids_permutation c1 c2
                (get_cultural_recommendations w models user_profile context
                   (limit * 2)) user_profile context) as Hperm.
  apply (in_map Rec.product_id) in H0.
  apply (Permutation_in _ Hperm) in H0.
  unfold first_seen in H0. apply first_seen_step_In in H0 as [[] | H0].
  exact H0.
Qed.

Lemma returned_products_were_proposed_witness :
  get_recommendations Demo.world Demo.models Demo.known_user "general" 2 None
  = Py.Ok [Demo.rec_A; Demo.rec_B] /\
  In Demo.rec_A [Demo.rec_A; Demo.rec_B] /\
  exists c1 c2,
    get_collaborative_recommendations Demo.world Demo.models Demo.known_user
      (2 * 2) = Py.Ok c1 /\
    get_content_recommendations Demo.world Demo.models Demo.known_user (2 * 2)
    = Py.Ok c2 /\
    In (Rec.product_id Demo.rec_A)
       (proposed c1 c2
          (get_cultural_recommendations Demo.world Demo.models
             Demo.known_user "general" (2 * 2))).
Proof.
  assert (Hin : In Demo.rec_A [Demo.rec_A; Demo.rec_B])
    by (left; reflexivity).
  split; [exact demo_request |]. split; [exact Hin |].
  exact (returned_products_were_proposed
           Demo.world Demo.models Demo.known_user "general" 2 None
           [Demo.rec_A; Demo.rec_B] Demo.rec_A demo_request Hin).
Defined.

Lemma demo_request_excluding_A :
  get_recommendations Demo.world Demo.models Demo.known_user "general" 2
    (Some ["A"])
  = Py.Ok [Demo.rec_B].
Proof. vm_compute. reflexivity. Qed.

(** X6.  A product on the exclusion list is never returned; and passing no
    list at all is the same as passing the empty one. *)
Theorem excluded_products_never_returned
    (w : World) (models : Models.t) (user_profile : UserProfile)
    (context : string) (limit : Z) :
  (forall (exclude_products : list string) (out : list Rec.t) (r : Rec.t),
      get_recommendations w models user_profile context limit
        (Some exclude_products) = Py.Ok out ->
      In r out ->
      ~ In (Rec.product_id r) exclude_products)
  /\
  get_recommendations w models user_profile context limit None
  = get_recommendations w models user_profile context limit (Some []).
Proof.
  split; [| reflexivity].
  intros exclude_products out r H Hin Hex.
  apply get_recommendations_Ok in H as [c1 [c2 [_ [_ ->]]]].
  apply slice_to_In, filter_In in Hin as [_ Hkeep].
  apply negb_true_iff in Hkeep.
  assert (Hmem : Py.mem (Rec.product_id r) (Py.or_list (Some exclude_products) [])
                 = true).
  { apply mem_In. destruct exclude_products; [destruct Hex | exact Hex]. }
  congruence.
Qed.

Lemma excluded_products_never_returned_witness :
  get_recommendations Demo.world Demo.models Demo.known_user "general" 2
    (Some ["A"]) = Py.Ok [Demo.rec_B] /\
  In Demo.rec_B [Demo.rec_B] /\
  ~ In (Rec.product_id Demo.rec_B) ["A"].
Proof.
  assert (Hin : In Demo.rec_B [Demo.rec_B]) by (left; reflexivity).
  split; [exact demo_request_excluding_A |]. split; [exact Hin |].
  exact (proj1 (excluded_products_never_returned
                  Demo.world Demo.models Demo.known_user "general" 2%Z)
           ["A"] [Demo.rec_B] Demo.rec_B demo_request_excluding_A Hin).
Defined.

(** What a kept candidate takes from its catalogue row, and what it keeps
    from fusion. *)
Lemma filter_step_details
      (w : World) (user_profile : UserProfile) (r r' : Rec.t) :
  filter_step w user_profile r = Some r' ->
  exists product,
    fetch_product w (Rec.product_id r') = Some product /\
    Rec.details r' = Some (details_of product) /\
    Rec.scores r' = Rec.scores r /\
    Rec.reasons r' = Rec.reasons r /\
    Rec.cultural_factor r' = Rec.cultural_factor r.
Proof.
  unfold filter_step.
  destruct (fetch_product w (Rec.product_id r)) as [product|] eqn:Ef;
    [| discriminate].
  destruct (PrimFloat.ltb (get_max_price_for_user user_profile)
                          (Product.price product)); [discriminate |].
  intros H. injection H as <-. exists product. simpl.
  destruct (should_prefer_local_vendor user_profile
              (Product.vendor_region product));
    destruct (String.eqb (language user_profile) "uz"
              && Py.truthy (Product.name_ru product)
              && negb (Py.truthy (Product.name product)));
    simpl; auto.
Qed.

(** X7.  Every returned candidate carries the display fields of its own
    catalogue row (names, price, vendor region and rating, category), and
    its per-signal scores, reasons and cultural explanation are those of
    a fused candidate: the post-filter changes nothing else. *)
Theorem returned_candidates_are_enriched
    (w : World) (models : Models.t) (user_profile : UserProfile)
    (context : string) (limit : Z) (exclude_products : option (list string))
    (out : list Rec.t) (r : Rec.t) :
  get_recommendations w models user_profile context limit exclude_products
  = Py.Ok out ->
  In r out ->
  exists product c1 c2 fused,
    fetch_product w (Rec.product_id r) = Some product /\
    Rec.details r = Some (details_of product) /\
    In fused
       (combine_recommendations c1 c2
          (get_cultural_recommendations w models user_profile context
             (limit * 2))
          user_profile context) /\
    Rec.product_id r = Rec.product_id fused /\
    Rec.scores r = Rec.scores fused /\
    Rec.reasons r = Rec.reasons fused /\
    Rec.cultural_factor r = Rec.cultural_factor fused.
Proof.
  intros H Hin.
  destruct (get_recommendations_In _ _ _ _ _ _ _ _ H Hin)
    as [c1 [c2 [r0 [H0 Hstep]]]].
  destruct (filter_step_details _ _ _ _ Hstep)
    as [product [Hf [Hd [Hs [Hr Hc]]]]].
  destruct (filter_step_Some _ _ _ _ Hstep) as [_ [_ [_ [Hid _]]]].
  exists product, c1, c2, r0. auto 10.
Qed.

Lemma returned_candidates_are_enriched_witness :
  get_recommendations Demo.world Demo.models Demo.known_user "general" 2 None
  = Py.Ok [Demo.rec_A; Demo.rec_B] /\
  In Demo.rec_B [Demo.rec_A; Demo.rec_B] /\
  exists product c1 c2 fused,
    fetch_product Demo.world (Rec.product_id Demo.rec_B) = Some product /\
    Rec.details Demo.rec_B = Some (details_of product) /\
    In fused
       (combine_recommendations c1 c2
          (get_cultural_recommendations Demo.world Demo.models
             Demo.known_user "general" (2 * 2))
          Demo.known_user "general") /\
    Rec.product_id Demo.rec_B = Rec.product_id fused /\
    Rec.scores Demo.rec_B = Rec.scores fused /\
    Rec.reasons Demo.rec_B = Rec.reasons fused /\
    Rec.cultural_factor Demo.rec_B = Rec.cultural_factor fused.
Proof.
  assert (Hin : In Demo.rec_B [Demo.rec_A; Demo.rec_B])
    by (right; left; reflexivity).
  split; [exact demo_request |]. split; [exact Hin |].
  exact (returned_candidates_are_enriched
           Demo.world Demo.models Demo.known_user "general" 2 None
           [Demo.rec_A; Demo.rec_B] Demo.rec_B demo_request Hin).
Defined.

(* ================================================================== *)
(** ** Budget cap: every tier, every region *)
(* ================================================================== *)

Lemma get_default_values {V : Type} (d : Py.dict V) (k : string) (default : V) :
  In (Py.get_default d k default) (default :: Py.values d).
Proof.
  unfold Py.get_default.
  induction d as [|[k' v] d IH]; simpl; [left; reflexivity |].
  destruct (String.eqb k' k); [right; left; reflexivity |].
  destruct IH as [IH | IH]; [left; exact IH | right; right; exact IH].
Qed.

Lemma get_absent {V : Type} (d : Py.dict V) (k : string) :
  ~ In k (Py.keys d) -> Py.get d k = None.
Proof.
  intros H. destruct (Py.get d k) eqn:E; [| reflexivity].
  exfalso. apply H, contains_keys. unfold Py.contains. rewrite E. reflexivity.
Qed.

(** Case analysis on membership in a list that is written out. *)
Ltac cases_of_In H :=
  simpl in H;
  repeat (destruct H as [H | H]; [subst |]);
  try (destruct H).

(** The cap is a base price times a regional multiplier, both from the
    tables (or their defaults). *)
Lemma cap_is_base_times_multiplier (user_profile : UserProfile) :
  exists base multiplier,
    In base (2000000 :: Py.values base_prices) /\
    In multiplier (0.9 :: Py.values regional_multipliers) /\
    get_max_price_for_user user_profile = base * multiplier.
Proof.
  unfold get_max_price_for_user.
  eexists. eexists. split; [| split; [| reflexivity]].
  - replace (Py.get_default base_prices "medium" 2000000) with 2000000
      by reflexivity.
    apply get_default_values.
  - apply get_default_values.
Qed.

(** X8.  For every profile the cap lies between 350,000 (low income in
    QOR) and 12,000,000 (high income in TSH); in particular it is never
    zero, negative or NaN, whatever strings the profile holds. *)
Theorem cap_is_bounded (user_profile : UserProfile) :
  PrimFloat.leb 350000 (get_max_price_for_user user_profile) = true /\
  PrimFloat.leb (get_max_price_for_user user_profile) 12000000 = true.
Proof.
  destruct (cap_is_base_times_multiplier user_profile)
    as [base [multiplier [Hb [Hm ->]]]].
  cases_of_In Hb; cases_of_In Hm; vm_compute; split; reflexivity.
Qed.

Lemma cap_of_tier (user_profile : UserProfile) (tier : string) (base : float) :
  income_level user_profile = Some tier ->
  Py.truthy (Some tier) = true ->
  Py.get_default base_prices tier 2000000 = base ->
  get_max_price_for_user user_profile
  = base * Py.get_default regional_multipliers (region user_profile) 0.9.
Proof.
  intros Hincome Htruthy Hbase. unfold get_max_price_for_user.
  rewrite Hincome, Htruthy.
  replace (Py.get_default base_prices "medium" 2000000) with 2000000
    by reflexivity.
  rewrite Hbase. reflexivity.
Qed.

(** X9.  In one and the same region a higher income tier always gives a
    strictly higher cap: low below medium below high. *)
Theorem cap_grows_with_tier (low medium high : UserProfile) :
  income_level low = Some "low" ->
  income_level medium = Some "medium" ->
  income_level high = Some "high" ->
  region low = region medium ->
  region medium = region high ->
  PrimFloat.ltb (get_max_price_for_user low) (get_max_price_for_user medium)
  = true /\
  PrimFloat.ltb (get_max_price_for_user medium) (get_max_price_for_user high)
  = true.
Proof.
  intros Hl Hm Hh E1 E2.
  rewrite (cap_of_tier low "low" 500000 Hl eq_refl eq_refl).
  rewrite (cap_of_tier medium "medium" 2000000 Hm eq_refl eq_refl).
  rewrite (cap_of_tier high "high" 10000000 Hh eq_refl eq_refl).
  rewrite E1, <- E2.
  pose proof (get_default_values regional_multipliers (region medium) 0.9)
    as Hin.
  remember (Py.get_default regional_multipliers (region medium) 0.9)
    as multiplier eqn:Em.
  clear Em. cases_of_In Hin; vm_compute; split; reflexivity.
Qed.

Lemma cap_grows_with_tier_witness :
  income_level (Demo.profile "u4" "NAV" (Some "low")) = Some "low" /\
  income_level (Demo.profile "u5" "NAV" (Some "medium")) = Some "medium" /\
  income_level (Demo.profile "u6" "NAV" (Some "high")) = Some "high" /\
  region (Demo.profile "u4" "NAV" (Some "low"))
  = region (Demo.profile "u5" "NAV" (Some "medium")) /\
  region (Demo.profile "u5" "NAV" (Some "medium"))
  = region (Demo.profile "u6" "NAV" (Some "high")) /\
  PrimFloat.ltb
    (get_max_price_for_user (Demo.profile "u4" "NAV" (Some "low")))
    (get_max_price_for_user (Demo.profile "u5" "NAV" (Some "medium")))
  = true /\
  PrimFloat.ltb
    (get_max_price_for_user (Demo.profile "u5" "NAV" (Some "medium")))
    (get_max_price_for_user (Demo.profile "u6" "NAV" (Some "high")))
  = true.
Proof.
  do 5 (split; [reflexivity |]).
  exact (cap_grows_with_tier
           (Demo.profile "u4" "NAV" (Some "low"))
           (Demo.profile "u5" "NAV" (Some "medium"))
           (Demo.profile "u6" "NAV" (Some "high"))
           eq_refl eq_refl eq_refl eq_refl eq_refl).
Defined.

(** X10.  A region that is not one of the thirteen in the table gets the
    multiplier 0.9: the cap is 450,000 for low, 1,800,000 for medium or
    no tier, and 9,000,000 for high income; no region string is
    rejected. *)
Theorem unknown_region_uses_default_multiplier (user_profile : UserProfile) :
  ~ In (region user_profile) (Py.keys regional_multipliers) ->
  (income_level user_profile = Some "low" ->
   get_max_price_for_user user_profile = 450000) /\
  (income_level user_profile = None \/
   income_level user_profile = Some "medium" ->
   get_max_price_for_user user_profile = 1800000) /\
  (income_level user_profile = Some "high" ->
   get_max_price_for_user user_profile = 9000000).
Proof.
  intros Hregion.
  assert (Hm : Py.get_default regional_multipliers (region user_profile) 0.9
               = 0.9).
  { unfold Py.get_default. rewrite (get_absent _ _ Hregion). reflexivity. }
  split; [| split].
  - intros H. rewrite (cap_of_tier _ "low" 500000 H eq_refl eq_refl), Hm.
    vm_compute. reflexivity.
  - intros [H | H].
    + unfold get_max_price_for_user. rewrite H, Hm. vm_compute. reflexivity.
    + rewrite (cap_of_tier _ "medium" 2000000 H eq_refl eq_refl), Hm.
      vm_compute. reflexivity.
  - intros H. rewrite (cap_of_tier _ "high" 10000000 H eq_refl eq_refl), Hm.
    vm_compute. reflexivity.
Qed.

Lemma unknown_region_uses_default_multiplier_witness :
  ~ In (region (Demo.profile "u8" "Berlin" (Some "high")))
       (Py.keys regional_multipliers) /\
  income_level (Demo.profile "u8" "Berlin" (Some "high")) = Some "high" /\
  get_max_price_for_user (Demo.profile "u8" "Berlin" (Some "high")) = 9000000.
Proof.
  assert (Hregion : ~ In (region (Demo.profile "u8" "Berlin" (Some "high")))
                         (Py.keys regional_multipliers)).
  { intros H. apply mem_In in H. vm_compute in H. discriminate. }
  split; [exact Hregion |]. split; [reflexivity |].
  exact (proj2 (proj2 (unknown_region_uses_default_multiplier
                         (Demo.profile "u8" "Berlin" (Some "high")) Hregion))
           eq_refl).
Defined.

(* ================================================================== *)
(** ** Local vendors *)
(* ================================================================== *)

Lemma get_default_cases {V : Type} (d : Py.dict V) (k : string) (default : V) :
  Py.get_default d k default = default \/
  In (k, Py.get_default d k default) d.
Proof.
  unfold Py.get_default.
  induction d as [|[k' v] d IH]; simpl; [left; reflexivity |].
  destruct (String.eqb_spec k' k) as [-> | _];
    [right; left; reflexivity |].
  destruct IH as [IH | IH]; [left; exact IH | right; right; exact IH].
Qed.

(** X11.  A vendor counts as local only if it is in the user's own region
    or both regions are among the thirteen of the tables; the own region
    always counts, also when the code does not know it. *)
Theorem local_vendor_is_same_or_listed
    (user_profile : UserProfile) (vendor_region : string) :
  should_prefer_local_vendor user_profile (region user_profile) = true /\
  (should_prefer_local_vendor user_profile vendor_region = true ->
   vendor_region = region user_profile \/
   (In (region user_profile) valid_regions /\ In vendor_region valid_regions)).
Proof.
  unfold should_prefer_local_vendor. split.
  - rewrite String.eqb_refl. reflexivity.
  - destruct (String.eqb_spec (region user_profile) vendor_region)
      as [E | _]; [left; symmetry; exact E |].
    intros H. right.
    match type of H with
    | Py.mem _ (Py.get_default ?d ?k ?def) = true =>
        destruct (get_default_cases d k def) as [E | Hin];
          [rewrite E in H; discriminate |];
          remember (Py.get_default d k def) as neighbours eqn:En; clear En
    end.
    apply mem_In in H.
    simpl in Hin.
    repeat (destruct Hin as [Hin | Hin];
            [injection Hin as Hk Hv; rewrite <- Hk; subst neighbours;
             simpl in H;
             repeat (destruct H as [H | H];
                     [subst vendor_region; split; apply mem_In; reflexivity |]);
             destruct H
            |]).
    destruct Hin.
Qed.

Lemma local_vendor_is_same_or_listed_witness :
  should_prefer_local_vendor Demo.known_user (region Demo.known_user) = true /\
  should_prefer_local_vendor Demo.known_user "SIR" = true /\
  ("SIR" = region Demo.known_user \/
   (In (region Demo.known_user) valid_regions /\ In "SIR" valid_regions)).
Proof.
  split; [reflexivity |]. split; [reflexivity |].
  exact (proj2 (local_vendor_is_same_or_listed Demo.known_user "SIR") eq_refl).
Defined.

(** X12.  Between the thirteen regions the neighbour table is symmetric
    except around NAV: a user in NAV prefers vendors in BUX, and a user
    in JIZ vendors in NAV, but not the other way round. *)
Theorem neighbours_are_mutual_except_around_NAV (a b : UserProfile) :
  In (region a) valid_regions ->
  In (region b) valid_regions ->
  (should_prefer_local_vendor a (region b)
   = should_prefer_local_vendor b (region a)
   \/ (region a = "NAV" /\ (region b = "BUX" \/ region b = "JIZ"))
   \/ (region b = "NAV" /\ (region a = "BUX" \/ region a = "JIZ")))
  /\
  (region a = "NAV" -> region b = "BUX" ->
   should_prefer_local_vendor a (region b) = true /\
   should_prefer_local_vendor b (region a) = false)
  /\
  (region a = "JIZ" -> region b = "NAV" ->
   should_prefer_local_vendor a (region b) = true /\
   should_prefer_local_vendor b (region a) = false).
Proof.
  unfold should_prefer_local_vendor.
  remember (region a) as ra eqn:Ea. remember (region b) as rb eqn:Eb.
  clear Ea Eb. intros Ha Hb. split; [| split].
  - cases_of_In Ha; cases_of_In Hb;
      first [ left; vm_compute; reflexivity
            | right; left; split; [reflexivity |];
              first [left; reflexivity | right; reflexivity]
            | right; right; split; [reflexivity |];
              first [left; reflexivity | right; reflexivity] ].
  - intros -> ->. vm_compute. split; reflexivity.
  - intros -> ->. vm_compute. split; reflexivity.
Qed.

Lemma neighbours_are_mutual_except_around_NAV_witness :
  In (region (Demo.profile "u4" "JIZ" None)) valid_regions /\
  In (region (Demo.profile "u5" "NAV" None)) valid_regions /\
  region (Demo.profile "u4" "JIZ" None) = "JIZ" /\
  region (Demo.profile "u5" "NAV" None) = "NAV" /\
  should_prefer_local_vendor (Demo.profile "u4" "JIZ" None)
    (region (Demo.profile "u5" "NAV" None)) = true /\
  should_prefer_local_vendor (Demo.profile "u5" "NAV" None)
    (region (Demo.profile "u4" "JIZ" None)) = false.
Proof.
  assert (Ha : In (region (Demo.profile "u4" "JIZ" None)) valid_regions)
    by (apply mem_In; reflexivity).
  assert (Hb : In (region (Demo.profile "u5" "NAV" None)) valid_regions)
    by (apply mem_In; reflexivity).
  split; [exact Ha |]. split; [exact Hb |].
  split; [reflexivity |]. split; [reflexivity |].
  exact (proj2 (proj2 (neighbours_are_mutual_except_around_NAV
                         (Demo.profile "u4" "JIZ" None)
                         (Demo.profile "u5" "NAV" None) Ha Hb))
           eq_refl eq_refl).
Defined.

(* ================================================================== *)
(** ** Cultural signal *)
(* ================================================================== *)

(** X13.  The calendar checks have a fixed priority.  During Ramadan the
    cultural candidates do not depend on the month or on the Navruz and
    New Year checks, and each carries the Ramadan greeting; during Navruz
    (outside Ramadan) they do not depend on the month or on the New Year
    check. *)
Theorem observance_first_then_festival
    (w : World) (models : Models.t) (user_profile : UserProfile)
    (context : string) (limit : Z)
    (m m' : Z) (navruz navruz' new_year new_year' : bool) :
  get_cultural_recommendations (at_date w m true navruz new_year)
    models user_profile context limit
  = get_cultural_recommendations (at_date w m' true navruz' new_year')
      models user_profile context limit
  /\
  get_cultural_recommendations (at_date w m false true new_year)
    models user_profile context limit
  = get_cultural_recommendations (at_date w m' false true new_year')
      models user_profile context limit
  /\
  (forall rec,
      In rec (get_cultural_recommendations (at_date w m true navruz new_year)
                models user_profile context limit) ->
      Signal.cultural_factor rec
      = Some "Ramazon muborak! Ro'za tutish uchun tavsiya etilgan mahsulotlar").
Proof.
  unfold get_cultural_recommendations.
  destruct (Models.cultural models) as [model|];
    [| split; [reflexivity | split; [reflexivity | intros rec []]]].
  split; [reflexivity | split; [reflexivity |]].
  intros rec Hrec. simpl in Hrec.
  apply in_map_iff in Hrec as [row [<- _]]. reflexivity.
Qed.

Lemma observance_first_then_festival_witness :
  In Shop.ramadan_A
     (get_cultural_recommendations (at_date Demo.world 7 true false false)
        Demo.models Demo.known_user "general" 4) /\
  Signal.cultural_factor Shop.ramadan_A
  = Some "Ramazon muborak! Ro'za tutish uchun tavsiya etilgan mahsulotlar".
Proof.
  assert (Hin : In Shop.ramadan_A
                   (get_cultural_recommendations
                      (at_date Demo.world 7 true false false)
                      Demo.models Demo.known_user "general" 4))
    by (vm_compute; left; reflexivity).
  split; [exact Hin |].
  exact (proj2 (proj2 (observance_first_then_festival
                         Demo.world Demo.models Demo.known_user "general" 4%Z
                         7%Z 7%Z false false false false))
           Shop.ramadan_A Hin).
Defined.

Lemma current_season_cases (w : World) :
  In (get_current_season w) ["spring"; "summer"; "autumn"; "winter"].
Proof.
  unfold get_current_season.
  destruct (existsb (Z.eqb (month w)) [3; 4; 5]%Z); [simpl; auto |].
  destruct (existsb (Z.eqb (month w)) [6; 7; 8]%Z); [simpl; auto |].
  destruct (existsb (Z.eqb (month w)) [9; 10; 11]%Z); simpl; auto.
Qed.

(** X14.  Every cultural candidate is tagged [cultural_relevance] and
    carries one of the seven explanations of the branch that fired (three
    events, four seasons); the generic fallback sentence of
    [get_cultural_explanation] is never attached, because
    [get_current_season] only yields seasons the table knows. *)
Theorem cultural_candidates_are_explained
    (w : World) (models : Models.t) (user_profile : UserProfile)
    (context : string) (limit : Z) (rec : Signal.t) :
  In rec (get_cultural_recommendations w models user_profile context limit) ->
  Signal.reason rec = Some "cultural_relevance" /\
  exists explanation,
    Signal.cultural_factor rec = Some explanation /\
    explanation <> "Sizga tavsiya etilgan mahsulotlar" /\
    In explanation
       [ "Ramazon muborak! Ro'za tutish uchun tavsiya etilgan mahsulotlar";
         "Navruz bayrami muborak! An'anaviy bayram mahsulotlari";
         "Yangi yil bayrami! Bayram sovg'alari va bezaklari";
         "Bahor mavsumi uchun tavsiya etilgan mahsulotlar";
         "Yoz mavsumi uchun tavsiya etilgan mahsulotlar";
         "Kuz mavsumi uchun tavsiya etilgan mahsulotlar";
         "Qish mavsumi uchun tavsiya etilgan mahsulotlar" ].
Proof.
  unfold get_cultural_recommendations.
  destruct (Models.cultural models) as [model|]; [| intros []].
  pose proof (current_season_cases w) as Hseason.
  remember (get_current_season w) as season eqn:Es. clear Es.
  destruct (is_ramadan_period w), (is_navruz_period w),
           (is_new_year_period w);
    intros Hrec; apply in_map_iff in Hrec as [row [<- _]];
    (split; [reflexivity |]); eexists; (split; [reflexivity |]);
    try (split; [discriminate | simpl; auto 10]).
  cases_of_In Hseason; (split; [discriminate | simpl; auto 10]).
Qed.

Lemma cultural_candidates_are_explained_witness :
  In Shop.cultural_A
     (get_cultural_recommendations Demo.world Demo.models Demo.known_user
        "general" 4) /\
  Signal.reason Shop.cultural_A = Some "cultural_relevance" /\
  exists explanation,
    Signal.cultural_factor Shop.cultural_A = Some explanation /\
    explanation <> "Sizga tavsiya etilgan mahsulotlar" /\
    In explanation
       [ "Ramazon muborak! Ro'za tutish uchun tavsiya etilgan mahsulotlar";
         "Navruz bayrami muborak! An'anaviy bayram mahsulotlari";
         "Yangi yil bayrami! Bayram sovg'alari va bezaklari";
         "Bahor mavsumi uchun tavsiya etilgan mahsulotlar";
         "Yoz mavsumi uchun tavsiya etilgan mahsulotlar";
         "Kuz mavsumi uchun tavsiya etilgan mahsulotlar";
         "Qish mavsumi uchun tavsiya etilgan mahsulotlar" ].
Proof.
  assert (Hin : In Shop.cultural_A
                   (get_cultural_recommendations Demo.world Demo.models
                      Demo.known_user "general" 4))
    by (vm_compute; left; reflexivity).
  split; [exact Hin |].
  exact (cultural_candidates_are_explained
           Demo.world Demo.models Demo.known_user "general" 4
           Shop.cultural_A Hin).
Defined.

(* ================================================================== *)
(** ** The trained cultural model *)
(* ================================================================== *)

Section DictRoundTrip.

Context {V : Type}.

Lemma get_set_same (d : Py.dict V) (k : string) (v : V) :
  Py.get (Py.set d k v) k = Some v.
Proof.
  induction d as [|[k' v'] d IH]; simpl.
  - rewrite String.eqb_refl. reflexivity.
  - destruct (String.eqb k' k) eqn:E; simpl; rewrite E; [reflexivity | exact IH].
Qed.

Lemma get_set_other (d : Py.dict V) (k k' : string) (v : V) :
  k <> k' -> Py.get (Py.set d k v) k' = Py.get d k'.
Proof.
  intros Hne. induction d as [|[k0 v0] d IH]; simpl.
  - rewrite (proj2 (String.eqb_neq k k') Hne). reflexivity.
  - destruct (String.eqb_spec k0 k) as [-> | Hk]; simpl.
    + rewrite (proj2 (String.eqb_neq k k') Hne). reflexivity.
    + destruct (String.eqb k0 k'); [reflexivity | exact IH].
Qed.

End DictRoundTrip.

Lemma append_cancel (prefix a b : string) :
  (prefix ++ a = prefix ++ b)%string -> a = b.
Proof.
  induction prefix as [|c prefix IH]; simpl; intros H; [exact H |].
  injection H as H. apply IH. exact H.
Qed.

Section PrefixedKeys.

Context {S V : Type} (prefix : string) (value : S -> V).

(** The loop [for key, x in items: vectors[prefix + key] = value(x)]. *)
Let store (vectors : Py.dict V) (item : string * S) : Py.dict V :=
  Py.set vectors (prefix ++ fst item) (value (snd item)).

Lemma get_after_loop_other (items : Py.dict S) (d : Py.dict V) (k : string) :
  (forall key, (prefix ++ key)%string <> k) ->
  Py.get (fold_left store items d) k = Py.get d k.
Proof.
  intros Hk. revert d. induction items as [|item items IH]; intros d; simpl;
    [reflexivity |].
  rewrite IH. unfold store. apply get_set_other. apply Hk.
Qed.

Lemma get_after_loop (items : Py.dict S) (d : Py.dict V) (key : string) :
  NoDup (Py.keys items) ->
  Py.get (fold_left store items d) (prefix ++ key)
  = match Py.get items key with
    | Some x => Some (value x)
    | None => Py.get d (prefix ++ key)
    end.
Proof.
  revert d. induction items as [|[k x] items IH]; intros d Hnd; simpl;
    [reflexivity |].
  simpl in Hnd. apply NoDup_cons_iff in Hnd as [Hk Hnd].
  rewrite (IH _ Hnd). unfold store. simpl.
  destruct (String.eqb_spec k key) as [-> | Hne].
  - rewrite (get_absent _ _ Hk). apply get_set_same.
  - destruct (Py.get items key); [reflexivity |].
    apply get_set_other. intros E. apply Hne.
    apply (append_cancel prefix). exact E.
Qed.

End PrefixedKeys.

(** The lookups of a trained model. *)
Lemma trained_vectors
    (regional_prefs : Py.dict (list string)) :
  NoDup (Py.keys regional_prefs) ->
  let data := fetch_cultural_preferences regional_prefs in
  let vectors := Cultural.cultural_vectors (train_cultural_model data) in
  (forall region_code,
      Py.get vectors ("region_" ++ region_code)
      = Py.get regional_prefs region_code)
  /\
  (forall w,
      Py.get vectors ("season_" ++ get_current_season w)
      = Py.get (CulturalData.seasonal data) (get_current_season w) /\
      Py.get vectors ("season_" ++ get_current_season w) <> None)
  /\
  (forall event,
      Py.get vectors ("event_" ++ event)
      = option_map Event.categories
          (Py.get (CulturalData.cultural_events data) event)).
Proof.
  intros Hnd data vectors. subst vectors data.
  unfold train_cultural_model. cbn [Cultural.cultural_vectors].
  split; [| split].
  - intros region_code.
    rewrite (get_after_loop "region_" (fun x => x) _ _ region_code Hnd).
    destruct (Py.get regional_prefs region_code); reflexivity.
  - intros w.
    rewrite (get_after_loop_other "region_" (fun x => x))
      by (intros key; simpl; discriminate).
    pose proof (current_season_cases w) as Hs.
    remember (get_current_season w) as season eqn:Es. clear Es.
    cases_of_In Hs; vm_compute; split; (reflexivity || discriminate).
  - intros event.
    rewrite (get_after_loop_other "region_" (fun x => x))
      by (intros key; simpl; discriminate).
    rewrite (get_after_loop "event_" Event.categories _ _ event)
      by (vm_compute; repeat constructor; simpl; intuition discriminate).
    cbn [fetch_cultural_preferences CulturalData.cultural_events].
    destruct (Py.get _ event); reflexivity.
Qed.

(** X15.  Training keeps what it is given: in the model built from
    [fetch_cultural_preferences], the vector of each region is the
    category list of that region in the regional preferences (and absent
    when the region is), and the season [get_current_season] reports
    always has its vector; the three key families never overwrite each
    other. *)
Theorem trained_model_keeps_its_vectors
    (regional_prefs : Py.dict (list string)) :
  NoDup (Py.keys regional_prefs) ->
  let data := fetch_cultural_preferences regional_prefs in
  let vectors := Cultural.cultural_vectors (train_cultural_model data) in
  (forall region_code,
      Py.get vectors ("region_" ++ region_code)
      = Py.get regional_prefs region_code)
  /\
  (forall w,
      Py.get vectors ("season_" ++ get_current_season w)
      = Py.get (CulturalData.seasonal data) (get_current_season w) /\
      Py.get vectors ("season_" ++ get_current_season w) <> None)
  /\
  (forall event,
      Py.get vectors ("event_" ++ event)
      = option_map Event.categories
          (Py.get (CulturalData.cultural_events data) event)).
Proof. exact (trained_vectors regional_prefs). Qed.


Lemma trained_model_keeps_its_vectors_witness :
  NoDup (Py.keys Shop.regional_prefs) /\
  let data := fetch_cultural_preferences Shop.regional_prefs in
  let vectors := Cultural.cultural_vectors (train_cultural_model data) in
  (forall region_code,
      Py.get vectors ("region_" ++ region_code)
      = Py.get Shop.regional_prefs region_code)
  /\
  (forall w,
      Py.get vectors ("season_" ++ get_current_season w)
      = Py.get (CulturalData.seasonal data) (get_current_season w) /\
      Py.get vectors ("season_" ++ get_current_season w) <> None)
  /\
  (forall event,
      Py.get vectors ("event_" ++ event)
      = option_map Event.categories
          (Py.get (CulturalData.cultural_events data) event)).
Proof.
  assert (Hnd : NoDup (Py.keys Shop.regional_prefs))
    by (repeat constructor; simpl; intuition discriminate).
  split; [exact Hnd |].
  exact (trained_model_keeps_its_vectors Shop.regional_prefs Hnd).
Defined.

(** X16.  With the model as training builds it and no event running, the
    store is asked for the categories of the current season followed by
    the categories of the user's region (none for a region without
    preferences), with multiplier 1.0, and the candidates are the rows of
    that query in the store's order. *)
Theorem trained_model_asks_for_season_then_region
    (w : World) (models : Models.t) (user_profile : UserProfile)
    (context : string) (limit : Z) (regional_prefs : Py.dict (list string)) :
  NoDup (Py.keys regional_prefs) ->
  Models.cultural models
  = Some (train_cultural_model (fetch_cultural_preferences regional_prefs)) ->
  is_ramadan_period w = false ->
  is_navruz_period w = false ->
  is_new_year_period w = false ->
  map Signal.product_id
      (get_cultural_recommendations w models user_profile context limit)
  = map CulturalRow.product_id
        (fetch_cultural_products w
           (Py.get_default
              (CulturalData.seasonal
                 (fetch_cultural_preferences regional_prefs))
              (get_current_season w) []
            ++ Py.get_default regional_prefs (region user_profile) [])
           1.0 limit).
Proof.
  intros Hnd Hmodel Hr Hn Hy.
  destruct (trained_vectors regional_prefs Hnd) as [Hregion [Hseason _]].
  unfold get_cultural_recommendations. rewrite Hmodel, Hr, Hn, Hy.
  cbv zeta. unfold Py.get_default.
  rewrite Hregion, (proj1 (Hseason w)).
  rewrite map_map. reflexivity.
Qed.

Lemma trained_model_asks_for_season_then_region_witness :
  NoDup (Py.keys Shop.regional_prefs) /\
  Models.cultural Shop.trained_models
  = Some (train_cultural_model
            (fetch_cultural_preferences Shop.regional_prefs)) /\
  is_ramadan_period Demo.world = false /\
  is_navruz_period Demo.world = false /\
  is_new_year_period Demo.world = false /\
  map Signal.product_id
      (get_cultural_recommendations Demo.world Shop.trained_models
         Demo.known_user "general" 4)
  = map CulturalRow.product_id
        (fetch_cultural_products Demo.world
           (Py.get_default
              (CulturalData.seasonal
                 (fetch_cultural_preferences Shop.regional_prefs))
              (get_current_season Demo.world) []
            ++ Py.get_default Shop.regional_prefs (region Demo.known_user) [])
           1.0 4).
Proof.
  assert (Hnd : NoDup (Py.keys Shop.regional_prefs))
    by (repeat constructor; simpl; intuition discriminate).
  split; [exact Hnd |]. do 4 (split; [reflexivity |]).
  exact (trained_model_asks_for_season_then_region
           Demo.world Shop.trained_models Demo.known_user "general" 4
           Shop.regional_prefs Hnd eq_refl eq_refl eq_refl eq_refl).
Defined.

(** X17.  The cultural signal reads two vectors of its model, the one of
    the current season and the one of the user's region, and the event
    multipliers: two models that agree on these give the same candidates.
    The [event_*] vectors that training stores are never consulted. *)
Theorem cultural_signal_reads_season_and_region_only
    (w : World) (models models' : Models.t) (model model' : Cultural.t)
    (user_profile : UserProfile) (context : string) (limit : Z) :
  Models.cultural models = Some model ->
  Models.cultural models' = Some model' ->
  Cultural.seasonal_multipliers model = Cultural.seasonal_multipliers model' ->
  Py.get (Cultural.cultural_vectors model)
         ("season_" ++ get_current_season w)
  = Py.get (Cultural.cultural_vectors model')
           ("season_" ++ get_current_season w) ->
  Py.get (Cultural.cultural_vectors model)
         ("region_" ++ region user_profile)
  = Py.get (Cultural.cultural_vectors model')
           ("region_" ++ region user_profile) ->
  get_cultural_recommendations w models user_profile context limit
  = get_cultural_recommendations w models' user_profile context limit.
Proof.
  intros H H' Hm Hs Hr. unfold get_cultural_recommendations.
  rewrite H, H'. unfold Py.get_default. rewrite Hm, Hs, Hr. reflexivity.
Qed.

Lemma cultural_signal_reads_season_and_region_only_witness :
  Models.cultural Demo.models = Some Demo.cultural_model /\
  (exists model',
      Models.cultural Shop.models_with_event_vector = Some model' /\
      Cultural.seasonal_multipliers Demo.cultural_model
      = Cultural.seasonal_multipliers model' /\
      Py.get (Cultural.cultural_vectors Demo.cultural_model)
             ("season_" ++ get_current_season Demo.world)
      = Py.get (Cultural.cultural_vectors model')
               ("season_" ++ get_current_season Demo.world) /\
      Py.get (Cultural.cultural_vectors Demo.cultural_model)
             ("region_" ++ region Demo.known_user)
      = Py.get (Cultural.cultural_vectors model')
               ("region_" ++ region Demo.known_user)) /\
  get_cultural_recommendations Demo.world Demo.models Demo.known_user
    "general" 4
  = get_cultural_recommendations Demo.world Shop.models_with_event_vector
      Demo.known_user "general" 4.
Proof.
  split; [reflexivity |]. split.
  - eexists. split; [reflexivity |]. repeat split; reflexivity.
  - exact (cultural_signal_reads_season_and_region_only
             Demo.world Demo.models Shop.models_with_event_vector
             Demo.cultural_model _ Demo.known_user "general" 4
             eq_refl eq_refl eq_refl eq_refl eq_refl).
Defined.

(* ================================================================== *)
(** ** Content signal: size, distinctness, text processing *)
(* ================================================================== *)

(** Each content candidate is the product at one index of the descending
    order, with that index's similarity and the content tag. *)
Lemma content_recommendations_rows
      (w : World) (models : Models.t) (user_profile : UserProfile)
      (limit : Z) (model : Content.t) (recs : list Signal.t) :
  Models.content models = Some model ->
  get_content_recommendations w models user_profile limit = Py.Ok recs ->
  Forall2
    (fun idx rec =>
       nth_error (Content.product_ids model) idx
       = Some (Signal.product_id rec) /\
       nth_error (content_similarities w model user_profile) idx
       = Some (Signal.score rec) /\
       Signal.reason rec = Some "content_similarity" /\
       Signal.cultural_factor rec = None)
    (Py.slice_to
       (rev (argsort w (content_similarities w model user_profile))) limit)
    recs.
Proof.
  intros Hmodel H. unfold get_content_recommendations in H.
  rewrite Hmodel in H. apply collect_Forall2 in H.
  eapply Forall2_impl; [| exact H].
  intros idx rec. simpl. unfold Py.getitem.
  destruct (nth_error (Content.product_ids model) idx); [| discriminate].
  simpl.
  destruct (nth_error (content_similarities w model user_profile) idx);
    [| discriminate].
  simpl. intros E. injection E as <-. auto.
Qed.

(** X18.  With the content model loaded and a limit that is not negative,
    the content signal returns exactly min(limit, number of products)
    candidates, each tagged [content_similarity] and without a cultural
    explanation. *)
Theorem content_signal_size
    (w : World) (models : Models.t) (user_profile : UserProfile) (limit : Z)
    (model : Content.t) (recs : list Signal.t) :
  Models.content models = Some model ->
  Np.is_argsort (content_similarities w model user_profile)
                (argsort w (content_similarities w model user_profile)) ->
  (0 <= limit)%Z ->
  get_content_recommendations w models user_profile limit = Py.Ok recs ->
  Z.of_nat (List.length recs)
  = Z.min limit (Z.of_nat (List.length (Content.feature_matrix model))) /\
  forall rec, In rec recs ->
    Signal.reason rec = Some "content_similarity" /\
    Signal.cultural_factor rec = None.
Proof.
  intros Hmodel [Hperm _] Hlimit H.
  pose proof (content_recommendations_rows _ _ _ _ _ _ Hmodel H) as Hrows.
  split.
  - rewrite <- (Forall2_length Hrows). unfold Py.slice_to.
    rewrite length_firstn, clamp_nonneg by exact Hlimit.
    rewrite length_rev, (Permutation_length Hperm), length_seq.
    unfold content_similarities, cosine_similarity. rewrite length_map. lia.
  - intros rec Hrec.
    clear H. induction Hrows as [|idx r idxs rs Hr _ IH]; [destruct Hrec |].
    destruct Hrec as [<- | Hrec]; [apply Hr | apply IH; exact Hrec].
Qed.

Lemma content_signal_size_witness :
  Models.content Demo.models = Some Demo.content_model /\
  Np.is_argsort
    (content_similarities Demo.world Demo.content_model Demo.known_user)
    (argsort Demo.world
       (content_similarities Demo.world Demo.content_model Demo.known_user)) /\
  (0 <= 2)%Z /\
  get_content_recommendations Demo.world Demo.models Demo.known_user 2
  = Py.Ok Shop.tied /\
  Z.of_nat (List.length Shop.tied)
  = Z.min 2 (Z.of_nat (List.length
                         (Content.feature_matrix Demo.content_model))) /\
  forall rec, In rec Shop.tied ->
    Signal.reason rec = Some "content_similarity" /\
    Signal.cultural_factor rec = None.
Proof.
  assert (Hsort :
    Np.is_argsort
      (content_similarities Demo.world Demo.content_model Demo.known_user)
      (argsort Demo.world
         (content_similarities Demo.world Demo.content_model
            Demo.known_user)))
    by (exact (argsort_is_argsort _)).
  assert (Hlimit : (0 <= 2)%Z) by lia.
  split; [reflexivity |]. split; [exact Hsort |]. split; [exact Hlimit |].
  split; [exact demo_content_request |].
  exact (content_signal_size
           Demo.world Demo.models Demo.known_user 2 Demo.content_model
           Shop.tied eq_refl Hsort Hlimit demo_content_request).
Defined.

Lemma distinct_indices_distinct_ids
      (ids : list string) (idxs : list nat) (recs : list Signal.t) :
  NoDup ids -> NoDup idxs ->
  Forall2 (fun idx rec => nth_error ids idx = Some (Signal.product_id rec))
          idxs recs ->
  NoDup (map Signal.product_id recs).
Proof.
  intros Hids Hidxs H. induction H as [|idx rec idxs recs Hrow Hrows IH];
    simpl; [constructor |].
  apply NoDup_cons_iff in Hidxs as [Hidx Hidxs].
  constructor; [| apply IH; exact Hidxs].
  intros Hin. apply Hidx. clear IH Hidxs.
  induction Hrows as [|idx' rec' idxs recs Hrow' _ IH]; [destruct Hin |].
  destruct Hin as [E | Hin].
  - left. rewrite <- E in Hrow.
    assert (Hlt : (idx' < List.length ids)%nat)
      by (apply nth_error_Some; congruence).
    apply (proj1 (NoDup_nth_error ids) Hids idx' idx Hlt). congruence.
  - right. apply IH; [| exact Hin].
    intros H. apply Hidx. right. exact H.
Qed.

(** X19.  When the stored product ids are distinct, the content signal
    never proposes a product twice. *)
Theorem content_signal_is_distinct
    (w : World) (models : Models.t) (user_profile : UserProfile) (limit : Z)
    (model : Content.t) (recs : list Signal.t) :
  Models.content models = Some model ->
  NoDup (Content.product_ids model) ->
  Np.is_argsort (content_similarities w model user_profile)
                (argsort w (content_similarities w model user_profile)) ->
  get_content_recommendations w models user_profile limit = Py.Ok recs ->
  NoDup (map Signal.product_id recs).
Proof.
  intros Hmodel Hids [Hperm _] H.
  pose proof (content_recommendations_rows _ _ _ _ _ _ Hmodel H) as Hrows.
  apply (distinct_indices_distinct_ids (Content.product_ids model)
           (Py.slice_to
              (rev (argsort w (content_similarities w model user_profile)))
              limit)); [exact Hids | |].
  - unfold Py.slice_to. apply NoDup_firstn, NoDup_rev.
    eapply Permutation_NoDup; [apply Permutation_sym, Hperm | apply seq_NoDup].
  - eapply Forall2_impl; [| exact Hrows]. intros idx rec Hrow. apply Hrow.
Qed.

Lemma content_signal_is_distinct_witness :
  Models.content Demo.models = Some Demo.content_model /\
  NoDup (Content.product_ids Demo.content_model) /\
  Np.is_argsort
    (content_similarities Demo.world Demo.content_model Demo.known_user)
    (argsort Demo.world
       (content_similarities Demo.world Demo.content_model Demo.known_user)) /\
  get_content_recommendations Demo.world Demo.models Demo.known_user 2
  = Py.Ok Shop.tied /\
  NoDup (map Signal.product_id Shop.tied).
Proof.
  assert (Hids : NoDup (Content.product_ids Demo.content_model))
    by (repeat constructor; simpl; intuition discriminate).
  assert (Hsort :
    Np.is_argsort
      (content_similarities Demo.world Demo.content_model Demo.known_user)
      (argsort Demo.world
         (content_similarities Demo.world Demo.content_model
            Demo.known_user)))
    by (exact (argsort_is_argsort _)).
  split; [reflexivity |]. split; [exact Hids |]. split; [exact Hsort |].
  split; [exact demo_content_request |].
  exact (content_signal_is_distinct
           Demo.world Demo.models Demo.known_user 2 Demo.content_model
           Shop.tied eq_refl Hids Hsort demo_content_request).
Defined.

(** X20.  The Uzbek text processor is applied to the user's
    pseudo-document only when the profile's language is [uz]; for any
    other language the content candidates do not depend on it. *)
Theorem text_processor_only_for_uzbek
    (w : World) (models : Models.t) (user_profile : UserProfile) (limit : Z)
    (f g : string -> string) :
  language user_profile <> "uz" ->
  get_content_recommendations (with_process_text w f) models user_profile
    limit
  = get_content_recommendations (with_process_text w g) models user_profile
      limit.
Proof.
  intros Hlang. apply String.eqb_neq in Hlang.
  unfold get_content_recommendations, content_similarities.
  rewrite Hlang. reflexivity.
Qed.

Lemma text_processor_only_for_uzbek_witness :
  language Shop.russian_reader <> "uz" /\
  get_content_recommendations
    (with_process_text Demo.world (fun text => text)) Demo.models
    Shop.russian_reader 2
  = get_content_recommendations
      (with_process_text Demo.world (fun _ => "")) Demo.models
      Shop.russian_reader 2.
Proof.
  assert (Hlang : language Shop.russian_reader <> "uz") by discriminate.
  split; [exact Hlang |].
  exact (text_processor_only_for_uzbek Demo.world Demo.models
           Shop.russian_reader 2 (fun text => text) (fun _ => "") Hlang).
Defined.

(* ================================================================== *)
(** ** Similar products: errors, size, and when the product is left out *)
(* ================================================================== *)

(** A loop raises only what its body raises. *)
Lemma collect_raises {S T : Type} (P : Py.exn -> Prop)
      (body : S -> Py.result T) (xs : list S) :
  (forall x e, body x = Py.Raise e -> P e) ->
  forall e, Py.collect xs body = Py.Raise e -> P e.
Proof.
  intros Hbody. induction xs as [|x xs IH]; simpl; intros e; [discriminate |].
  destruct (body x) as [y | e'] eqn:Ex; simpl.
  - destruct (Py.collect xs body) as [ys | e'']; simpl; [discriminate |].
    intros E. injection E as <-. apply IH. reflexivity.
  - intros E. injection E as <-. apply (Hbody x). exact Ex.
Qed.

Section SimilarProducts.

Variables (w : World) (models : Models.t) (model : Content.t).
Hypothesis Hmodel : Models.content models = Some model.

(** The loop of the endpoint, for a product found at index [self]. *)
Let answer (self : nat) (limit : Z) : Py.result (list SimilarProduct) :=
  product_vector <- Py.getitem (Content.feature_matrix model) self ;;
  let similarities :=
    cosine_similarity w product_vector (Content.feature_matrix model) in
  Py.collect (Py.slice (rev (argsort w similarities)) 1 (limit + 1))
    (fun idx =>
       similar_product_id <- Py.getitem (Content.product_ids model) idx ;;
       similarity_score <- Py.getitem similarities idx ;;
       Py.Ok {| similar_product_id := similar_product_id;
                similarity_score := similarity_score;
                similar_reason := "content_similarity" |}).

(** Inside the [try] only an index can be out of range. *)
Lemma answer_raises_IndexError (self : nat) (limit : Z) (e : Py.exn) :
  answer self limit = Py.Raise e -> e = Py.IndexError.
Proof.
  unfold answer, Py.getitem.
  destruct (nth_error (Content.feature_matrix model) self) as [row|];
    simpl; [| intros E; injection E as <-; reflexivity].
  revert e. apply (collect_raises (fun e => e = Py.IndexError)).
  intros idx e'.
  destruct (nth_error (Content.product_ids model) idx); simpl;
    [| intros E; injection E as <-; reflexivity].
  destruct (nth_error _ idx); simpl; [discriminate |].
  intros E. injection E as <-. reflexivity.
Qed.

(** A product of the list is answered by the loop at its first index. *)
Lemma get_similar_products_present (product_id : string) (limit : Z) :
  In product_id (Content.product_ids model) ->
  exists self,
    nth_error (Content.product_ids model) self = Some product_id /\
    get_similar_products w models product_id limit = answer self limit.
Proof.
  intros Hin. unfold get_similar_products, Py.index. rewrite Hmodel.
  destruct (index_from_present _ _ 0 Hin) as [self [-> Hself]].
  exists self. split; [exact Hself |].
  simpl. fold (answer self limit).
  pose proof (answer_raises_IndexError self limit) as Hraise.
  destruct (answer self limit) as [out | e]; simpl; [reflexivity |].
  rewrite (Hraise e eq_refl). reflexivity.
Qed.

Lemma get_similar_products_absent (product_id : string) (limit : Z) :
  ~ In product_id (Content.product_ids model) ->
  get_similar_products w models product_id limit
  = Py.Raise (Py.HTTPException 404).
Proof.
  intros Hout. unfold get_similar_products, Py.index.
  rewrite Hmodel, (index_from_absent _ _ 0 Hout). reflexivity.
Qed.

(** What an answer consists of. *)
Lemma answer_rows (self : nat) (limit : Z) (out : list SimilarProduct) :
  answer self limit = Py.Ok out ->
  exists row,
    nth_error (Content.feature_matrix model) self = Some row /\
    Forall2
      (fun idx sp =>
         nth_error (Content.product_ids model) idx
         = Some (similar_product_id sp))
      (Py.slice
         (rev (argsort w
                 (cosine_similarity w row (Content.feature_matrix model))))
         1 (limit + 1))
      out.
Proof.
  unfold answer, Py.getitem.
  destruct (nth_error (Content.feature_matrix model) self) as [row|];
    simpl; [| discriminate].
  intros H. exists row. split; [reflexivity |].
  apply collect_Forall2 in H. eapply Forall2_impl; [| exact H].
  intros idx sp. simpl.
  destruct (nth_error (Content.product_ids model) idx); simpl;
    [| discriminate].
  destruct (nth_error _ idx); simpl; [| discriminate].
  intros E. injection E as <-. reflexivity.
Qed.


End SimilarProducts.



Lemma slice_after_first_length {T : Type} (xs : list T) (limit : Z) :
  (0 <= limit)%Z ->
  (Z.of_nat (List.length (Py.slice xs 1 (limit + 1))) <= limit)%Z.
Proof.
  intros H. unfold Py.slice.
  rewrite length_firstn, length_skipn.
  rewrite !clamp_nonneg by lia. lia.
Qed.

(** X22.  For a limit that is not negative the endpoint returns at most
    [limit] similar products. *)
Theorem similar_products_bounded
    (w : World) (models : Models.t) (product_id : string) (limit : Z)
    (out : list SimilarProduct) :
  (0 <= limit)%Z ->
  get_similar_products w models product_id limit = Py.Ok out ->
  (Z.of_nat (List.length out) <= limit)%Z.
Proof.
  intros Hlimit H.
  destruct (Models.content models) as [model|] eqn:Hmodel;
    [| unfold get_similar_products in H; rewrite Hmodel in H; discriminate].
  destruct (in_dec string_dec product_id (Content.product_ids model))
    as [Hin | Hout];
    [| rewrite (get_similar_products_absent w models model Hmodel _ _ Hout)
         in H; discriminate].
  destruct (get_similar_products_present w models model Hmodel product_id
              limit Hin) as [self [_ E]].
  rewrite E in H.
  destruct (answer_rows w model self limit out H) as [row [_ Hrows]].
  rewrite <- (Forall2_length Hrows).
  apply slice_after_first_length. exact Hlimit.
Qed.

Lemma demo_similar_to_C :
  get_similar_products Demo.world Demo.models "C" 2
  = Py.Ok [Demo.similar "B" 0; Demo.similar "A" 0].
Proof. vm_compute. reflexivity. Qed.

Lemma similar_products_bounded_witness :
  (0 <= 2)%Z /\
  get_similar_products Demo.world Demo.models "C" 2
  = Py.Ok [Demo.similar "B" 0; Demo.similar "A" 0] /\
  (Z.of_nat (List.length [Demo.similar "B" 0; Demo.similar "A" 0]) <= 2)%Z.
Proof.
  assert (Hlimit : (0 <= 2)%Z) by lia.
  split; [exact Hlimit |]. split; [exact demo_similar_to_C |].
  exact (similar_products_bounded Demo.world Demo.models "C" 2
           [Demo.similar "B" 0; Demo.similar "A" 0] Hlimit demo_similar_to_C).
Defined.

Lemma Sorted_neighbours {T : Type} (R : T -> T -> Prop)
      (l1 l2 : list T) (p x : T) :
  Sorted R (l1 ++ p :: x :: l2) -> R p x.
Proof.
  induction l1 as [|a l1 IH]; simpl; intros H.
  - inversion H as [|? ? _ Hh]; subst. inversion Hh; subst. assumption.
  - inversion H; subst. apply IH. assumption.
Qed.

Lemma tail_has_predecessor {T : Type} (h x : T) (t : list T) :
  In x t -> exists l1 p l2, h :: t = l1 ++ p :: x :: l2.
Proof.
  revert h. induction t as [|a t IH]; intros h Hx; [destruct Hx |].
  destruct Hx as [-> | Hx].
  - exists [], h, t. reflexivity.
  - destruct (IH a Hx) as [l1 [p [l2 E]]].
    exists (h :: l1), p, l2. simpl. rewrite E. reflexivity.
Qed.

Lemma slice_from_1_In {T : Type} (h x : T) (t : list T) (stop : Z) :
  In x (Py.slice (h :: t) 1 stop) -> In x t.
Proof.
  unfold Py.slice. intros H. apply In_firstn in H.
  rewrite clamp_nonneg in H by lia. simpl in H. exact H.
Qed.

Lemma Forall2_In_right {S T : Type} (P : S -> T -> Prop)
      (xs : list S) (ys : list T) (y : T) :
  Forall2 P xs ys -> In y ys -> exists x, In x xs /\ P x y.
Proof.
  induction 1 as [|x0 y0 xs ys Hxy _ IH]; intros Hy; [destruct Hy |].
  destruct Hy as [<- | Hy]; [exists x0; split; [left; reflexivity | exact Hxy] |].
  destruct (IH Hy) as [x [Hx Hp]]. exists x. split; [right; exact Hx | exact Hp].
Qed.

(** A strictly dominant entry comes first in the descending order. *)
Lemma dominant_is_first (a : list float) (p : list nat) (self : nat) :
  Np.is_argsort a p ->
  (self < List.length a)%nat ->
  (forall j, (j < List.length a)%nat -> j <> self ->
             Np.lt (Np.value a j) (Np.value a self) = true) ->
  exists rest, rev p = self :: rest /\ ~ In self rest.
Proof.
  intros [Hperm Hsorted] Hself Hdom.
  assert (Hperm' : Permutation (rev p) (seq 0 (List.length a)))
    by (eapply perm_trans; [apply Permutation_sym, Permutation_rev | exact Hperm]).
  assert (Hnd : NoDup (rev p))
    by (eapply Permutation_NoDup;
          [apply Permutation_sym, Hperm' | apply seq_NoDup]).
  assert (Hin : In self (rev p)).
  { apply (Permutation_in _ (Permutation_sym Hperm')), in_seq. lia. }
  apply (Sorted_rev (Np.ascending a)) in Hsorted.
  destruct (rev p) as [|h t]; [destruct Hin |].
  destruct Hin as [-> | Hin].
  - exists t. split; [reflexivity |].
    apply NoDup_cons_iff in Hnd. apply Hnd.
  - exfalso.
    destruct (tail_has_predecessor h self t Hin) as [l1 [q [l2 E]]].
    rewrite E in Hsorted, Hnd, Hperm'.
    pose proof (Sorted_neighbours _ _ _ _ _ Hsorted) as Hadj.
    unfold Np.ascending in Hadj.
    assert (Hq : In q (l1 ++ q :: self :: l2))
      by (apply in_or_app; right; left; reflexivity).
    apply (Permutation_in _ Hperm'), in_seq in Hq.
    apply NoDup_remove_2 in Hnd.
    rewrite Hdom in Hadj; [discriminate | lia |].
    intros ->. apply Hnd. apply in_or_app. right. left. reflexivity.
Qed.

(** X23.  When the product ids are distinct and the queried product is
    strictly more similar to itself than every other product is to it,
    the endpoint does leave it out of its own neighbours. *)
Theorem similar_products_leave_out_a_dominant_product
    (w : World) (models : Models.t) (model : Content.t)
    (product_id : string) (limit : Z) (self : nat) (row : Vec)
    (out : list SimilarProduct) :
  Models.content models = Some model ->
  NoDup (Content.product_ids model) ->
  nth_error (Content.product_ids model) self = Some product_id ->
  nth_error (Content.feature_matrix model) self = Some row ->
  Np.is_argsort
    (cosine_similarity w row (Content.feature_matrix model))
    (argsort w (cosine_similarity w row (Content.feature_matrix model))) ->
  (forall j,
      (j < List.length (Content.feature_matrix model))%nat -> j <> self ->
      Np.lt (Np.value (cosine_similarity w row (Content.feature_matrix model))
                      j)
            (Np.value (cosine_similarity w row (Content.feature_matrix model))
                      self) = true) ->
  get_similar_products w models product_id limit = Py.Ok out ->
  ~ In product_id (map similar_product_id out).
Proof.
  intros Hmodel Hids Hself Hrow Hsort Hdom H Hin.
  assert (Hlisted : In product_id (Content.product_ids model))
    by (eapply nth_error_In; exact Hself).
  destruct (get_similar_products_present w models model Hmodel product_id
              limit Hlisted) as [self' [Hself' E]].
  assert (self' = self).
  { apply (proj1 (NoDup_nth_error _) Hids);
      [apply nth_error_Some; congruence | congruence]. }
  subst self'. rewrite E in H.
  destruct (answer_rows w model self limit out H) as [row' [Hrow' Hrows]].
  assert (row' = row) by congruence. subst row'.
  set (sims := cosine_similarity w row (Content.feature_matrix model)) in *.
  assert (Hlen : List.length sims = List.length (Content.feature_matrix model))
    by (subst sims; unfold cosine_similarity; apply length_map).
  destruct (dominant_is_first sims (argsort w sims) self Hsort) as
    [rest [Hfirst Hrest]].
  - rewrite Hlen. apply nth_error_Some. congruence.
  - intros j Hj. apply Hdom. rewrite <- Hlen. exact Hj.
  - rewrite Hfirst in Hrows.
    apply in_map_iff in Hin as [sp [Hsp Hout]].
    destruct (Forall2_In_right _ _ _ _ Hrows Hout) as [idx [Hidx Hid]].
    apply slice_from_1_In in Hidx.
    assert (idx = self).
    { apply (proj1 (NoDup_nth_error _) Hids);
        [apply nth_error_Some; congruence | congruence]. }
    subst idx. contradiction.
Qed.

Lemma similar_products_leave_out_a_dominant_product_witness :
  Models.content Demo.models = Some Demo.content_model /\
  NoDup (Content.product_ids Demo.content_model) /\
  nth_error (Content.product_ids Demo.content_model) 2 = Some "C" /\
  nth_error (Content.feature_matrix Demo.content_model) 2 = Some [0; 1] /\
  get_similar_products Demo.world Demo.models "C" 2
  = Py.Ok [Demo.similar "B" 0; Demo.similar "A" 0] /\
  ~ In "C" (map similar_product_id [Demo.similar "B" 0; Demo.similar "A" 0]).
Proof.
  assert (Hids : NoDup (Content.product_ids Demo.content_model))
    by (repeat constructor; simpl; intuition discriminate).
  assert (Hdom :
    forall j,
      (j < List.length (Content.feature_matrix Demo.content_model))%nat ->
      j <> 2%nat ->
      Np.lt (Np.value (cosine_similarity Demo.world [0; 1]
                         (Content.feature_matrix Demo.content_model)) j)
            (Np.value (cosine_similarity Demo.world [0; 1]
                         (Content.feature_matrix Demo.content_model)) 2)
      = true).
  { intros j Hj Hne. destruct j as [|[|[|j]]];
      [vm_compute; reflexivity | vm_compute; reflexivity | contradiction |].
    simpl in Hj. lia. }
  split; [reflexivity |]. split; [exact Hids |].
  split; [reflexivity |]. split; [reflexivity |].
  split; [exact demo_similar_to_C |].
  exact (similar_products_leave_out_a_dominant_product
           Demo.world Demo.models Demo.content_model "C" 2 2 [0; 1]
           [Demo.similar "B" 0; Demo.similar "A" 0]
           eq_refl Hids eq_refl eq_refl (argsort_is_argsort _) Hdom
           demo_similar_to_C).
Defined.

(* ================================================================== *)
(** ** Profiles and the cache *)
(* ================================================================== *)

(** The list comprehension keeps exactly the non-empty strings. *)
Lemma truthy_items_In (xs : option (list (option string))) (s : string) :
  In s (truthy_items xs) <-> s <> "" /\ In (Some s) (Py.or_list xs []).
Proof.
  unfold truthy_items. rewrite in_flat_map. split.
  - intros [[t|] [Hin Hs]]; [| destruct Hs].
    simpl in Hs. destruct (String.eqb_spec t "") as [-> | Hne];
      simpl in Hs; [destruct Hs |].
    destruct Hs as [<- | []]. auto.
  - intros [Hne Hin]. exists (Some s). split; [exact Hin |].
    simpl. rewrite (proj2 (String.eqb_neq s "") Hne). left. reflexivity.
Qed.

Section ProfileCache.

Variable sv : Serving.
Variable uid : string.

Let cache_key : string := ("user_profile:" ++ uid)%string.

(** X24.  Cache-aside with read-your-write: on a miss with a valid row,
    [get_user_profile] builds the profile, stores it under the user's
    key and touches no other key; on the cache it leaves behind, the
    profile is answered without looking at the store, whatever the store
    has become.  (The entry's expiry is Redis's business and is not
    modelled: the statement is about the cache as written.) *)
Theorem profile_is_cached_after_a_miss
    (redis : Redis) (row : UserRow.t) (row_region : string) :
  Py.get redis cache_key = None ->
  fetch_user_row sv uid = Some row ->
  UserRow.region row = Some row_region ->
  exists profile redis',
    get_user_profile sv uid redis = (Py.Ok (Some profile), redis') /\
    user_id profile = UserRow.user_id row /\
    region profile = row_region /\
    Py.get redis' cache_key = Some (ProfileJson profile) /\
    (forall key, key <> cache_key -> Py.get redis' key = Py.get redis key) /\
    (forall sv', get_user_profile sv' uid redis'
                 = (Py.Ok (Some profile), redis')).
Proof.
  intros Hmiss Hrow Hregion.
  unfold get_user_profile, IO.bind, IO.get, IO.setex, IO.ret.
  fold cache_key. rewrite Hmiss, Hrow, Hregion.
  eexists. eexists. split; [reflexivity |].
  split; [reflexivity |]. split; [reflexivity |].
  split; [apply get_set_same |].
  split.
  - intros key Hkey. apply get_set_other. congruence.
  - intros sv'. fold cache_key. rewrite get_set_same. reflexivity.
Qed.

(** X25.  A user without a row is answered [None] and nothing is cached;
    a row without a region fails validation and nothing is cached
    either. *)
Theorem missing_profile_is_not_cached (redis : Redis) :
  Py.get redis cache_key = None ->
  (fetch_user_row sv uid = None ->
   get_user_profile sv uid redis = (Py.Ok None, redis))
  /\
  (forall row,
      fetch_user_row sv uid = Some row ->
      UserRow.region row = None ->
      get_user_profile sv uid redis = (Py.Raise Py.ValueError, redis)).
Proof.
  intros Hmiss.
  unfold get_user_profile, IO.bind, IO.get, IO.ret, IO.raise.
  fold cache_key. rewrite Hmiss. split.
  - intros ->. reflexivity.
  - intros row -> ->. reflexivity.
Qed.

(** X26.  A profile built from a row never has an empty language (a
    missing or empty one becomes [uz]), and its interests and purchase
    history are exactly the non-empty entries of the row's arrays. *)
Theorem built_profile_is_clean
    (redis redis' : Redis) (row : UserRow.t) (profile : UserProfile) :
  Py.get redis cache_key = None ->
  fetch_user_row sv uid = Some row ->
  get_user_profile sv uid redis = (Py.Ok (Some profile), redis') ->
  language profile <> "" /\
  (Py.truthy (UserRow.language row) = false -> language profile = "uz") /\
  (forall s, In s (interests profile) <->
             s <> "" /\ In (Some s) (Py.or_list (UserRow.interests row) [])) /\
  (forall s, In s (purchase_history profile) <->
             s <> "" /\
             In (Some s) (Py.or_list (UserRow.purchase_history row) [])).
Proof.
  intros Hmiss Hrow.
  unfold get_user_profile, IO.bind, IO.get, IO.setex, IO.ret, IO.raise.
  fold cache_key. rewrite Hmiss, Hrow.
  destruct (UserRow.region row) as [row_region|]; [| discriminate].
  intros H. injection H as <- _. cbn [language interests purchase_history].
  split; [| split; [| split; intros s; apply truthy_items_In]].
  - destruct (UserRow.language row) as [l|]; simpl; [| discriminate].
    destruct (String.eqb_spec l "") as [-> | Hne]; simpl;
      [discriminate | exact Hne].
  - intros ->. reflexivity.
Qed.

End ProfileCache.

Lemma profile_is_cached_after_a_miss_witness :
  exists profile redis',
    get_user_profile Shop.serving "u1" [] = (Py.Ok (Some profile), redis') /\
    user_id profile = "u1" /\
    region profile = "TSH" /\
    Py.get redis' "user_profile:u1" = Some (ProfileJson profile) /\
    (forall key, key <> "user_profile:u1"%string ->
                 Py.get redis' key = Py.get [] key) /\
    (forall sv', get_user_profile sv' "u1" redis'
                 = (Py.Ok (Some profile), redis')).
Proof.
  exact (profile_is_cached_after_a_miss Shop.serving "u1" [] Shop.user_row
           "TSH" eq_refl eq_refl eq_refl).
Defined.

Lemma missing_profile_is_not_cached_witness :
  (fetch_user_row Shop.emptied "u1" = None ->
   get_user_profile Shop.emptied "u1" [] = (Py.Ok None, []))
  /\
  (forall row,
      fetch_user_row Shop.emptied "u1" = Some row ->
      UserRow.region row = None ->
      get_user_profile Shop.emptied "u1" []
      = (Py.Raise Py.ValueError, [])).
Proof.
  exact (missing_profile_is_not_cached Shop.emptied "u1" [] eq_refl).
Defined.

Lemma built_profile_is_clean_witness :
  get_user_profile Shop.serving "u1" []
  = (Py.Ok (Some Shop.user_profile),
     [("user_profile:u1"%string, ProfileJson Shop.user_profile)]) /\
  language Shop.user_profile <> "" /\
  interests Shop.user_profile = ["cooling"].
Proof.
  assert (Hrun : get_user_profile Shop.serving "u1" []
                 = (Py.Ok (Some Shop.user_profile),
                    [("user_profile:u1"%string,
                      ProfileJson Shop.user_profile)]))
    by reflexivity.
  split; [exact Hrun |].
  split; [| reflexivity].
  exact (proj1 (built_profile_is_clean Shop.serving "u1" [] _ Shop.user_row
                  Shop.user_profile eq_refl eq_refl Hrun)).
Defined.

(* ================================================================== *)
(** ** The recommendation endpoint *)
(* ================================================================== *)


Section Endpoint.

Variable w : World.
Variable models : Models.t.
Variable sv : Serving.
Variable request : Request.t.

Let profile_key : string :=
  ("user_profile:" ++ Request.user_id request)%string.

Let response_key : string :=
  ("recommendations:" ++ Request.user_id request ++ ":"
   ++ Request.context request)%string.

(** What the endpoint does once the profile is resolved. *)
Lemma endpoint_after_profile (redis redis1 : Redis) (p : UserProfile) :
  get_user_profile sv (Request.user_id request) redis
  = (Py.Ok (Some p), redis1) ->
  recommendations_endpoint w models sv request redis
  = match get_recommendations w models p (Request.context request)
            (Request.limit request)
            (Some (Request.exclude_products request)) with
    | Py.Raise e => (Py.Raise e, redis1)
    | Py.Ok recs =>
        let response :=
          {| Response.user_id := Request.user_id request;
             Response.recommendations := recs;
             Response.context := Request.context request;
             Response.generated_at := now sv;
             Response.model_version := "uzbekistan_v1.0";
             Response.uzbekistan_factors :=
               {| Factors.current_season := get_current_season w;
                  Factors.is_ramadan := is_ramadan_period w;
                  Factors.is_navruz := is_navruz_period w;
                  Factors.user_region := region p;
                  Factors.cultural_weighting_applied := true |} |} in
        (Py.Ok response, Py.set redis1 response_key (ResponseJson response))
    end.
Proof.
  intros Hp. unfold recommendations_endpoint, IO.bind at 1. rewrite Hp.
  unfold IO.bind, IO.lift, IO.setex, IO.ret.
  destruct (get_recommendations w models p _ _ _); reflexivity.
Qed.

(** The outcome of [get_user_profile] is decided by the profile entry of
    the cache alone. *)
Lemma get_user_profile_reads_one_key (redis1 redis2 : Redis) (uid : string) :
  Py.get redis1 ("user_profile:" ++ uid)%string
  = Py.get redis2 ("user_profile:" ++ uid)%string ->
  fst (get_user_profile sv uid redis1) = fst (get_user_profile sv uid redis2).
Proof.
  intros H. unfold get_user_profile, IO.bind, IO.get, IO.setex, IO.ret,
              IO.raise.
  rewrite H.
  destruct (Py.get redis2 _) as [[p | r] |]; try reflexivity.
  destruct (fetch_user_row sv uid) as [row|]; [| reflexivity].
  destruct (UserRow.region row); reflexivity.
Qed.

(** A row with a region always yields a profile. *)
Lemma get_user_profile_builds
      (redis : Redis) (row : UserRow.t) (row_region : string) :
  Py.get redis profile_key = None ->
  fetch_user_row sv (Request.user_id request) = Some row ->
  UserRow.region row = Some row_region ->
  exists p redis1,
    get_user_profile sv (Request.user_id request) redis
    = (Py.Ok (Some p), redis1).
Proof.
  intros Eg Er Ereg.
  unfold get_user_profile, IO.bind, IO.get, IO.setex, IO.ret.
  fold profile_key. rewrite Eg, Er, Ereg.
  eexists. eexists. reflexivity.
Qed.

(** With sound artifacts a resolved profile is always answered. *)
Lemma endpoint_answers (redis redis1 : Redis) (p : UserProfile) :
  parallel_artifacts models ->
  argsort_contract w ->
  get_user_profile sv (Request.user_id request) redis
  = (Py.Ok (Some p), redis1) ->
  exists response redis',
    recommendations_endpoint w models sv request redis
    = (Py.Ok response, redis').
Proof.
  intros Hparallel Hargsort Hp.
  rewrite (endpoint_after_profile _ _ _ Hp).
  destruct (get_recommendations_returns w models Hparallel Hargsort p
              (Request.context request) (Request.limit request)
              (Some (Request.exclude_products request))) as [recs ->].
  eexists. eexists. reflexivity.
Qed.


(** X28.  The responses the endpoint stores are never read back: two
    caches that agree on the user's profile entry give the same outcome,
    whatever responses they hold. *)
Theorem endpoint_never_reads_cached_responses (redis1 redis2 : Redis) :
  Py.get redis1 profile_key = Py.get redis2 profile_key ->
  fst (recommendations_endpoint w models sv request redis1)
  = fst (recommendations_endpoint w models sv request redis2).
Proof.
  intros H.
  pose proof (get_user_profile_reads_one_key redis1 redis2
                (Request.user_id request) H) as Hfst.
  destruct (get_user_profile sv (Request.user_id request) redis1)
    as [r1 s1] eqn:E1.
  destruct (get_user_profile sv (Request.user_id request) redis2)
    as [r2 s2] eqn:E2.
  simpl in Hfst. subst r2.
  destruct r1 as [[p |] | e].
  - rewrite (endpoint_after_profile _ _ _ E1), (endpoint_after_profile _ _ _ E2).
    destruct (get_recommendations w models p _ _ _); reflexivity.
  - unfold recommendations_endpoint, IO.bind. rewrite E1, E2. reflexivity.
  - unfold recommendations_endpoint, IO.bind. rewrite E1, E2. reflexivity.
Qed.

(** X29.  With sound artifacts the endpoint answers 404 exactly when the
    user has neither a cache entry nor a row, and then it leaves the
    cache as it found it. *)
Theorem not_found_exactly_for_unknown_users (redis : Redis) :
  parallel_artifacts models ->
  argsort_contract w ->
  (fst (recommendations_endpoint w models sv request redis)
   = Py.Raise (Py.HTTPException 404)
   <-> Py.get redis profile_key = None /\
       fetch_user_row sv (Request.user_id request) = None) /\
  (fst (recommendations_endpoint w models sv request redis)
   = Py.Raise (Py.HTTPException 404) ->
   snd (recommendations_endpoint w models sv request redis) = redis).
Proof.
  intros Hparallel Hargsort.
  assert (Hanswered : forall p redis1,
             get_user_profile sv (Request.user_id request) redis
             = (Py.Ok (Some p), redis1) ->
             fst (recommendations_endpoint w models sv request redis)
             <> Py.Raise (Py.HTTPException 404)).
  { intros p redis1 Hp.
    destruct (endpoint_answers _ _ _ Hparallel Hargsort Hp)
      as [response [redis' E]].
    rewrite E. discriminate. }
  assert (Hcases :
            fst (recommendations_endpoint w models sv request redis)
            = Py.Raise (Py.HTTPException 404) ->
            Py.get redis profile_key = None /\
            fetch_user_row sv (Request.user_id request) = None).
  { intros H404.
    destruct (Py.get redis profile_key) as [[p | r] |] eqn:Eg.
    - exfalso. refine (Hanswered p redis _ H404).
      unfold get_user_profile, IO.bind, IO.get, IO.ret.
      fold profile_key. rewrite Eg. reflexivity.
    - exfalso. revert H404.
      unfold recommendations_endpoint, get_user_profile, IO.bind, IO.get,
        IO.raise.
      fold profile_key. rewrite Eg. discriminate.
    - destruct (fetch_user_row sv (Request.user_id request)) as [row|] eqn:Er;
        [| split; reflexivity].
      exfalso. destruct (UserRow.region row) as [row_region|] eqn:Ereg.
      + destruct (get_user_profile_builds _ _ _ Eg Er Ereg) as [p [redis1 Hp]].
        exact (Hanswered p redis1 Hp H404).
      + revert H404.
        unfold recommendations_endpoint, get_user_profile, IO.bind, IO.get,
          IO.raise.
        fold profile_key. rewrite Eg, Er, Ereg. discriminate. }
  assert (Hrun : Py.get redis profile_key = None ->
                 fetch_user_row sv (Request.user_id request) = None ->
                 recommendations_endpoint w models sv request redis
                 = (Py.Raise (Py.HTTPException 404), redis)).
  { intros Eg Er.
    unfold recommendations_endpoint, get_user_profile, IO.bind, IO.get,
      IO.ret, IO.raise.
    fold profile_key. rewrite Eg, Er. reflexivity. }
  split; [split |].
  - exact Hcases.
  - intros [Eg Er]. rewrite (Hrun Eg Er). reflexivity.
  - intros H404. destruct (Hcases H404) as [Eg Er].
    rewrite (Hrun Eg Er). reflexivity.
Qed.

End Endpoint.


Lemma endpoint_never_reads_cached_responses_witness :
  Py.get (@nil (string * CacheValue)) "user_profile:u1"
  = Py.get Shop.stale_cache "user_profile:u1" /\
  fst (recommendations_endpoint Demo.world Demo.models Shop.serving
         Shop.request [])
  = fst (recommendations_endpoint Demo.world Demo.models Shop.serving
           Shop.request Shop.stale_cache).
Proof.
  split; [reflexivity |].
  exact (endpoint_never_reads_cached_responses Demo.world Demo.models
           Shop.serving Shop.request [] Shop.stale_cache eq_refl).
Defined.

Lemma not_found_exactly_for_unknown_users_witness :
  fst (recommendations_endpoint Demo.world Demo.models Shop.emptied
         Shop.request Shop.stale_cache)
  = Py.Raise (Py.HTTPException 404) /\
  snd (recommendations_endpoint Demo.world Demo.models Shop.emptied
         Shop.request Shop.stale_cache)
  = Shop.stale_cache.
Proof.
  pose (H := not_found_exactly_for_unknown_users Demo.world Demo.models
               Shop.emptied Shop.request Shop.stale_cache
               (proj1 demo_returns) (proj2 demo_returns)).
  assert (H404 : fst (recommendations_endpoint Demo.world Demo.models
                        Shop.emptied Shop.request Shop.stale_cache)
                 = Py.Raise (Py.HTTPException 404))
    by exact (proj2 (proj1 H) (conj eq_refl eq_refl)).
  split; [exact H404 | exact (proj2 H H404)].
Defined.

(* ================================================================== *)
(** ** Trending products *)
(* ================================================================== *)

Lemma valid_regions_have_multipliers (region : string) :
  In region valid_regions <-> Py.contains regional_multipliers region = true.
Proof.
  rewrite contains_mem_keys. symmetry. apply mem_In.
Qed.

(** X30.  The trending endpoint accepts exactly the region codes that
    have their own price multiplier; any other code is a 400 whatever
    the store holds.  For an accepted code it reports one entry per row
    of the query, in the query's order, scored with two points per
    recent order and one per item sold; a rating of zero is reported as
    missing. *)
Theorem trending_validates_region_then_scores
    (sv : Serving) (region : string) (limit : Z) :
  (Py.contains regional_multipliers region = false ->
   forall sv', get_trending_products sv' region limit
               = Py.Raise (Py.HTTPException 400)) /\
  (Py.contains regional_multipliers region = true ->
   exists out,
     get_trending_products sv region limit = Py.Ok out /\
     Forall2 reported (fetch_trending_rows sv region limit) out).
Proof.
  split.
  - intros Hout sv'. unfold get_trending_products.
    destruct (Py.mem region valid_regions) eqn:E; [| reflexivity].
    apply mem_In, valid_regions_have_multipliers in E. congruence.
  - intros Hin. unfold get_trending_products.
    apply valid_regions_have_multipliers, mem_In in Hin. rewrite Hin.
    cbn [negb]. eexists. split; [reflexivity |].
    induction (fetch_trending_rows sv region limit) as [|row rows IH];
      simpl; constructor; [| exact IH].
    unfold reported.
    cbn [Trending.product_id Trending.recent_orders
         Trending.total_items_sold Trending.trend_score
         Trending.avg_rating].
    split; [reflexivity |]. split; [reflexivity |]. split; [reflexivity |].
    split; [lia |].
    intros r Hr. destruct (TrendingRow.avg_rating row) as [r0|];
      [| discriminate].
    destruct (PrimFloat.eqb r0 0%float) eqn:E; [discriminate |].
    injection Hr as <-. split; [reflexivity | exact E].
Qed.

Lemma trending_validates_region_then_scores_witness :
  Py.contains regional_multipliers "MOS" = false /\
  Py.contains regional_multipliers "TSH" = true /\
  get_trending_products Shop.serving "MOS" 20
  = Py.Raise (Py.HTTPException 400) /\
  exists out,
    get_trending_products Shop.serving "TSH" 20 = Py.Ok out /\
    Forall2 reported (fetch_trending_rows Shop.serving "TSH" 20) out.
Proof.
  split; [reflexivity |]. split; [reflexivity |]. split.
  - exact (proj1 (trending_validates_region_then_scores Shop.serving "MOS" 20)
             eq_refl Shop.serving).
  - exact (proj2 (trending_validates_region_then_scores Shop.serving "TSH" 20)
             eq_refl).
Defined.

